(** * Venue conflict detection and scheduling of the campus event backend

    A shallow embedding of the event controller
    ([checkEventConflict], [createEvent], [updateEvent],
    [checkAvailability], [getVenueSchedule]) together with the part of the
    Prisma client those handlers call, and the properties of the venue
    conflict checker stated in the specification. *)

From Stdlib Require Import ZArith List String Ascii Bool Lia.
From Stdlib Require Import Permutation Sorted Orders Mergesort.
Import ListNotations.

Local Open Scope string_scope.
Local Open Scope Z_scope.

(* ================================================================== *)
(** ** Data model *)

Inductive EventStatus := PENDING | APPROVED | REJECTED | CANCELLED.

Inductive UserRole := STUDENT | ORGANIZER | ADMIN.

Record User := {
  user_id : string;
  email : string;
  name : string;
  role : UserRole;
  clubName : option string
}.

(** An event row.  [createdBy] is the required relation to the organizer's
    user row, as [include: { createdBy }] joins it; the foreign key
    [createdById] is its id.  Timestamps are milliseconds since the epoch. *)
Record Event := {
  id : string;
  title : string;
  description : string;
  imageUrl : option string;
  location : string;
  startDate : Z;
  endDate : Z;
  maxAttendees : Z;
  currentAttendees : Z;
  status : EventStatus;
  category : string;
  tags : list string;
  createdBy : User
}.

Definition createdById (e : Event) : string := user_id (createdBy e).

Definition EventStatus_eqb (a b : EventStatus) : bool :=
  match a, b with
  | PENDING, PENDING | APPROVED, APPROVED
  | REJECTED, REJECTED | CANCELLED, CANCELLED => true
  | _, _ => false
  end.

Definition UserRole_eqb (a b : UserRole) : bool :=
  match a, b with
  | STUDENT, STUDENT | ORGANIZER, ORGANIZER | ADMIN, ADMIN => true
  | _, _ => false
  end.

(* ================================================================== *)
(** ** JavaScript values the handlers compute with *)

(** A JS [Date]: a time value in milliseconds, or the Invalid Date that
    [new Date(s)] builds from a string it cannot parse. *)
Inductive Date := Date_at (ms : Z) | Invalid_Date.

(** Relational operators on dates compare the time values; with an
    Invalid Date (NaN) on either side every comparison is false. *)
Definition date_ge (a b : Date) : bool :=
  match a, b with
  | Date_at x, Date_at y => y <=? x
  | _, _ => false
  end.

Definition date_lt (a b : Date) : bool :=
  match a, b with
  | Date_at x, Date_at y => x <? y
  | _, _ => false
  end.

Definition date_valid (d : Date) : bool :=
  match d with Date_at _ => true | Invalid_Date => false end.

(** [start.getTime() + ms] wrapped in [new Date(...)]. *)
Definition date_plus (d : Date) (ms : Z) : Date :=
  match d with
  | Date_at x => Date_at (x + ms)
  | Invalid_Date => Invalid_Date
  end.

(** The values of a 32-bit [Int] column; the client rejects any other
    number given for one. *)
Definition int32 (n : Z) : bool :=
  (-2147483648 <=? n) && (n <=? 2147483647).

(** A request field is a string; the handlers only ever test such a field
    for truthiness, which an absent field and an empty one both fail, so
    [EmptyString] stands for both. *)
Definition truthy (s : string) : bool := negb (String.eqb s EmptyString).

(** [a || b] on strings. *)
Definition or_else (a b : string) : string := if truthy a then a else b.

(** The [tags] field of a request body: absent, a string (multipart form
    data) or an array (JSON body). *)
Inductive TagsField :=
| tags_absent
| tags_string (s : string)
| tags_array (l : list string).

Definition tags_truthy (t : TagsField) : bool :=
  match t with
  | tags_absent => false
  | tags_string s => truthy s
  | tags_array _ => true
  end.

(** Library and platform functions the handlers call. *)
Class Runtime := {
  (** [new Date(s)] *)
  Date_parse : string -> Date;
  (** [new Date(t).toLocaleString()] *)
  toLocaleString : Z -> string;
  (** [parseInt(s)]; [None] is NaN *)
  parseInt : string -> option Z;
  (** [JSON.parse(s)] when it yields an array; [None] when it throws or
      yields anything else *)
  JSON_parse_array : string -> option (list string);
  (** express-validator's [isISO8601()] and [isInt({ min: 1 })] *)
  isISO8601 : string -> bool;
  isInt_min1 : string -> bool;
  (** the identifier the database gives a new row *)
  uuid : list Event -> string
}.

(* ================================================================== *)
(** ** Prisma [where] clauses *)

Inductive DateFilter :=
| lte (d : Date)
| lt (d : Date)
| gte (d : Date)
| gt (d : Date).

(** One key of a [where] object.  An object with several keys is the list
    of its keys, all of which must hold. *)
#[warnings="-register-all"]
Inductive Where :=
| W_location (l : string)
| W_status_in (l : list EventStatus)
| W_id_not (i : string)
| W_startDate (fs : list DateFilter)
| W_endDate (fs : list DateFilter)
| W_AND (ws : list Where)
| W_OR (ws : list Where).

Definition date_filter (f : DateFilter) (v : Z) : bool :=
  match f with
  | lte (Date_at d) => v <=? d
  | lt (Date_at d) => v <? d
  | gte (Date_at d) => d <=? v
  | gt (Date_at d) => d <? v
  | _ => false
  end.

Fixpoint matches (w : Where) (e : Event) : bool :=
  match w with
  | W_location l => String.eqb (location e) l
  | W_status_in l => existsb (EventStatus_eqb (status e)) l
  | W_id_not i => negb (String.eqb (id e) i)
  | W_startDate fs => forallb (fun f => date_filter f (startDate e)) fs
  | W_endDate fs => forallb (fun f => date_filter f (endDate e)) fs
  | W_AND ws => forallb (fun w' => matches w' e) ws
  | W_OR ws => existsb (fun w' => matches w' e) ws
  end.

Definition matches_all (where_ : list Where) (e : Event) : bool :=
  forallb (fun w => matches w e) where_.

(** The client checks its arguments before it sends a query: a [Date]
    argument that is an Invalid Date is rejected with an exception. *)
Definition filter_valid (f : DateFilter) : bool :=
  match f with
  | lte (Date_at _) | lt (Date_at _) | gte (Date_at _) | gt (Date_at _) => true
  | _ => false
  end.

Fixpoint where_valid (w : Where) : bool :=
  match w with
  | W_startDate fs | W_endDate fs => forallb filter_valid fs
  | W_AND ws | W_OR ws => forallb where_valid ws
  | _ => true
  end.

(** [orderBy: { startDate: 'asc' }] *)
Module StartDateOrder <: TotalLeBool.
Definition t := Event.
Definition leb (x y : Event) : bool := startDate x <=? startDate y.
Lemma leb_total : forall x y, leb x y = true \/ leb y x = true.
Proof.
  intros x y. unfold leb.
  destruct (Z.leb_spec (startDate x) (startDate y)) as [H|H].
  - now left.
  - right. apply Z.leb_le. lia.
Qed.
End StartDateOrder.

Module EventSort := Sort StartDateOrder.

(* ================================================================== *)
(** ** The store and the calls made to it *)

Record CreateData := {
  c_title : string;
  c_description : string;
  c_location : string;
  c_startDate : Date;
  c_endDate : Date;
  c_maxAttendees : option Z;
  c_category : string;
  c_tags : list string;
  c_imageUrl : option string;
  c_createdById : string;
  c_status : EventStatus
}.

(** The [data] of an update: a key is present only when the request
    supplied a truthy value for it. *)
Record UpdateData := {
  d_title : option string;
  d_description : option string;
  d_location : option string;
  d_startDate : option Date;
  d_endDate : option Date;
  d_maxAttendees : option (option Z);
  d_category : option string;
  d_tags : option TagsField
}.

Inductive PrismaCall :=
| call_findFirst (where_ : list Where)
| call_findMany (where_ : list Where)
| call_findUnique (i : string)
| call_create (d : CreateData)
| call_update (i : string) (d : UpdateData).

(** The event and user tables, and the calls a handler has issued to the
    Prisma client so far, oldest first. *)
Record World := {
  events : list Event;
  users : list User;
  calls : list PrismaCall
}.

Definition log (c : PrismaCall) (w : World) : World :=
  {| events := events w; users := users w; calls := calls w ++ [c] |}.

Definition set_events (l : list Event) (w : World) : World :=
  {| events := l; users := users w; calls := calls w |}.

(** A computation either yields a value or throws; either way it may have
    changed the world. *)
Inductive Res (A : Type) :=
| Val (a : A)
| Exn.
Arguments Val {A} a.
Arguments Exn {A}.

Definition M (A : Type) : Type := World -> Res A * World.

Definition ret {A} (a : A) : M A := fun w => (Val a, w).

Definition throw {A} : M A := fun w => (Exn, w).

Definition bind {A B} (m : M A) (k : A -> M B) : M B :=
  fun w =>
    match m w with
    | (Val a, w') => k a w'
    | (Exn, w') => (Exn, w')
    end.

Notation "x <- m ;; k" := (bind m (fun x => k))
  (at level 61, m at next level, right associativity).

Definition is_some {A} (o : option A) : bool :=
  match o with Some _ => true | None => false end.

(** *** Reads *)

Definition prisma_event_findFirst (where_ : list Where) : M (option Event) :=
  fun w =>
    let w' := log (call_findFirst where_) w in
    if forallb where_valid where_
    then (Val (find (matches_all where_) (events w)), w')
    else (Exn, w').

Definition prisma_event_findMany_by_startDate (where_ : list Where)
  : M (list Event) :=
  fun w =>
    let w' := log (call_findMany where_) w in
    if forallb where_valid where_
    then (Val (EventSort.sort (filter (matches_all where_) (events w))), w')
    else (Exn, w').

Definition prisma_event_findUnique (i : string) : M (option Event) :=
  fun w =>
    (Val (find (fun e => String.eqb (id e) i) (events w)),
     log (call_findUnique i) w).

(** *** Writes *)

Section Handlers.
Context {rt : Runtime}.

(** [prisma.event.create]: the client rejects an Invalid Date, a NaN and
    a capacity that is no 32-bit integer, the database rejects a creator
    that is not a user row; otherwise the new row gets its identifier and
    the column defaults. *)
Definition prisma_event_create (d : CreateData) : M Event :=
  fun w =>
    let w' := log (call_create d) w in
    match c_startDate d, c_endDate d, c_maxAttendees d,
          find (fun u => String.eqb (user_id u) (c_createdById d)) (users w)
    with
    | Date_at s, Date_at e, Some n, Some u =>
        if int32 n then
          let ev := {| id := uuid (events w);
                       title := c_title d;
                       description := c_description d;
                       imageUrl := c_imageUrl d;
                       location := c_location d;
                       startDate := s;
                       endDate := e;
                       maxAttendees := n;
                       currentAttendees := 0;
                       status := c_status d;
                       category := c_category d;
                       tags := c_tags d;
                       createdBy := u |} in
          (Val ev, set_events (events w ++ [ev]) w')
        else (Exn, w')
    | _, _, _, _ => (Exn, w')
    end.

Definition upd {A} (o : option A) (old : A) : A :=
  match o with Some v => v | None => old end.

Definition upd_date (o : option Date) (old : Z) : Z :=
  match o with Some (Date_at x) => x | _ => old end.

Definition upd_int (o : option (option Z)) (old : Z) : Z :=
  match o with Some (Some n) => n | _ => old end.

Definition upd_tags (o : option TagsField) (old : list string) : list string :=
  match o with Some (tags_array l) => l | _ => old end.

Definition apply_update (d : UpdateData) (e : Event) : Event :=
  {| id := id e;
     title := upd (d_title d) (title e);
     description := upd (d_description d) (description e);
     imageUrl := imageUrl e;
     location := upd (d_location d) (location e);
     startDate := upd_date (d_startDate d) (startDate e);
     endDate := upd_date (d_endDate d) (endDate e);
     maxAttendees := upd_int (d_maxAttendees d) (maxAttendees e);
     currentAttendees := currentAttendees e;
     status := status e;
     category := upd (d_category d) (category e);
     tags := upd_tags (d_tags d) (tags e);
     createdBy := createdBy e |}.

(** What the client accepts as [data]: no Invalid Date, for the capacity
    a 32-bit integer and no NaN, and for the string list [tags] an
    array. *)
Definition update_valid (d : UpdateData) : bool :=
  match d_startDate d with Some Invalid_Date => false | _ => true end &&
  match d_endDate d with Some Invalid_Date => false | _ => true end &&
  match d_maxAttendees d with
  | Some None => false
  | Some (Some n) => int32 n
  | None => true
  end &&
  match d_tags d with Some (tags_array _) | None => true | _ => false end.

(** [prisma.event.update({ where: { id }, data })]: throws when the data is
    rejected or no row has that id. *)
Definition prisma_event_update (i : string) (d : UpdateData) : M Event :=
  fun w =>
    let w' := log (call_update i d) w in
    let rows :=
      map (fun e => if String.eqb (id e) i then apply_update d e else e)
          (events w) in
    if update_valid d then
      match find (fun e => String.eqb (id e) i) rows with
      | Some e' => (Val e', set_events rows w')
      | None => (Exn, w')
      end
    else (Exn, w').

(* ================================================================== *)
(** ** Requests and responses *)

Record EventBody := {
  b_title : string;
  b_description : string;
  b_location : string;
  b_startDate : string;
  b_endDate : string;
  b_maxAttendees : string;
  b_category : string;
  b_tags : TagsField
}.

(** [req.user], set by the authentication middleware. *)
Record AuthUser := { au_id : string; au_role : UserRole }.

Record CreateRequest := {
  cr_body : EventBody;
  cr_file : option string;
  cr_user : AuthUser
}.

Record UpdateRequest := {
  ur_id : string;
  ur_body : EventBody;
  ur_user : AuthUser
}.

Record AvailabilityQuery := {
  q_location : string;
  q_startDate : string;
  q_endDate : string;
  q_excludeEventId : string
}.

Record ScheduleQuery := {
  s_location : string;
  s_startDate : string;
  s_endDate : string
}.

Record ConflictSummary := {
  cs_id : string;
  cs_title : string;
  cs_startDate : Z;
  cs_endDate : Z;
  cs_organizer : option string
}.

Record Slot := {
  slot_id : string;
  slot_title : string;
  slot_start : Z;
  slot_end : Z;
  slot_status : EventStatus;
  slot_organizer : string
}.

Inductive Json :=
| json_errors (errors : list string)
| json_error (error : string)
| json_conflict (error message : string) (conflictingEvent : ConflictSummary)
| json_event (message : string) (event : Event)
| json_available (available : bool) (message : string)
                 (conflict : option ConflictSummary)
| json_schedule (loc : string) (from to : Date) (bookedSlots : list Slot).

Record Response := { code : Z; body : Json }.

Definition Handler : Type := World -> Response * World.

(** [try { ... } catch (error) { res.status(500).json(...) }] *)
Definition try_catch (m : M Response) (on_error : Response) : Handler :=
  fun w =>
    match m w with
    | (Val r, w') => (r, w')
    | (Exn, w') => (on_error, w')
    end.

Definition quote : string := String (ascii_of_nat 34) EmptyString.

(** [createdBy?.name || createdBy?.clubName] *)
Definition organizer (u : User) : option string :=
  if truthy (name u) then Some (name u) else clubName u.

Definition summary (e : Event) : ConflictSummary :=
  {| cs_id := id e;
     cs_title := title e;
     cs_startDate := startDate e;
     cs_endDate := endDate e;
     cs_organizer := organizer (createdBy e) |}.

Definition venue_conflict (e : Event) : Response :=
  {| code := 409;
     body := json_conflict "Venue conflict detected"
       ("This venue is already booked for " ++ quote ++ title e ++ quote
        ++ " from " ++ toLocaleString (startDate e)
        ++ " to " ++ toLocaleString (endDate e))
       (summary e) |}.

Definition error (c : Z) (msg : string) : Response :=
  {| code := c; body := json_error msg |}.

(* ================================================================== *)
(** ** The event controller *)

Definition createEventValidation (b : EventBody) : list string :=
  ((if truthy (b_title b) then [] else ["Title is required"]) ++
   (if truthy (b_description b) then [] else ["Description is required"]) ++
   (if truthy (b_location b) then [] else ["Location is required"]) ++
   (if isISO8601 (b_startDate b) then []
    else ["Valid start date is required"]) ++
   (if isISO8601 (b_endDate b) then [] else ["Valid end date is required"]) ++
   (if isInt_min1 (b_maxAttendees b) then []
    else ["Max attendees must be at least 1"]) ++
   (if truthy (b_category b) then [] else ["Category is required"]))%list.

Record ConflictResult := {
  hasConflict : bool;
  conflictingEvent : option Event
}.

Definition conflict_where (location : string) (startDate endDate : Date)
  : list Where :=
  [ W_location location;
    W_status_in [APPROVED; PENDING];
    W_OR [ W_AND [ W_startDate [lte startDate]; W_endDate [gt startDate] ];
           W_AND [ W_startDate [lt endDate]; W_endDate [gte endDate] ];
           W_AND [ W_startDate [gte startDate]; W_endDate [lte endDate] ] ] ].

Definition checkEventConflict (location : string) (startDate endDate : Date)
    (excludeEventId : option string) : M ConflictResult :=
  let where_ := conflict_where location startDate endDate in
  let where_ :=
    match excludeEventId with
    | Some i => if truthy i then (where_ ++ [W_id_not i])%list else where_
    | None => where_
    end in
  conflictingEvent <- prisma_event_findFirst where_ ;;
  ret {| hasConflict := is_some conflictingEvent;
         conflictingEvent := conflictingEvent |}.

Definition is_nil {A} (l : list A) : bool :=
  match l with [] => true | _ => false end.

Definition createEvent (now : Z) (req : CreateRequest) : Handler :=
  try_catch
    (let errors := createEventValidation (cr_body req) in
     if negb (is_nil errors) then
       ret {| code := 400; body := json_errors errors |}
     else
       let b := cr_body req in
       let tags :=
         match b_tags b with
         | tags_string s =>
             match JSON_parse_array s with Some l => l | None => [] end
         | tags_array l => l
         | tags_absent => []
         end in
       let userId := au_id (cr_user req) in
       let start := Date_parse (b_startDate b) in
       let end_ := Date_parse (b_endDate b) in
       if date_ge start end_ then
         ret (error 400 "End date must be after start date")
       else if date_lt start (Date_at now) then
         ret (error 400 "Start date must be in the future")
       else
         c <- checkEventConflict (b_location b) start end_ None ;;
         if hasConflict c then
           match conflictingEvent c with
           | Some ce => ret (venue_conflict ce)
           | None => throw
           end
         else
           let imageUrl :=
             match cr_file req with
             | Some filename => Some ("/uploads/" ++ filename)
             | None => None
             end in
           event <- prisma_event_create
                      {| c_title := b_title b;
                         c_description := b_description b;
                         c_location := b_location b;
                         c_startDate := start;
                         c_endDate := end_;
                         c_maxAttendees := parseInt (b_maxAttendees b);
                         c_category := b_category b;
                         c_tags := tags;
                         c_imageUrl := imageUrl;
                         c_createdById := userId;
                         c_status := PENDING |} ;;
           ret {| code := 201;
                  body := json_event
                    "Event created successfully and pending approval"
                    event |})
    (error 500 "Failed to create event").

Definition when (s : string) : option string :=
  if truthy s then Some s else None.

Definition update_data (b : EventBody) : UpdateData :=
  {| d_title := when (b_title b);
     d_description := when (b_description b);
     d_location := when (b_location b);
     d_startDate :=
       if truthy (b_startDate b) then Some (Date_parse (b_startDate b))
       else None;
     d_endDate :=
       if truthy (b_endDate b) then Some (Date_parse (b_endDate b))
       else None;
     d_maxAttendees :=
       if truthy (b_maxAttendees b) then Some (parseInt (b_maxAttendees b))
       else None;
     d_category := when (b_category b);
     d_tags := if tags_truthy (b_tags b) then Some (b_tags b) else None |}.

Definition updateEvent (req : UpdateRequest) : Handler :=
  try_catch
    (let id_ := ur_id req in
     let userId := au_id (ur_user req) in
     found <- prisma_event_findUnique id_ ;;
     match found with
     | None => ret (error 404 "Event not found")
     | Some event =>
       if negb (String.eqb (createdById event) userId)
          && negb (UserRole_eqb (au_role (ur_user req)) ADMIN)
       then ret (error 403 "You can only update your own events")
       else
         let b := ur_body req in
         let persist : M Response :=
           updatedEvent <- prisma_event_update id_ (update_data b) ;;
           ret {| code := 200;
                  body := json_event "Event updated successfully"
                                     updatedEvent |} in
         if truthy (b_location b) || truthy (b_startDate b)
            || truthy (b_endDate b)
         then
           let newLocation := or_else (b_location b) (location event) in
           let newStartDate :=
             if truthy (b_startDate b) then Date_parse (b_startDate b)
             else Date_at (startDate event) in
           let newEndDate :=
             if truthy (b_endDate b) then Date_parse (b_endDate b)
             else Date_at (endDate event) in
           if date_ge newStartDate newEndDate then
             ret (error 400 "End date must be after start date")
           else
             c <- checkEventConflict newLocation newStartDate newEndDate
                                     (Some id_) ;;
             if hasConflict c then
               match conflictingEvent c with
               | Some ce => ret (venue_conflict ce)
               | None => throw
               end
             else persist
         else persist
     end)
    (error 500 "Failed to update event").

Definition checkAvailability (q : AvailabilityQuery) : Handler :=
  try_catch
    (if negb (truthy (q_location q)) || negb (truthy (q_startDate q))
        || negb (truthy (q_endDate q))
     then ret (error 400 "Location, start date, and end date are required")
     else
       let start := Date_parse (q_startDate q) in
       let end_ := Date_parse (q_endDate q) in
       if date_ge start end_ then
         ret (error 400 "End date must be after start date")
       else
         c <- checkEventConflict (q_location q) start end_
                                 (Some (q_excludeEventId q)) ;;
         if hasConflict c then
           match conflictingEvent c with
           | Some ce =>
               ret {| code := 200;
                      body := json_available false
                        ("This venue is already booked for "
                         ++ quote ++ title ce ++ quote)
                        (Some (summary ce)) |}
           | None => throw
           end
         else
           ret {| code := 200;
                  body := json_available true
                    "Venue is available for the selected time" None |})
    (error 500 "Failed to check availability").

Definition schedule_where (location : string) (start end_ : Date)
  : list Where :=
  [ W_location location;
    W_status_in [APPROVED; PENDING];
    W_OR [ W_startDate [gte start; lte end_];
           W_endDate [gte start; lte end_];
           W_AND [ W_startDate [lte start]; W_endDate [gte end_] ] ] ].

Definition slot (e : Event) : Slot :=
  {| slot_id := id e;
     slot_title := title e;
     slot_start := startDate e;
     slot_end := endDate e;
     slot_status := status e;
     slot_organizer := name (createdBy e) |}.

Definition week_ms : Z := 7 * 24 * 60 * 60 * 1000.

Definition getVenueSchedule (now : Z) (q : ScheduleQuery) : Handler :=
  try_catch
    (if negb (truthy (s_location q)) then
       ret (error 400 "Location is required")
     else
       let start :=
         if truthy (s_startDate q) then Date_parse (s_startDate q)
         else Date_at now in
       let end_ :=
         if truthy (s_endDate q) then Date_parse (s_endDate q)
         else date_plus start week_ms in
       bookedSlots <- prisma_event_findMany_by_startDate
                        (schedule_where (s_location q) start end_) ;;
       ret {| code := 200;
              body := json_schedule (s_location q) start end_
                                    (map slot bookedSlots) |})
    (error 500 "Failed to fetch venue schedule").

End Handlers.

(* ================================================================== *)
(** ** Vocabulary of the specification *)

Definition active (e : Event) : Prop :=
  status e = PENDING \/ status e = APPROVED.

Definition activeb (e : Event) : bool :=
  match status e with PENDING | APPROVED => true | _ => false end.

(** The keys [checkEventConflict] adds for its optional argument. *)
Definition exclusion (excludeEventId : option string) : list Where :=
  match excludeEventId with
  | Some i => if truthy i then [W_id_not i] else []
  | None => []
  end.

(** [e] is not the event a conflict query was told to ignore. *)
Definition not_excluded (excludeEventId : option string) (e : Event) : Prop :=
  forall i, excludeEventId = Some i -> i <> EmptyString -> id e <> i.

(** The three coded cases, for a candidate interval from [s] to [f]. *)
Definition starts_during (s f : Z) (e : Event) : Prop :=
  startDate e <= s /\ endDate e > s.

Definition ends_during (s f : Z) (e : Event) : Prop :=
  startDate e < f /\ endDate e >= f.

Definition contains (s f : Z) (e : Event) : Prop :=
  startDate e >= s /\ endDate e <= f.

Definition three_cases (s f : Z) (e : Event) : Prop :=
  starts_during s f e \/ ends_during s f e \/ contains s f e.

(** General overlap of the half-open intervals. *)
Definition overlaps (s f : Z) (e : Event) : Prop :=
  s < endDate e /\ startDate e < f.

(** The candidate and the event share an endpoint. *)
Definition touches (s f : Z) (e : Event) : Prop :=
  endDate e = s \/ f = startDate e.

(** The invariant creation and update enforce on stored events. *)
Definition dates_ordered (l : list Event) : Prop :=
  Forall (fun e => startDate e < endDate e) l.

(** The schedule predicate in the words of the specification. *)
Definition in_window (a b : Z) (e : Event) : bool :=
  ((a <=? startDate e) && (startDate e <=? b))
  || ((a <=? endDate e) && (endDate e <=? b))
  || ((startDate e <=? a) && (b <=? endDate e)).

Definition booked (loc : string) (a b : Z) (e : Event) : bool :=
  String.eqb (location e) loc && activeb e && in_window a b e.

Definition is_write (c : PrismaCall) : Prop :=
  match c with
  | call_create _ | call_update _ _ => True
  | _ => False
  end.

Definition is_conflict_check (c : PrismaCall) : Prop :=
  match c with call_findFirst _ => True | _ => False end.

(** In a log of calls, every write comes after a conflict check. *)
Definition checked_before_persisting (l : list PrismaCall) : Prop :=
  forall pre c post,
    l = (pre ++ c :: post)%list -> is_write c -> Exists is_conflict_check pre.

(** The world a request is handled in: the tables, and no call issued yet. *)
Definition at_start (evs : list Event) (us : list User) : World :=
  {| events := evs; users := us; calls := [] |}.

(** *** The handlers' last step, named *)

Section Persist.
Context {rt : Runtime}.

(** The [data] [createEvent] hands to [prisma.event.create]. *)
Definition create_data (req : CreateRequest) : CreateData :=
  let b := cr_body req in
  {| c_title := b_title b;
     c_description := b_description b;
     c_location := b_location b;
     c_startDate := Date_parse (b_startDate b);
     c_endDate := Date_parse (b_endDate b);
     c_maxAttendees := parseInt (b_maxAttendees b);
     c_category := b_category b;
     c_tags :=
       match b_tags b with
       | tags_string s =>
           match JSON_parse_array s with Some l => l | None => [] end
       | tags_array l => l
       | tags_absent => []
       end;
     c_imageUrl :=
       match cr_file req with
       | Some filename => Some ("/uploads/" ++ filename)
       | None => None
       end;
     c_createdById := au_id (cr_user req);
     c_status := PENDING |}.

(** [createEvent] from [prisma.event.create] on. *)
Definition persist_create (req : CreateRequest) : Handler :=
  try_catch
    (event <- prisma_event_create (create_data req) ;;
     ret {| code := 201;
            body := json_event
              "Event created successfully and pending approval" event |})
    (error 500 "Failed to create event").

(** [updateEvent] from [prisma.event.update] on. *)
Definition persist_update (req : UpdateRequest) : Handler :=
  try_catch
    (updatedEvent <- prisma_event_update (ur_id req)
                                         (update_data (ur_body req)) ;;
     ret {| code := 200;
            body := json_event "Event updated successfully" updatedEvent |})
    (error 500 "Failed to update event").

(** The location and interval [updateEvent] checks: the supplied values,
    the stored ones where none is supplied. *)
Definition newLocation (b : EventBody) (event : Event) : string :=
  or_else (b_location b) (location event).

Definition newStartDate (b : EventBody) (event : Event) : Date :=
  if truthy (b_startDate b) then Date_parse (b_startDate b)
  else Date_at (startDate event).

Definition newEndDate (b : EventBody) (event : Event) : Date :=
  if truthy (b_endDate b) then Date_parse (b_endDate b)
  else Date_at (endDate event).

(** The request supplies at least one of location, start date, end date. *)
Definition reschedules (b : EventBody) : bool :=
  truthy (b_location b) || truthy (b_startDate b) || truthy (b_endDate b).

(** The requester is neither the creator of the event nor an admin. *)
Definition forbidden (req : UpdateRequest) (event : Event) : bool :=
  negb (String.eqb (createdById event) (au_id (ur_user req)))
  && negb (UserRole_eqb (au_role (ur_user req)) ADMIN).

(** The window [getVenueSchedule] queries. *)
Definition window_start (now : Z) (q : ScheduleQuery) : Date :=
  if truthy (s_startDate q) then Date_parse (s_startDate q) else Date_at now.

Definition window_end (now : Z) (q : ScheduleQuery) : Date :=
  if truthy (s_endDate q) then Date_parse (s_endDate q)
  else date_plus (window_start now q) week_ms.

End Persist.

(* ================================================================== *)
(** ** Sample data *)

Definition demo_dates : list (string * Z) :=
  [ ("2030-01-01T09:00:00.000Z", 1893488400000);
    ("2030-01-01T10:00:00.000Z", 1893492000000);
    ("2030-01-01T11:00:00.000Z", 1893495600000);
    ("2030-01-01T12:00:00.000Z", 1893499200000);
    ("2030-01-01T13:00:00.000Z", 1893502800000);
    ("2030-01-01T14:00:00.000Z", 1893506400000);
    ("2020-01-01T10:00:00.000Z", 1577872800000);
    ("2020-01-01T09:00:00.000Z", 1577869200000) ].

Definition demo_parse (s : string) : Date :=
  match find (fun p => String.eqb (fst p) s) demo_dates with
  | Some p => Date_at (snd p)
  | None => Invalid_Date
  end.

Definition demo_runtime : Runtime :=
  {| Date_parse := demo_parse;
     toLocaleString := fun _ => "1/1/2030";
     parseInt := fun s => if String.eqb s "50" then Some 50 else None;
     JSON_parse_array := fun _ => None;
     isISO8601 := fun s => is_some (find (fun p => String.eqb (fst p) s)
                                         demo_dates);
     isInt_min1 := fun s => String.eqb s "50";
     uuid := fun l => "event-" ++ String (ascii_of_nat (65 + List.length l))
                                         EmptyString |}.

Definition alice : User :=
  {| user_id := "user-1"; email := "alice@campus.edu"; name := "Alice";
     role := ORGANIZER; clubName := Some "Chess Club" |}.

Definition bob : User :=
  {| user_id := "user-2"; email := "bob@campus.edu"; name := "Bob";
     role := ORGANIZER; clubName := None |}.

(** An approved event in the main hall, 10:00 to 12:00. *)
Definition seminar : Event :=
  {| id := "event-1"; title := "Seminar"; description := "Weekly seminar";
     imageUrl := None; location := "Main Hall";
     startDate := 1893492000000; endDate := 1893499200000;
     maxAttendees := 50; currentAttendees := 0; status := APPROVED;
     category := "Academic"; tags := []; createdBy := alice |}.

Definition demo_world : World := at_start [seminar] [alice; bob].

(** Midnight before the seminar. *)
Definition demo_now : Z := 1893456000000.

Definition workshop_body (startDate endDate : string) : EventBody :=
  {| b_title := "Workshop";
     b_description := "Hands-on workshop";
     b_location := "Main Hall";
     b_startDate := startDate;
     b_endDate := endDate;
     b_maxAttendees := "50";
     b_category := "Academic";
     b_tags := tags_absent |}.

(** A create request for 11:00 to 13:00 in the main hall. *)
Definition clashing_request : CreateRequest :=
  {| cr_body := workshop_body "2030-01-01T11:00:00.000Z"
                              "2030-01-01T13:00:00.000Z";
     cr_file := None;
     cr_user := {| au_id := "user-2"; au_role := ORGANIZER |} |}.


(** A rejected booking of the main hall, 12:00 to 13:00. *)
Definition rejected_party : Event :=
  {| id := "event-2"; title := "Party"; description := "End of term party";
     imageUrl := None; location := "Main Hall";
     startDate := 1893499200000; endDate := 1893502800000;
     maxAttendees := 200; currentAttendees := 0; status := REJECTED;
     category := "Social"; tags := []; createdBy := bob |}.

(** A pending lecture in the main hall, 13:00 to 14:00. *)
Definition lecture : Event :=
  {| id := "event-3"; title := "Lecture"; description := "Guest lecture";
     imageUrl := None; location := "Main Hall";
     startDate := 1893502800000; endDate := 1893506400000;
     maxAttendees := 80; currentAttendees := 0; status := PENDING;
     category := "Academic"; tags := []; createdBy := bob |}.

Definition busy_hall : list Event := [seminar; rejected_party; lecture].

Definition busy_world : World := at_start busy_hall [alice; bob].

(** A create request for 13:00 to 14:00 in the main hall. *)
Definition free_request : CreateRequest :=
  {| cr_body := workshop_body "2030-01-01T13:00:00.000Z"
                              "2030-01-01T14:00:00.000Z";
     cr_file := None;
     cr_user := {| au_id := "user-2"; au_role := ORGANIZER |} |}.

(** An update of the lecture by its organizer that moves its start to
    11:00 and supplies nothing else. *)
Definition move_request : UpdateRequest :=
  {| ur_id := "event-3";
     ur_body := {| b_title := EmptyString;
                   b_description := EmptyString;
                   b_location := EmptyString;
                   b_startDate := "2030-01-01T11:00:00.000Z";
                   b_endDate := EmptyString;
                   b_maxAttendees := EmptyString;
                   b_category := EmptyString;
                   b_tags := tags_absent |};
     ur_user := {| au_id := "user-2"; au_role := ORGANIZER |} |}.

(** An update of the seminar by its organizer that moves it to 09:00 to
    11:00. *)
Definition shift_request : UpdateRequest :=
  {| ur_id := "event-1";
     ur_body := {| b_title := EmptyString;
                   b_description := EmptyString;
                   b_location := EmptyString;
                   b_startDate := "2030-01-01T09:00:00.000Z";
                   b_endDate := "2030-01-01T11:00:00.000Z";
                   b_maxAttendees := EmptyString;
                   b_category := EmptyString;
                   b_tags := tags_absent |};
     ur_user := {| au_id := "user-1"; au_role := ORGANIZER |} |}.

(** The same update requested by the other organizer. *)
Definition intruding_request : UpdateRequest :=
  {| ur_id := ur_id shift_request;
     ur_body := ur_body shift_request;
     ur_user := {| au_id := "user-2"; au_role := ORGANIZER |} |}.

(** An update of the seminar by its organizer that supplies only a title. *)
Definition rename_request : UpdateRequest :=
  {| ur_id := "event-1";
     ur_body := {| b_title := "Renamed seminar";
                   b_description := EmptyString;
                   b_location := EmptyString;
                   b_startDate := EmptyString;
                   b_endDate := EmptyString;
                   b_maxAttendees := EmptyString;
                   b_category := EmptyString;
                   b_tags := tags_absent |};
     ur_user := {| au_id := "user-1"; au_role := ORGANIZER |} |}.

(** An update of the lecture by its organizer that supplies a title and
    a capacity of 50. *)
Definition resize_request : UpdateRequest :=
  {| ur_id := "event-3";
     ur_body := {| b_title := "Open lecture";
                   b_description := EmptyString;
                   b_location := EmptyString;
                   b_startDate := EmptyString;
                   b_endDate := EmptyString;
                   b_maxAttendees := "50";
                   b_category := EmptyString;
                   b_tags := tags_absent |};
     ur_user := {| au_id := "user-2"; au_role := ORGANIZER |} |}.

(** A create request by the other organizer for the same hour as
    [free_request], 13:00 to 14:00 in the main hall. *)
Definition rival_request : CreateRequest :=
  {| cr_body := workshop_body "2030-01-01T13:00:00.000Z"
                              "2030-01-01T14:00:00.000Z";
     cr_file := None;
     cr_user := {| au_id := "user-1"; au_role := ORGANIZER |} |}.

(** An update of the seminar by its organizer that supplies only a start
    date, 11:00. *)
Definition late_start_request : UpdateRequest :=
  {| ur_id := "event-1";
     ur_body := {| b_title := EmptyString;
                   b_description := EmptyString;
                   b_location := EmptyString;
                   b_startDate := "2030-01-01T11:00:00.000Z";
                   b_endDate := EmptyString;
                   b_maxAttendees := EmptyString;
                   b_category := EmptyString;
                   b_tags := tags_absent |};
     ur_user := {| au_id := "user-1"; au_role := ORGANIZER |} |}.

(** An update of the seminar by its organizer that supplies only an end
    date, 11:00. *)
Definition early_end_request : UpdateRequest :=
  {| ur_id := "event-1";
     ur_body := {| b_title := EmptyString;
                   b_description := EmptyString;
                   b_location := EmptyString;
                   b_startDate := EmptyString;
                   b_endDate := "2030-01-01T11:00:00.000Z";
                   b_maxAttendees := EmptyString;
                   b_category := EmptyString;
                   b_tags := tags_absent |};
     ur_user := {| au_id := "user-1"; au_role := ORGANIZER |} |}.

(** An update of the lecture by its organizer that moves it to 09:00 to
    10:00. *)
Definition early_request : UpdateRequest :=
  {| ur_id := "event-3";
     ur_body := {| b_title := EmptyString;
                   b_description := EmptyString;
                   b_location := EmptyString;
                   b_startDate := "2030-01-01T09:00:00.000Z";
                   b_endDate := "2030-01-01T10:00:00.000Z";
                   b_maxAttendees := EmptyString;
                   b_category := EmptyString;
                   b_tags := tags_absent |};
     ur_user := {| au_id := "user-2"; au_role := ORGANIZER |} |}.

(** The lecture as that update leaves it. *)
Definition open_lecture : Event :=
  {| id := "event-3"; title := "Open lecture";
     description := "Guest lecture";
     imageUrl := None; location := "Main Hall";
     startDate := 1893502800000; endDate := 1893506400000;
     maxAttendees := 50; currentAttendees := 0; status := PENDING;
     category := "Academic"; tags := []; createdBy := bob |}.

(* ================================================================== *)
(** ** Vocabulary for the store as a whole *)

(** Two events occupy a common stretch of time. *)
Definition intervals_overlap (e1 e2 : Event) : Prop :=
  startDate e1 < endDate e2 /\ startDate e2 < endDate e1.

(** No venue is booked twice: two different Pending or Approved events at
    one location never overlap. *)
Definition no_double_booking (l : list Event) : Prop :=
  forall e1 e2,
    In e1 l -> In e2 l -> id e1 <> id e2 ->
    location e1 = location e2 -> active e1 -> active e2 ->
    ~ intervals_overlap e1 e2.

Section Composition.
Context {rt : Runtime}.

(** The row [prisma.event.create] adds for a create request whose dates
    parse to [s] and [f], whose capacity parses to [n] and whose creator
    is the user row [u]. *)
Definition new_event (req : CreateRequest) (s f n : Z) (u : User)
    (rows : list Event) : Event :=
  {| id := uuid rows;
     title := c_title (create_data req);
     description := c_description (create_data req);
     imageUrl := c_imageUrl (create_data req);
     location := c_location (create_data req);
     startDate := s;
     endDate := f;
     maxAttendees := n;
     currentAttendees := 0;
     status := PENDING;
     category := c_category (create_data req);
     tags := c_tags (create_data req);
     createdBy := u |}.

(** The body of an update that the client accepts, said of the request
    itself: a capacity, when supplied, parses to a 32-bit integer, and
    tags, when supplied, are an array. *)
Definition accepted (b : EventBody) : Prop :=
  (b_maxAttendees b <> EmptyString ->
   exists n, parseInt (b_maxAttendees b) = Some n
             /\ -2147483648 <= n <= 2147483647)
  /\ (forall s, b_tags b = tags_string s -> s = EmptyString).

(** An event with the title, description, capacity, category and tags
    that a request body supplies in place of its own, and everything
    else, venue and dates included, as it was. *)
Definition with_supplied_fields (b : EventBody) (e : Event) : Event :=
  {| id := id e;
     title := if String.eqb (b_title b) EmptyString then title e
              else b_title b;
     description := if String.eqb (b_description b) EmptyString
                    then description e else b_description b;
     imageUrl := imageUrl e;
     location := location e;
     startDate := startDate e;
     endDate := endDate e;
     maxAttendees :=
       if String.eqb (b_maxAttendees b) EmptyString then maxAttendees e
       else match parseInt (b_maxAttendees b) with
            | Some n => n
            | None => maxAttendees e
            end;
     currentAttendees := currentAttendees e;
     status := status e;
     category := if String.eqb (b_category b) EmptyString then category e
                 else b_category b;
     tags := match b_tags b with tags_array l => l | _ => tags e end;
     createdBy := createdBy e |}.

(** The message of a 409 answer. *)
Definition booked_message (ce : Event) : string :=
  "This venue is already booked for " ++ quote ++ title ce ++ quote
  ++ " from " ++ toLocaleString (startDate ce)
  ++ " to " ++ toLocaleString (endDate ce).

(** The availability query for the venue and dates of a create request. *)
Definition availability_of (req : CreateRequest) : AvailabilityQuery :=
  {| q_location := b_location (cr_body req);
     q_startDate := b_startDate (cr_body req);
     q_endDate := b_endDate (cr_body req);
     q_excludeEventId := EmptyString |}.

(** The schedule query for the venue and window of an availability
    query. *)
Definition schedule_of (q : AvailabilityQuery) : ScheduleQuery :=
  {| s_location := q_location q;
     s_startDate := q_startDate q;
     s_endDate := q_endDate q |}.

End Composition.

(* ================================================================== *)
(** ** Registrations, approval and deletion *)

Module RegistrationStatus.
Inductive t := REGISTERED | CANCELLED | ATTENDED.
Definition eqb (a b : t) : bool :=
  match a, b with
  | REGISTERED, REGISTERED | CANCELLED, CANCELLED | ATTENDED, ATTENDED => true
  | _, _ => false
  end.
End RegistrationStatus.

Record Registration := {
  reg_id : string;
  userId : string;
  eventId : string;
  reg_status : RegistrationStatus.t;
  qrCode : string;
  registeredAt : Z;
  cancelledAt : option Z;
  attendedAt : option Z
}.

(** The three tables the registration and admin controllers work on. *)
Record Database := {
  db_events : list Event;
  db_users : list User;
  registrations : list Registration
}.

(** What the database does to the registrations of an event that is
    deleted: remove them too, or refuse the deletion while any exists. *)
Inductive ReferentialAction := Cascade | Restrict.

(** What the handlers below take from the database schema and engine. *)
Class Storage := {
  (** the identifier the database gives a new registration *)
  registration_uuid : list Registration -> string;
  (** the referential action of a registration's event *)
  registrations_onDelete : ReferentialAction;
  (** [{ contains: s, mode: 'insensitive' }] *)
  contains_insensitive : string -> string -> bool
}.

Definition Op (A : Type) : Type := Database -> Res A * Database.

Definition op_ret {A} (a : A) : Op A := fun db => (Val a, db).

Definition op_throw {A} : Op A := fun db => (Exn, db).

Definition op_bind {A B} (m : Op A) (k : A -> Op B) : Op B :=
  fun db =>
    match m db with
    | (Val a, db') => k a db'
    | (Exn, db') => (Exn, db')
    end.

Notation "x <~ m ;; k" := (op_bind m (fun x => k))
  (at level 61, m at next level, right associativity).

(** The part of an event a registration answer includes. *)
Record EventBrief := {
  eb_id : string;
  eb_title : string;
  eb_location : string;
  eb_startDate : Z;
  eb_endDate : Z;
  eb_imageUrl : option string
}.

Record DashboardStats := {
  totalUsers : Z;
  totalEvents : Z;
  totalRegistrations : Z;
  pendingEvents : Z;
  upcomingEvents : Z;
  usersByRole : list (UserRole * Z)
}.

Inductive Payload :=
| reply_error (error : string)
| reply_message (message : string)
| reply_event (message : string) (event : Event)
| reply_registration (message : string) (registration : Registration)
                     (event : option EventBrief)
| reply_events (events : list (Event * Z))
| reply_stats (stats : DashboardStats).

Record Reply := { reply_code : Z; payload : Payload }.

(** [try { ... } catch (error) { res.status(500).json({ error }) }] *)
Definition op_catch (m : Op Reply) (on_error : string)
  : Database -> Reply * Database :=
  fun db =>
    match m db with
    | (Val r, db') => (r, db')
    | (Exn, db') =>
        ({| reply_code := 500; payload := reply_error on_error |}, db')
    end.

Definition fail (c : Z) (msg : string) : Reply :=
  {| reply_code := c; payload := reply_error msg |}.

Definition has_id (i : string) (e : Event) : bool := String.eqb (id e) i.

Definition for_pair (uid eid : string) (r : Registration) : bool :=
  String.eqb (userId r) uid && String.eqb (eventId r) eid.

(** A registration of the event that counts: its status is Registered. *)
Definition registered_for (eid : string) (r : Registration) : bool :=
  String.eqb (eventId r) eid
  && RegistrationStatus.eqb (reg_status r) RegistrationStatus.REGISTERED.

Definition registered_count (eid : string) (l : list Registration) : Z :=
  Z.of_nat (List.length (filter (registered_for eid) l)).

Definition set_events_of (l : list Event) (db : Database) : Database :=
  {| db_events := l; db_users := db_users db;
     registrations := registrations db |}.

Definition set_registrations (l : list Registration) (db : Database)
  : Database :=
  {| db_events := db_events db; db_users := db_users db;
     registrations := l |}.

(** [prisma.event.findUnique({ where: { id } })] *)
Definition event_findUnique (i : string) : Op (option Event) :=
  fun db => (Val (find (has_id i) (db_events db)), db).

(** The same with [_count] of the event's Registered registrations. *)
Definition event_findUnique_counting (i : string) : Op (option (Event * Z)) :=
  fun db =>
    (Val (match find (has_id i) (db_events db) with
          | Some e => Some (e, registered_count (id e) (registrations db))
          | None => None
          end), db).

(** [prisma.event.update({ where: { id }, data })], the data given as the
    change it makes to a row; throws when no row has the id. *)
Definition event_update (i : string) (change : Event -> Event) : Op Event :=
  fun db =>
    let rows := map (fun e => if has_id i e then change e else e)
                    (db_events db) in
    match find (has_id i) rows with
    | Some e => (Val e, set_events_of rows db)
    | None => (Exn, db)
    end.

Definition set_status (st : EventStatus) (e : Event) : Event :=
  {| id := id e; title := title e; description := description e;
     imageUrl := imageUrl e; location := location e;
     startDate := startDate e; endDate := endDate e;
     maxAttendees := maxAttendees e; currentAttendees := currentAttendees e;
     status := st; category := category e; tags := tags e;
     createdBy := createdBy e |}.

(** [currentAttendees: { increment: n }] *)
Definition increment_attendees (n : Z) (e : Event) : Event :=
  {| id := id e; title := title e; description := description e;
     imageUrl := imageUrl e; location := location e;
     startDate := startDate e; endDate := endDate e;
     maxAttendees := maxAttendees e;
     currentAttendees := currentAttendees e + n;
     status := status e; category := category e; tags := tags e;
     createdBy := createdBy e |}.

(** [prisma.registration.findUnique({ where: { userId_eventId } })] *)
Definition registration_findUnique (uid eid : string)
  : Op (option Registration) :=
  fun db => (Val (find (for_pair uid eid) (registrations db)), db).

Definition set_qrCode (q : string) (r : Registration) : Registration :=
  {| reg_id := reg_id r; userId := userId r; eventId := eventId r;
     reg_status := reg_status r; qrCode := q;
     registeredAt := registeredAt r; cancelledAt := cancelledAt r;
     attendedAt := attendedAt r |}.

Definition set_cancelled (at_ : Z) (r : Registration) : Registration :=
  {| reg_id := reg_id r; userId := userId r; eventId := eventId r;
     reg_status := RegistrationStatus.CANCELLED; qrCode := qrCode r;
     registeredAt := registeredAt r; cancelledAt := Some at_;
     attendedAt := attendedAt r |}.

(** [prisma.registration.update({ where: { id }, data })] *)
Definition registration_update (i : string)
    (change : Registration -> Registration) : Op Registration :=
  fun db =>
    let rows := map (fun r => if String.eqb (reg_id r) i then change r else r)
                    (registrations db) in
    match find (fun r => String.eqb (reg_id r) i) rows with
    | Some r => (Val r, set_registrations rows db)
    | None => (Exn, db)
    end.

Definition brief (e : Event) : EventBrief :=
  {| eb_id := id e; eb_title := title e; eb_location := location e;
     eb_startDate := startDate e; eb_endDate := endDate e;
     eb_imageUrl := imageUrl e |}.

Section Controllers.
Context {st : Storage}.

(** [prisma.registration.create]: the pair of user and event is unique
    (it is the key [userId_eventId] that [findUnique] looks up), and both
    must be rows of their tables; the new row is registered at [now]. *)
Definition registration_create (now : Z) (uid eid : string) (q : string)
  : Op Registration :=
  fun db =>
    if existsb (for_pair uid eid) (registrations db)
       || negb (existsb (fun u => String.eqb (user_id u) uid) (db_users db))
       || negb (existsb (has_id eid) (db_events db))
    then (Exn, db)
    else
      let r := {| reg_id := registration_uuid (registrations db);
                  userId := uid; eventId := eid;
                  reg_status := RegistrationStatus.REGISTERED;
                  qrCode := q; registeredAt := now;
                  cancelledAt := None; attendedAt := None |} in
      (Val r, set_registrations (registrations db ++ [r]) db).

(** [prisma.event.delete({ where: { id } })] *)
Definition event_delete (i : string) : Op unit :=
  fun db =>
    if negb (existsb (has_id i) (db_events db)) then (Exn, db)
    else
      let rows := filter (fun e => negb (has_id i e)) (db_events db) in
      match registrations_onDelete with
      | Cascade =>
          (Val tt,
           {| db_events := rows; db_users := db_users db;
              registrations :=
                filter (fun r => negb (String.eqb (eventId r) i))
                       (registrations db) |})
      | Restrict =>
          if existsb (fun r => String.eqb (eventId r) i) (registrations db)
          then (Exn, db)
          else (Val tt, set_events_of rows db)
      end.

(** *** The registration controller *)

Definition registerForEvent (now : Z) (eventId_ : string) (user : AuthUser)
  : Database -> Reply * Database :=
  op_catch
    (let userId_ := au_id user in
     found <~ event_findUnique_counting eventId_ ;;
     match found with
     | None => op_ret (fail 404 "Event not found")
     | Some (event, count) =>
       if negb (EventStatus_eqb (status event) APPROVED) then
         op_ret (fail 400 "Event is not approved yet")
       else if startDate event <? now then
         op_ret (fail 400 "Cannot register for past events")
       else if maxAttendees event <=? count then
         op_ret (fail 400 "Event is full")
       else
         existingRegistration <~ registration_findUnique userId_ eventId_ ;;
         if match existingRegistration with
            | Some r => RegistrationStatus.eqb (reg_status r)
                                               RegistrationStatus.REGISTERED
            | None => false
            end
         then op_ret (fail 400 "You are already registered for this event")
         else
           registration <~ registration_create now userId_ eventId_
                                               EmptyString ;;
           let qrCodeIdentifier := "REG-" ++ reg_id registration in
           updatedRegistration <~ registration_update (reg_id registration)
                                    (set_qrCode qrCodeIdentifier) ;;
           included <~ event_findUnique (eventId updatedRegistration) ;;
           _ <~ event_update eventId_ (increment_attendees 1) ;;
           op_ret {| reply_code := 201;
                     payload := reply_registration
                       "Successfully registered for event"
                       updatedRegistration (option_map brief included) |}
     end)
    "Failed to register for event".

(** The clock is read twice: [now] for the check, [at_] for
    [cancelledAt]. *)
Definition cancelRegistration (now at_ : Z) (eventId_ : string)
    (user : AuthUser) : Database -> Reply * Database :=
  op_catch
    (let userId_ := au_id user in
     found <~ registration_findUnique userId_ eventId_ ;;
     match found with
     | None => op_ret (fail 404 "Registration not found")
     | Some registration =>
       event <~ event_findUnique (eventId registration) ;;
       if negb (RegistrationStatus.eqb (reg_status registration)
                                       RegistrationStatus.REGISTERED)
       then op_ret (fail 400 "Registration is already cancelled")
       else
         match event with
         | None => op_throw
         | Some event =>
           if startDate event <? now then
             op_ret (fail 400
               "Cannot cancel registration for ongoing or past events")
           else
             _ <~ registration_update (reg_id registration)
                                      (set_cancelled at_) ;;
             _ <~ event_update eventId_ (increment_attendees (-1)) ;;
             op_ret {| reply_code := 200;
                       payload := reply_message
                         "Registration cancelled successfully" |}
         end
     end)
    "Failed to cancel registration".

(** [registerForEvent] from [prisma.registration.create] on: the writes
    of a request whose checks have passed. *)
Definition persist_registration (now : Z) (eventId_ : string)
    (user : AuthUser) : Database -> Reply * Database :=
  op_catch
    (let userId_ := au_id user in
     registration <~ registration_create now userId_ eventId_ EmptyString ;;
     let qrCodeIdentifier := "REG-" ++ reg_id registration in
     updatedRegistration <~ registration_update (reg_id registration)
                              (set_qrCode qrCodeIdentifier) ;;
     included <~ event_findUnique (eventId updatedRegistration) ;;
     _ <~ event_update eventId_ (increment_attendees 1) ;;
     op_ret {| reply_code := 201;
               payload := reply_registration
                 "Successfully registered for event"
                 updatedRegistration (option_map brief included) |})
    "Failed to register for event".

(** [cancelRegistration] from [prisma.registration.update] on, for the
    registration the request has read: the writes of a request whose
    checks have passed. *)
Definition persist_cancellation (at_ : Z) (eventId_ : string)
    (registration : Registration) : Database -> Reply * Database :=
  op_catch
    (_ <~ registration_update (reg_id registration) (set_cancelled at_) ;;
     _ <~ event_update eventId_ (increment_attendees (-1)) ;;
     op_ret {| reply_code := 200;
               payload := reply_message
                 "Registration cancelled successfully" |})
    "Failed to cancel registration".

(** *** The admin controller *)

Definition decide (id_ : string) (decision : EventStatus) (msg : string)
    (on_error : string) : Database -> Reply * Database :=
  op_catch
    (found <~ event_findUnique id_ ;;
     match found with
     | None => op_ret (fail 404 "Event not found")
     | Some event =>
       if negb (EventStatus_eqb (status event) PENDING) then
         op_ret (fail 400 "Event is not pending approval")
       else
         updatedEvent <~ event_update id_ (set_status decision) ;;
         op_ret {| reply_code := 200;
                   payload := reply_event msg updatedEvent |}
     end)
    on_error.

Definition approveEvent (id_ : string) : Database -> Reply * Database :=
  decide id_ APPROVED "Event approved successfully" "Failed to approve event".

Definition rejectEvent (id_ : string) : Database -> Reply * Database :=
  decide id_ REJECTED "Event rejected" "Failed to reject event".

Definition count {A} (p : A -> bool) (l : list A) : Z :=
  Z.of_nat (List.length (filter p l)).

Definition is_pending (e : Event) : bool := EventStatus_eqb (status e) PENDING.

Definition is_upcoming (now : Z) (e : Event) : bool :=
  EventStatus_eqb (status e) APPROVED && (now <=? startDate e).

Definition is_registered (r : Registration) : bool :=
  RegistrationStatus.eqb (reg_status r) RegistrationStatus.REGISTERED.

(** [prisma.user.groupBy({ by: ['role'], _count: true })]: one group for
    each role some user has. *)
Definition groupBy_role (l : list User) : list (UserRole * Z) :=
  filter (fun g => 0 <? snd g)
    (map (fun r => (r, count (fun u => UserRole_eqb (role u) r) l))
         [STUDENT; ORGANIZER; ADMIN]).

Definition getDashboardStats (now : Z) : Database -> Reply * Database :=
  op_catch
    (fun db =>
       (Val {| reply_code := 200;
               payload := reply_stats
                 {| totalUsers := count (fun _ => true) (db_users db);
                    totalEvents := count (fun _ => true) (db_events db);
                    totalRegistrations :=
                      count is_registered (registrations db);
                    pendingEvents := count is_pending (db_events db);
                    upcomingEvents := count (is_upcoming now) (db_events db);
                    usersByRole := groupBy_role (db_users db) |} |}, db))
    "Failed to fetch dashboard stats".

(** *** The rest of the event controller *)

Definition deleteEvent (id_ : string) (user : AuthUser)
  : Database -> Reply * Database :=
  op_catch
    (found <~ event_findUnique id_ ;;
     match found with
     | None => op_ret (fail 404 "Event not found")
     | Some event =>
       if negb (String.eqb (createdById event) (au_id user))
          && negb (UserRole_eqb (au_role user) ADMIN)
       then op_ret (fail 403 "You can only delete your own events")
       else
         _ <~ event_delete id_ ;;
         op_ret {| reply_code := 200;
                   payload := reply_message "Event deleted successfully" |}
     end)
    "Failed to delete event".

Record EventsQuery := {
  eq_status : string;
  eq_category : string;
  eq_search : string;
  eq_upcoming : string
}.

(** The values of the [EventStatus] enum; the client rejects any other
    string given as a status. *)
Definition EventStatus_of_string (s : string) : option EventStatus :=
  if String.eqb s "PENDING" then Some PENDING
  else if String.eqb s "APPROVED" then Some APPROVED
  else if String.eqb s "REJECTED" then Some REJECTED
  else if String.eqb s "CANCELLED" then Some CANCELLED
  else None.

(** The [where] object [getEvents] builds, key by key. *)
Record EventsWhere := {
  where_status : option string;
  where_category : option string;
  where_search : option string;
  where_startDate_gte : option Z
}.

Definition events_where (now : Z) (user : option AuthUser) (q : EventsQuery)
  : EventsWhere :=
  {| where_status :=
       if truthy (eq_status q) then Some (eq_status q)
       else match user with
            | Some u => if UserRole_eqb (au_role u) STUDENT
                        then Some "APPROVED" else None
            | None => None
            end;
     where_category :=
       if truthy (eq_category q) then Some (eq_category q) else None;
     where_search :=
       if truthy (eq_search q) then Some (eq_search q) else None;
     where_startDate_gte :=
       if String.eqb (eq_upcoming q) "true" then Some now else None |}.

Definition selects (wh : EventsWhere) (e : Event) : bool :=
  match where_status wh with
  | Some s => match EventStatus_of_string s with
              | Some x => EventStatus_eqb (status e) x
              | None => false
              end
  | None => true
  end
  && match where_category wh with
     | Some c => String.eqb (category e) c
     | None => true
     end
  && match where_search wh with
     | Some s => contains_insensitive (title e) s
                 || contains_insensitive (description e) s
     | None => true
     end
  && match where_startDate_gte wh with
     | Some t => t <=? startDate e
     | None => true
     end.

(** [prisma.event.findMany] with [_count] of each event's registrations,
    ordered by start date. *)
Definition event_findMany_counting (wh : EventsWhere)
  : Op (list (Event * Z)) :=
  fun db =>
    match where_status wh with
    | Some s =>
        match EventStatus_of_string s with
        | None => (Exn, db)
        | Some _ =>
            (Val (map (fun e => (e, count (fun r => String.eqb (eventId r)
                                                               (id e))
                                          (registrations db)))
                      (EventSort.sort (filter (selects wh) (db_events db)))),
             db)
        end
    | None =>
        (Val (map (fun e => (e, count (fun r => String.eqb (eventId r) (id e))
                                      (registrations db)))
                  (EventSort.sort (filter (selects wh) (db_events db)))),
         db)
    end.

Definition getEvents (now : Z) (user : option AuthUser) (q : EventsQuery)
  : Database -> Reply * Database :=
  op_catch
    (events_ <~ event_findMany_counting (events_where now user q) ;;
     op_ret {| reply_code := 200; payload := reply_events events_ |})
    "Failed to fetch events".

End Controllers.

(* ================================================================== *)
(** ** Vocabulary for registrations *)

(** No event has more Registered registrations than places. *)
Definition within_capacity (db : Database) : Prop :=
  forall e, In e (db_events db) ->
            registered_count (id e) (registrations db) <= maxAttendees e.

(** Every event's attendee counter is the number of its Registered
    registrations. *)
Definition counters_agree (db : Database) : Prop :=
  forall e, In e (db_events db) ->
            currentAttendees e = registered_count (id e) (registrations db).

(** The events after the rows of id [i] were given a decision. *)
Definition decided (i : string) (decision : EventStatus) (l : list Event)
  : list Event :=
  map (fun e => if has_id i e then set_status decision e else e) l.

(** The users a list of groups accounts for. *)
Definition sum_counts (groups : list (UserRole * Z)) : Z :=
  fold_right (fun g acc => snd g + acc) 0 groups.

Section RegistrationOutcomes.
Context {st : Storage}.

(** The row [registerForEvent] creates. *)
Definition new_registration (now : Z) (uid eid : string)
    (regs : list Registration) : Registration :=
  {| reg_id := registration_uuid regs;
     userId := uid; eventId := eid;
     reg_status := RegistrationStatus.REGISTERED;
     qrCode := EmptyString; registeredAt := now;
     cancelledAt := None; attendedAt := None |}.

(** The tables after a registration went through: the new row added, the
    rows of its id given their code, the event's counter raised. *)
Definition registered_db (now : Z) (uid eid : string) (db : Database)
  : Database :=
  let rid := registration_uuid (registrations db) in
  {| db_events :=
       map (fun e => if has_id eid e then increment_attendees 1 e else e)
           (db_events db);
     db_users := db_users db;
     registrations :=
       map (fun r => if String.eqb (reg_id r) rid
                     then set_qrCode ("REG-" ++ rid) r else r)
           (registrations db ++ [new_registration now uid eid
                                                  (registrations db)]) |}.

(** The tables after the registration [rid] of event [eid] was
    cancelled. *)
Definition cancelled_db (at_ : Z) (rid eid : string) (db : Database)
  : Database :=
  {| db_events :=
       map (fun e => if has_id eid e then increment_attendees (-1) e else e)
           (db_events db);
     db_users := db_users db;
     registrations :=
       map (fun r => if String.eqb (reg_id r) rid then set_cancelled at_ r
                     else r)
           (registrations db) |}.

(** What [getEvents] lists for a [where] object. *)
Definition listed (wh : EventsWhere) (db : Database) : list (Event * Z) :=
  map (fun e => (e, count (fun r => String.eqb (eventId r) (id e))
                          (registrations db)))
      (EventSort.sort (filter (selects wh) (db_events db))).

End RegistrationOutcomes.

(** *** Sample tables *)

Definition demo_storage (action : ReferentialAction) : Storage :=
  {| registration_uuid :=
       fun l => "reg-" ++ String (ascii_of_nat (65 + List.length l))
                                 EmptyString;
     registrations_onDelete := action;
     contains_insensitive := fun _ _ => true |}.

Definition carol : User :=
  {| user_id := "user-3"; email := "carol@campus.edu"; name := "Carol";
     role := STUDENT; clubName := None |}.

Definition dave : User :=
  {| user_id := "user-4"; email := "dave@campus.edu"; name := "Dave";
     role := STUDENT; clubName := None |}.

Definition carol_session : AuthUser :=
  {| au_id := "user-3"; au_role := STUDENT |}.

Definition dave_session : AuthUser :=
  {| au_id := "user-4"; au_role := STUDENT |}.

(** Dave holds a registration for the seminar. *)
Definition dave_at_seminar : Registration :=
  {| reg_id := "reg-0"; userId := "user-4"; eventId := "event-1";
     reg_status := RegistrationStatus.REGISTERED; qrCode := "REG-reg-0";
     registeredAt := 1893400000000; cancelledAt := None;
     attendedAt := None |}.

(** The seminar with its one attendee counted. *)
Definition seminar_booked : Event := increment_attendees 1 seminar.

(** A registration for the seminar that Carol has cancelled. *)
Definition carol_cancelled : Registration :=
  {| reg_id := "reg-1"; userId := "user-3"; eventId := "event-1";
     reg_status := RegistrationStatus.CANCELLED; qrCode := "REG-reg-1";
     registeredAt := 1893400000000; cancelledAt := Some 1893410000000;
     attendedAt := None |}.

(** The busy hall with its users and Dave's registration. *)
Definition demo_db : Database :=
  {| db_events := [seminar_booked; rejected_party; lecture];
     db_users := [alice; bob; carol; dave];
     registrations := [dave_at_seminar] |}.

(** An approved tutorial with a single place. *)
Definition tutorial : Event :=
  {| id := "event-4"; title := "Tutorial"; description := "One to one";
     imageUrl := None; location := "Room 101";
     startDate := 1893502800000; endDate := 1893506400000;
     maxAttendees := 1; currentAttendees := 0; status := APPROVED;
     category := "Academic"; tags := []; createdBy := alice |}.

(** The tutorial with nobody registered yet. *)
Definition tutorial_db : Database :=
  {| db_events := [tutorial];
     db_users := [alice; bob; carol; dave];
     registrations := [] |}.

(** The same tables after Carol registered and cancelled. *)
Definition demo_db_after_cancel : Database :=
  {| db_events := db_events demo_db;
     db_users := db_users demo_db;
     registrations := [dave_at_seminar; carol_cancelled] |}.

(* ================================================================== *)
(** ** Reading the [where] clauses *)

Ltac to_prop :=
  repeat rewrite ?andb_true_iff, ?orb_true_iff, ?negb_true_iff,
                 ?Z.leb_le, ?Z.ltb_lt, ?String.eqb_eq, ?String.eqb_neq.

Lemma activeb_active (e : Event) : activeb e = true <-> active e.
Proof.
  unfold activeb, active.
  destruct (status e); split; intros H; try reflexivity; try discriminate;
    auto; destruct H; discriminate.
Qed.

Lemma status_in_active (e : Event) :
  EventStatus_eqb (status e) APPROVED
  || (EventStatus_eqb (status e) PENDING || false) = activeb e.
Proof. unfold activeb. now destruct (status e). Qed.

Lemma matches_all_app (a b : list Where) (e : Event) :
  matches_all (a ++ b) e = matches_all a e && matches_all b e.
Proof. apply forallb_app. Qed.

Lemma truthy_true (s : string) : truthy s = true <-> s <> EmptyString.
Proof. unfold truthy. now rewrite negb_true_iff, String.eqb_neq. Qed.

Lemma truthy_false (s : string) : truthy s = false <-> s = EmptyString.
Proof. unfold truthy. now rewrite negb_false_iff, String.eqb_eq. Qed.

Lemma conflict_where_matches (loc : string) (s f : Z) (e : Event) :
  matches_all (conflict_where loc (Date_at s) (Date_at f)) e = true
  <-> location e = loc /\ active e /\ three_cases s f e.
Proof.
  unfold matches_all, conflict_where.
  cbn [forallb existsb matches date_filter].
  rewrite status_in_active.
  unfold three_cases, starts_during, ends_during, contains.
  to_prop. rewrite activeb_active. intuition lia.
Qed.

Lemma exclusion_matches (excl : option string) (e : Event) :
  matches_all (exclusion excl) e = true <-> not_excluded excl e.
Proof.
  unfold exclusion, not_excluded.
  destruct excl as [i|]; [destruct (truthy i) eqn:T|]; cbn.
  - rewrite andb_true_r, negb_true_iff, String.eqb_neq. split.
    + intros H j [= <-] _. exact H.
    + intros H. apply (H i eq_refl). now apply truthy_true.
  - split; [|reflexivity]. intros _ j [= <-] N.
    apply truthy_false in T. contradiction.
  - split; [|reflexivity]. intros _ j [=].
Qed.

Lemma three_cases_overlaps (s f : Z) (e : Event) :
  s < f -> startDate e < endDate e ->
  (three_cases s f e <-> overlaps s f e).
Proof.
  unfold three_cases, starts_during, ends_during, contains, overlaps. lia.
Qed.

Lemma touching_not_three_cases (s f : Z) (e : Event) :
  s < f -> startDate e < endDate e -> touches s f e -> ~ three_cases s f e.
Proof.
  unfold three_cases, starts_during, ends_during, contains, touches. lia.
Qed.

Lemma schedule_where_matches (loc : string) (a b : Z) (e : Event) :
  matches_all (schedule_where loc (Date_at a) (Date_at b)) e = booked loc a b e.
Proof.
  unfold matches_all, schedule_where, booked, in_window.
  cbn [forallb existsb matches date_filter].
  rewrite status_in_active.
  rewrite !andb_true_r, !orb_false_r, <- !andb_assoc, <- !orb_assoc.
  reflexivity.
Qed.

Lemma booked_true (loc : string) (a b : Z) (e : Event) :
  booked loc a b e = true
  <-> location e = loc /\ active e /\
      ((a <= startDate e <= b) \/ (a <= endDate e <= b)
       \/ (startDate e <= a /\ endDate e >= b)).
Proof.
  unfold booked, in_window. to_prop. rewrite activeb_active. intuition lia.
Qed.

(** *** Running the conflict check *)

Section Runs.
Context {rt : Runtime}.

Lemma conflict_query_valid loc sd ed excl :
  forallb where_valid (conflict_where loc sd ed ++ exclusion excl)
  = date_valid sd && date_valid ed.
Proof.
  rewrite forallb_app.
  assert (E : forallb where_valid (exclusion excl) = true).
  { unfold exclusion. destruct excl as [i|]; [destruct (truthy i)|];
      reflexivity. }
  rewrite E, andb_true_r.
  destruct sd, ed; reflexivity.
Qed.

Lemma checkEventConflict_run loc sd ed excl w :
  checkEventConflict loc sd ed excl w =
  let q := (conflict_where loc sd ed ++ exclusion excl)%list in
  let w' := log (call_findFirst q) w in
  if date_valid sd && date_valid ed
  then (Val {| hasConflict := is_some (find (matches_all q) (events w));
               conflictingEvent := find (matches_all q) (events w) |}, w')
  else (Exn, w').
Proof.
  cbv zeta. rewrite <- (conflict_query_valid loc sd ed excl).
  unfold checkEventConflict, bind, prisma_event_findFirst, ret, exclusion.
  destruct excl as [i|]; [destruct (truthy i)|];
    rewrite ?app_nil_r;
    match goal with |- context [forallb where_valid ?q] =>
      destruct (forallb where_valid q) end; reflexivity.
Qed.

Lemma conflict_query_matches loc s f excl e :
  matches_all (conflict_where loc (Date_at s) (Date_at f) ++ exclusion excl) e
  = true
  <-> location e = loc /\ active e /\ not_excluded excl e /\ three_cases s f e.
Proof.
  rewrite matches_all_app, andb_true_iff, conflict_where_matches,
    exclusion_matches. tauto.
Qed.

Lemma is_some_find {A} (p : A -> bool) (l : list A) :
  is_some (find p l) = true <-> exists x, In x l /\ p x = true.
Proof.
  split.
  - destruct (find p l) eqn:F; [|discriminate]. intros _.
    exists a. now apply find_some in F.
  - intros [x [I P]]. destruct (find p l) eqn:F; [reflexivity|].
    rewrite (find_none _ _ F x I) in P. discriminate.
Qed.

End Runs.

Lemma find_filter {A} (p q : A -> bool) (l : list A) :
  (forall x, p x = true -> q x = true) ->
  find p (filter q l) = find p l.
Proof.
  intros H. induction l as [|x l IH]; [reflexivity|].
  cbn. destruct (q x) eqn:Q; cbn.
  - now rewrite IH.
  - destruct (p x) eqn:P; [|exact IH].
    apply H in P. congruence.
Qed.

Lemma find_none_iff {A} (p : A -> bool) (l : list A) :
  find p l = None <-> forall x, In x l -> p x = false.
Proof.
  split; [apply find_none|].
  intros H. destruct (find p l) eqn:F; [|reflexivity].
  apply find_some in F. destruct F as [I P].
  rewrite (H _ I) in P. discriminate.
Qed.

(* ================================================================== *)
(** ** The conflict check *)

(** C1. For a candidate interval with start before end, over a store whose
    events have their start before their end: the three coded cases are
    equivalent to general strict overlap; the query [checkEventConflict]
    issues selects a stored Pending or Approved event at the location
    (other than the excluded one) exactly when its interval overlaps the
    candidate; and a conflict is reported exactly when such an event is
    stored. *)
Theorem checkEventConflict_general_overlap :
  forall (w : World) (loc : string) (s f : Z) (excl : option string),
    s < f ->
    dates_ordered (events w) ->
    (forall e, startDate e < endDate e ->
               (three_cases s f e <-> overlaps s f e))
    /\ exists r q,
         checkEventConflict loc (Date_at s) (Date_at f) excl w
           = (Val r, log (call_findFirst q) w)
         /\ (forall e, matches_all q e = true <->
               location e = loc /\ active e /\ not_excluded excl e
               /\ three_cases s f e)
         /\ (forall e, In e (events w) -> location e = loc -> active e ->
               not_excluded excl e ->
               (matches_all q e = true <-> overlaps s f e))
         /\ (hasConflict r = true <->
               exists e, In e (events w) /\ location e = loc /\ active e
                         /\ not_excluded excl e /\ overlaps s f e).
Proof.
  intros w loc s f excl Hsf Hord. split.
  - intros e He. now apply three_cases_overlaps.
  - rewrite checkEventConflict_run. cbv zeta. cbn [date_valid andb].
    eexists. eexists. split; [reflexivity|].
    split; [|split].
    + intros e. apply conflict_query_matches.
    + intros e He Hl Ha Hx. rewrite conflict_query_matches.
      unfold dates_ordered in Hord. rewrite Forall_forall in Hord.
      rewrite (three_cases_overlaps s f e Hsf (Hord e He)). tauto.
    + cbn [hasConflict]. rewrite is_some_find. unfold dates_ordered in Hord.
      rewrite Forall_forall in Hord.
      split; intros [e [He Hm]]; exists e; split; try assumption.
      * apply conflict_query_matches in Hm.
        rewrite (three_cases_overlaps s f e Hsf (Hord e He)) in Hm. tauto.
      * apply conflict_query_matches.
        rewrite (three_cases_overlaps s f e Hsf (Hord e He)). tauto.
Qed.

Lemma checkEventConflict_general_overlap_witness :
  1893495600000 < 1893502800000
  /\ dates_ordered (events demo_world)
  /\ exists r w',
       checkEventConflict "Main Hall" (Date_at 1893495600000)
                          (Date_at 1893502800000) None demo_world
         = (Val r, w')
       /\ hasConflict r = true.
Proof.
  assert (H1 : 1893495600000 < 1893502800000) by lia.
  assert (H2 : dates_ordered (events demo_world)).
  { repeat constructor. }
  split; [exact H1|]. split; [exact H2|].
  destruct (checkEventConflict_general_overlap demo_world "Main Hall"
              1893495600000 1893502800000 None H1 H2)
    as [_ [r [q [Hrun [_ [_ Hc]]]]]].
  exists r. eexists. split; [exact Hrun|].
  apply Hc. exists seminar.
  split; [now left|]. split; [reflexivity|]. split; [now right|].
  split; [intros i [=]|]. split; reflexivity.
Defined.

Lemma touching_not_selected (e : Event) (loc : string) (s f : Z)
      (excl : option string) :
  s < f -> startDate e < endDate e -> touches s f e ->
  matches_all (conflict_where loc (Date_at s) (Date_at f) ++ exclusion excl) e
  = false.
Proof.
  intros Hsf He Ht.
  apply not_true_is_false. rewrite conflict_query_matches.
  intros [_ [_ [_ H3]]].
  exact (touching_not_three_cases s f e Hsf He Ht H3).
Qed.

(** C2. An event that only shares an endpoint with the candidate interval
    is not selected by the conflict query; when every Pending or Approved
    event at the venue only touches the candidate, no conflict is
    reported; with an event from 10:00 to 12:00 stored, 12:00 to 13:00 and
    09:00 to 10:00 are both free of conflict. *)
Theorem touching_endpoints_no_conflict :
  (forall (e : Event) (loc : string) (s f : Z) (excl : option string),
      s < f -> startDate e < endDate e -> touches s f e ->
      matches_all (conflict_where loc (Date_at s) (Date_at f)
                   ++ exclusion excl) e = false)
  /\ (forall (w : World) (loc : string) (s f : Z) (excl : option string),
         s < f ->
         (forall e, In e (events w) -> location e = loc -> active e ->
                    startDate e < endDate e /\ touches s f e) ->
         fst (checkEventConflict loc (Date_at s) (Date_at f) excl w)
         = Val {| hasConflict := false; conflictingEvent := None |})
  /\ fst (checkEventConflict "Main Hall" (Date_at 1893499200000)
            (Date_at 1893502800000) None demo_world)
     = Val {| hasConflict := false; conflictingEvent := None |}
  /\ fst (checkEventConflict "Main Hall" (Date_at 1893488400000)
            (Date_at 1893492000000) None demo_world)
     = Val {| hasConflict := false; conflictingEvent := None |}.
Proof.
  split; [exact touching_not_selected|]. split; [|split].
  - intros w loc s f excl Hsf Hall.
    rewrite checkEventConflict_run. cbv zeta. cbn [date_valid andb fst].
    assert (N : find (matches_all (conflict_where loc (Date_at s) (Date_at f)
                                   ++ exclusion excl)) (events w) = None).
    { apply find_none_iff. intros e He.
      apply not_true_is_false. rewrite conflict_query_matches.
      intros [Hl [Ha [_ H3]]].
      destruct (Hall e He Hl Ha) as [Ho Ht].
      exact (touching_not_three_cases s f e Hsf Ho Ht H3). }
    now rewrite N.
  - reflexivity.
  - reflexivity.
Qed.

Lemma touching_endpoints_no_conflict_witness :
  (1893499200000 < 1893502800000
   /\ startDate seminar < endDate seminar
   /\ touches 1893499200000 1893502800000 seminar)
  /\ matches_all (conflict_where "Main Hall" (Date_at 1893499200000)
                                 (Date_at 1893502800000)
                  ++ exclusion None) seminar = false
  /\ fst (checkEventConflict "Main Hall" (Date_at 1893499200000)
            (Date_at 1893502800000) None busy_world)
     = Val {| hasConflict := false; conflictingEvent := None |}.
Proof.
  assert (H1 : 1893499200000 < 1893502800000) by lia.
  assert (H2 : startDate seminar < endDate seminar) by (cbn; lia).
  assert (H3 : touches 1893499200000 1893502800000 seminar)
    by (left; reflexivity).
  split; [auto|]. split.
  - exact (proj1 touching_endpoints_no_conflict seminar "Main Hall"
                 1893499200000 1893502800000 None H1 H2 H3).
  - apply (proj1 (proj2 touching_endpoints_no_conflict) busy_world
                 "Main Hall" 1893499200000 1893502800000 None H1).
    intros e [<-|[<-|[<-|[]]]] _ A.
    + split; [cbn; lia|now left].
    + destruct A as [A|A]; discriminate A.
    + split; [cbn; lia|now right].
Defined.

(** C4. A stored event whose status is Rejected or Cancelled is never the
    event [checkEventConflict] reports, whatever the location, interval
    and exclusion; a reported event is a stored Pending or Approved one,
    and the answer is the same as over the store with all other events
    removed. *)
Theorem rejected_cancelled_never_conflict :
  forall (w : World) (loc : string) (sd ed : Date) (excl : option string),
    (forall r w' e,
        checkEventConflict loc sd ed excl w = (Val r, w') ->
        status e = REJECTED \/ status e = CANCELLED ->
        conflictingEvent r <> Some e)
    /\ (forall r w',
        checkEventConflict loc sd ed excl w = (Val r, w') ->
        hasConflict r = true ->
        exists c, conflictingEvent r = Some c /\ In c (events w) /\ active c)
    /\ fst (checkEventConflict loc sd ed excl w)
       = fst (checkEventConflict loc sd ed excl
                (set_events (filter activeb (events w)) w)).
Proof.
  intros w loc sd ed excl.
  assert (A : forall e,
             matches_all (conflict_where loc sd ed ++ exclusion excl) e = true
             -> activeb e = true).
  { intros e. rewrite matches_all_app, andb_true_iff. intros [H _].
    unfold matches_all, conflict_where in H.
    cbn [forallb matches existsb] in H.
    rewrite status_in_active in H.
    apply andb_true_iff in H. destruct H as [_ H].
    apply andb_true_iff in H. tauto. }
  split; [|split].
  - intros r w' e. rewrite checkEventConflict_run. cbv zeta.
    destruct (date_valid sd && date_valid ed); [|discriminate].
    intros [= <- _] Hs. cbn. intros F.
    apply find_some in F. destruct F as [_ F]. apply A in F.
    unfold activeb in F. destruct Hs as [Hs|Hs]; rewrite Hs in F;
      discriminate.
  - intros r w'. rewrite checkEventConflict_run. cbv zeta.
    destruct (date_valid sd && date_valid ed); [|discriminate].
    intros [= <- _]. cbn.
    destruct (find _ (events w)) as [c|] eqn:F; [|discriminate].
    intros _. exists c. split; [reflexivity|].
    apply find_some in F. destruct F as [I F]. split; [exact I|].
    apply activeb_active. now apply A.
  - rewrite !checkEventConflict_run. cbv zeta.
    destruct (date_valid sd && date_valid ed); [|reflexivity].
    cbn [fst set_events events log].
    now rewrite (find_filter _ activeb (events w) A).
Qed.

Lemma rejected_cancelled_never_conflict_witness :
  (status rejected_party = REJECTED
   /\ In rejected_party (events busy_world)
   /\ overlaps 1893495600000 1893502800000 rejected_party)
  /\ (forall r w',
        checkEventConflict "Main Hall" (Date_at 1893495600000)
          (Date_at 1893502800000) None busy_world = (Val r, w') ->
        conflictingEvent r <> Some rejected_party)
  /\ exists r w',
       checkEventConflict "Main Hall" (Date_at 1893495600000)
         (Date_at 1893502800000) None busy_world = (Val r, w')
       /\ exists c, conflictingEvent r = Some c /\ In c (events busy_world)
                    /\ active c.
Proof.
  split; [|split].
  - split; [reflexivity|]. split; [right; now left|]. split; reflexivity.
  - intros r w' H.
    exact (proj1 (rejected_cancelled_never_conflict busy_world "Main Hall"
                    (Date_at 1893495600000) (Date_at 1893502800000) None)
                 r w' rejected_party H (or_introl eq_refl)).
  - eexists. eexists. split; [reflexivity|].
    exact (proj1 (proj2 (rejected_cancelled_never_conflict busy_world
                           "Main Hall" (Date_at 1893495600000)
                           (Date_at 1893502800000) None))
                 _ _ eq_refl eq_refl).
Defined.

(* ================================================================== *)
(** ** Running the handlers *)

Section HandlerRuns.
Context {rt : Runtime}.

Lemma createEvent_run now req w :
  createEvent now req w =
  let b := cr_body req in
  let start := Date_parse (b_startDate b) in
  let end_ := Date_parse (b_endDate b) in
  if negb (is_nil (createEventValidation b)) then
    ({| code := 400; body := json_errors (createEventValidation b) |}, w)
  else if date_ge start end_ then
    (error 400 "End date must be after start date", w)
  else if date_lt start (Date_at now) then
    (error 400 "Start date must be in the future", w)
  else
    let q := conflict_where (b_location b) start end_ in
    let w1 := log (call_findFirst q) w in
    if date_valid start && date_valid end_ then
      match find (matches_all q) (events w) with
      | Some ce => (venue_conflict ce, w1)
      | None => persist_create req w1
      end
    else (error 500 "Failed to create event", w1).
Proof.
  cbv zeta. unfold createEvent, try_catch at 1.
  destruct (negb (is_nil (createEventValidation (cr_body req))));
    [reflexivity|].
  destruct (date_ge _ _); [reflexivity|].
  destruct (date_lt _ _); [reflexivity|].
  unfold bind at 1. rewrite checkEventConflict_run. cbv zeta.
  unfold exclusion. rewrite app_nil_r.
  destruct (date_valid _ && date_valid _); [|reflexivity].
  cbn [hasConflict conflictingEvent].
  destruct (find _ (events w)) as [ce|]; reflexivity.
Qed.

Lemma updateEvent_run req w :
  updateEvent req w =
  let b := ur_body req in
  let w1 := log (call_findUnique (ur_id req)) w in
  match find (fun e => String.eqb (id e) (ur_id req)) (events w) with
  | None => (error 404 "Event not found", w1)
  | Some event =>
    if forbidden req event then
      (error 403 "You can only update your own events", w1)
    else if reschedules b then
      if date_ge (newStartDate b event) (newEndDate b event) then
        (error 400 "End date must be after start date", w1)
      else
        let q := (conflict_where (newLocation b event) (newStartDate b event)
                                 (newEndDate b event)
                  ++ exclusion (Some (ur_id req)))%list in
        let w2 := log (call_findFirst q) w1 in
        if date_valid (newStartDate b event)
           && date_valid (newEndDate b event)
        then
          match find (matches_all q) (events w) with
          | Some ce => (venue_conflict ce, w2)
          | None => persist_update req w2
          end
        else (error 500 "Failed to update event", w2)
    else persist_update req w1
  end.
Proof.
  cbv zeta. unfold updateEvent, try_catch at 1.
  unfold bind at 1. unfold prisma_event_findUnique at 1.
  destruct (find _ (events w)) as [event|]; [|reflexivity].
  fold (forbidden req event). destruct (forbidden req event); [reflexivity|].
  fold (reschedules (ur_body req)).
  fold (newStartDate (ur_body req) event) (newEndDate (ur_body req) event)
       (newLocation (ur_body req) event).
  destruct (reschedules (ur_body req)); [|reflexivity].
  destruct (date_ge _ _); [reflexivity|].
  unfold bind at 1. rewrite checkEventConflict_run. cbv zeta.
  destruct (date_valid _ && date_valid _); [|reflexivity].
  cbn [hasConflict conflictingEvent events log].
  destruct (find (matches_all _) (events w)) as [ce|]; reflexivity.
Qed.

Lemma persist_update_run req w :
  persist_update req w =
  let d := update_data (ur_body req) in
  let w' := log (call_update (ur_id req) d) w in
  let rows :=
    map (fun e => if String.eqb (id e) (ur_id req) then apply_update d e
                  else e) (events w) in
  if update_valid d then
    match find (fun e => String.eqb (id e) (ur_id req)) rows with
    | Some e' =>
        ({| code := 200;
            body := json_event "Event updated successfully" e' |},
         set_events rows w')
    | None => (error 500 "Failed to update event", w')
    end
  else (error 500 "Failed to update event", w').
Proof.
  cbv zeta. unfold persist_update, try_catch, bind, prisma_event_update, ret.
  destruct (update_valid _); [|reflexivity].
  destruct (find _ _); reflexivity.
Qed.

Lemma checkAvailability_run q w :
  checkAvailability q w =
  let start := Date_parse (q_startDate q) in
  let end_ := Date_parse (q_endDate q) in
  if negb (truthy (q_location q)) || negb (truthy (q_startDate q))
     || negb (truthy (q_endDate q))
  then (error 400 "Location, start date, and end date are required", w)
  else if date_ge start end_ then
    (error 400 "End date must be after start date", w)
  else
    let wh := (conflict_where (q_location q) start end_
               ++ exclusion (Some (q_excludeEventId q)))%list in
    let w1 := log (call_findFirst wh) w in
    if date_valid start && date_valid end_ then
      match find (matches_all wh) (events w) with
      | Some ce =>
          ({| code := 200;
              body := json_available false
                ("This venue is already booked for "
                 ++ quote ++ title ce ++ quote)
                (Some (summary ce)) |}, w1)
      | None =>
          ({| code := 200;
              body := json_available true
                "Venue is available for the selected time" None |}, w1)
      end
    else (error 500 "Failed to check availability", w1).
Proof.
  cbv zeta. unfold checkAvailability, try_catch at 1.
  destruct (negb (truthy (q_location q)) || negb (truthy (q_startDate q))
            || negb (truthy (q_endDate q))); [reflexivity|].
  destruct (date_ge _ _); [reflexivity|].
  unfold bind at 1. rewrite checkEventConflict_run. cbv zeta.
  destruct (date_valid _ && date_valid _); [|reflexivity].
  cbn [hasConflict conflictingEvent].
  destruct (find _ (events w)) as [ce|]; reflexivity.
Qed.

Lemma getVenueSchedule_run now q w :
  getVenueSchedule now q w =
  let start := window_start now q in
  let end_ := window_end now q in
  if negb (truthy (s_location q)) then (error 400 "Location is required", w)
  else
    let wh := schedule_where (s_location q) start end_ in
    let w1 := log (call_findMany wh) w in
    if date_valid start && date_valid end_ then
      ({| code := 200;
          body := json_schedule (s_location q) start end_
                    (map slot (EventSort.sort
                                 (filter (matches_all wh) (events w)))) |},
       w1)
    else (error 500 "Failed to fetch venue schedule", w1).
Proof.
  cbv zeta. unfold getVenueSchedule, try_catch at 1.
  destruct (negb (truthy (s_location q))); [reflexivity|].
  fold (window_start now q). fold (window_end now q).
  unfold bind, prisma_event_findMany_by_startDate.
  assert (V : forallb where_valid
                (schedule_where (s_location q) (window_start now q)
                                (window_end now q))
              = date_valid (window_start now q)
                && date_valid (window_end now q)).
  { destruct (window_start now q), (window_end now q); reflexivity. }
  rewrite V. destruct (date_valid _ && date_valid _); reflexivity.
Qed.

End HandlerRuns.

Lemma conflict_query_selects loc sd ed excl e :
  matches_all (conflict_where loc sd ed ++ exclusion excl) e = true ->
  location e = loc /\ active e /\ not_excluded excl e.
Proof.
  rewrite matches_all_app, andb_true_iff, exclusion_matches.
  intros [H X]. unfold matches_all, conflict_where in H.
  cbn [forallb matches existsb] in H. rewrite status_in_active in H.
  apply andb_true_iff in H. destruct H as [L H].
  apply andb_true_iff in H. destruct H as [A _].
  apply String.eqb_eq in L. apply activeb_active in A. tauto.
Qed.

(** C5. A conflict check that excludes a stored event's id, run on that
    event's own location and interval, never reports the event itself: a
    reported event is another stored Pending or Approved event at the
    location that meets the interval.  Hence [updateEvent] never answers
    with the event being updated as the conflicting one. *)
Theorem update_never_self_conflict :
  (forall (w : World) (E : Event) (r : ConflictResult) (w' : World),
      In E (events w) -> id E <> EmptyString ->
      checkEventConflict (location E) (Date_at (startDate E))
                         (Date_at (endDate E)) (Some (id E)) w = (Val r, w')
      -> conflictingEvent r <> Some E
         /\ (hasConflict r = true ->
             exists c, conflictingEvent r = Some c /\ In c (events w)
                       /\ id c <> id E /\ location c = location E
                       /\ active c
                       /\ three_cases (startDate E) (endDate E) c
                       /\ (dates_ordered (events w) ->
                           overlaps (startDate E) (endDate E) c)))
  /\ (forall (rt : Runtime) (req : UpdateRequest) (w : World)
             (err msg : string) (cs : ConflictSummary),
         ur_id req <> EmptyString ->
         body (fst (updateEvent req w)) = json_conflict err msg cs ->
         cs_id cs <> ur_id req
         /\ exists c, In c (events w) /\ cs = summary c /\ active c
                      /\ id c <> ur_id req).
Proof.
  split.
  - intros w E r w' HE Hid. rewrite checkEventConflict_run. cbv zeta.
    cbn [date_valid andb]. intros [= <- _]. cbn [conflictingEvent hasConflict].
    split.
    + intros F. apply find_some in F. destruct F as [_ F].
      apply (proj1 (conflict_query_matches (location E) (startDate E)
                      (endDate E) (Some (id E)) E)) in F.
      destruct F as [_ [_ [X _]]].
      exact (X (id E) eq_refl Hid eq_refl).
    + destruct (find _ (events w)) as [c|] eqn:F; [|discriminate].
      intros _. exists c. apply find_some in F. destruct F as [I F].
      apply (proj1 (conflict_query_matches (location E) (startDate E)
                      (endDate E) (Some (id E)) c)) in F.
      destruct F as [L [A [X T]]].
      split; [reflexivity|]. split; [exact I|].
      split; [exact (X (id E) eq_refl Hid)|].
      split; [exact L|]. split; [exact A|]. split; [exact T|].
      intros O. unfold dates_ordered in O. rewrite Forall_forall in O.
      apply (three_cases_overlaps _ _ c (O E HE) (O c I)). exact T.
  - intros rt req w err msg cs Hid. rewrite updateEvent_run. cbv zeta.
    destruct (find _ (events w)) as [event|]; [|discriminate].
    destruct (forbidden req event); [discriminate|].
    assert (P : forall w0,
               body (fst (persist_update req w0)) <> json_conflict err msg cs).
    { intros w0. rewrite persist_update_run. cbv zeta.
      destruct (update_valid _); [|discriminate].
      destruct (find _ _); discriminate. }
    destruct (reschedules _); [|intros H; now apply P in H].
    destruct (date_ge _ _); [discriminate|].
    destruct (date_valid _ && date_valid _); [|discriminate].
    destruct (find (matches_all _) (events w)) as [ce|] eqn:F;
      [|intros H; now apply P in H].
    cbn [fst venue_conflict body]. intros [= _ _ <-].
    apply find_some in F. destruct F as [I F].
    apply conflict_query_selects in F. destruct F as [_ [A X]].
    assert (N : id ce <> ur_id req) by exact (X _ eq_refl Hid).
    split; [exact N|]. exists ce. auto.
Qed.

Lemma update_never_self_conflict_witness :
  (In seminar (events busy_world) /\ id seminar <> EmptyString
   /\ ur_id move_request <> EmptyString)
  /\ (forall r w',
        checkEventConflict (location seminar) (Date_at (startDate seminar))
          (Date_at (endDate seminar)) (Some (id seminar)) busy_world
        = (Val r, w') ->
        conflictingEvent r <> Some seminar)
  /\ code (fst (updateEvent (rt := demo_runtime) move_request busy_world))
     = 409
  /\ forall err msg cs,
       body (fst (updateEvent (rt := demo_runtime) move_request busy_world))
       = json_conflict err msg cs ->
       cs_id cs <> "event-3".
Proof.
  assert (H1 : In seminar (events busy_world)) by (left; reflexivity).
  assert (H2 : id seminar <> EmptyString) by discriminate.
  assert (H3 : ur_id move_request <> EmptyString) by discriminate.
  split; [auto|]. split; [|split].
  - intros r w' H.
    exact (proj1 (proj1 update_never_self_conflict busy_world seminar r w'
                        H1 H2 H)).
  - reflexivity.
  - intros err msg cs H.
    exact (proj1 (proj2 update_never_self_conflict demo_runtime move_request
                        busy_world err msg cs H3 H)).
Defined.

(* ================================================================== *)
(** ** The venue schedule *)

Lemma sorted_by_startDate (l : list Event) :
  StronglySorted Z.le (map startDate (EventSort.sort l)).
Proof.
  assert (T : Relations_1.Transitive
                (fun x y : Event => is_true (StartDateOrder.leb x y))).
  { intros x y z. unfold is_true, StartDateOrder.leb.
    rewrite !Z.leb_le. lia. }
  pose proof (EventSort.StronglySorted_sort l T) as S.
  induction S as [|x l' S IH F]; cbn; constructor.
  - exact IH.
  - rewrite Forall_forall in *. intros z Hz.
    apply in_map_iff in Hz. destruct Hz as [y [<- Hy]].
    specialize (F y Hy). unfold is_true, StartDateOrder.leb in F.
    now apply Z.leb_le.
Qed.

Lemma slot_start_startDate (l : list Event) :
  map slot_start (map slot l) = map startDate l.
Proof. rewrite map_map. reflexivity. Qed.

(** C3. For a window from [a] to [b], [getVenueSchedule] answers with the
    slots of exactly the stored Pending or Approved events at the venue
    that start in the window, end in the window or span it, bounds
    included.  Every event the conflict query selects for the same window
    is among them, and an event that ends where the window starts, or
    starts where it ends, is a booked slot although it is no conflict. *)
Theorem getVenueSchedule_exact_and_more_inclusive :
  (forall (rt : Runtime) (now : Z) (q : ScheduleQuery) (w : World) (a b : Z),
      truthy (s_location q) = true ->
      window_start now q = Date_at a ->
      window_end now q = Date_at b ->
      exists slots,
        fst (getVenueSchedule now q w)
        = {| code := 200;
             body := json_schedule (s_location q) (Date_at a) (Date_at b)
                                   slots |}
        /\ Permutation slots
             (map slot (filter (booked (s_location q) a b) (events w))))
  /\ (forall (loc : string) (a b : Z) (e : Event),
         booked loc a b e = true
         <-> location e = loc /\ active e /\
             ((a <= startDate e <= b) \/ (a <= endDate e <= b)
              \/ (startDate e <= a /\ endDate e >= b)))
  /\ (forall (loc : string) (a b : Z) (excl : option string) (e : Event),
         startDate e <= endDate e ->
         matches_all (conflict_where loc (Date_at a) (Date_at b)
                      ++ exclusion excl) e = true ->
         booked loc a b e = true)
  /\ (forall (loc : string) (a b : Z) (excl : option string) (e : Event),
         a < b -> startDate e < endDate e ->
         location e = loc -> active e -> touches a b e ->
         booked loc a b e = true
         /\ matches_all (conflict_where loc (Date_at a) (Date_at b)
                         ++ exclusion excl) e = false)
  /\ (let q := {| s_location := "Main Hall";
                  s_startDate := "2030-01-01T12:00:00.000Z";
                  s_endDate := "2030-01-01T13:00:00.000Z" |} in
      endDate seminar = 1893499200000
      /\ body (fst (getVenueSchedule (rt := demo_runtime) 0 q demo_world))
         = json_schedule "Main Hall" (Date_at 1893499200000)
                         (Date_at 1893502800000) [slot seminar]
      /\ fst (checkEventConflict "Main Hall" (Date_at 1893499200000)
                (Date_at 1893502800000) None demo_world)
         = Val {| hasConflict := false; conflictingEvent := None |})
  /\ (let q := {| s_location := "Main Hall";
                  s_startDate := "2030-01-01T09:00:00.000Z";
                  s_endDate := "2030-01-01T10:00:00.000Z" |} in
      startDate seminar = 1893492000000
      /\ body (fst (getVenueSchedule (rt := demo_runtime) 0 q demo_world))
         = json_schedule "Main Hall" (Date_at 1893488400000)
                         (Date_at 1893492000000) [slot seminar]
      /\ fst (checkEventConflict "Main Hall" (Date_at 1893488400000)
                (Date_at 1893492000000) None demo_world)
         = Val {| hasConflict := false; conflictingEvent := None |}).
Proof.
  split; [|split; [|split; [|split; [|split]]]].
  - intros rt now q w a b Hl Ha Hb.
    rewrite getVenueSchedule_run. cbv zeta. rewrite Hl, Ha, Hb.
    cbn [negb date_valid andb fst]. eexists. split; [reflexivity|].
    apply Permutation_map.
    rewrite (filter_ext _ _ (schedule_where_matches (s_location q) a b)).
    apply Permutation_sym, EventSort.Permuted_sort.
  - exact booked_true.
  - intros loc a b excl e He. rewrite conflict_query_matches, booked_true.
    unfold three_cases, starts_during, ends_during, contains.
    intuition lia.
  - intros loc a b excl e Hab He Hl Hact Ht. split.
    + apply booked_true. unfold touches in Ht. intuition lia.
    + apply touching_not_selected; assumption.
  - repeat split; reflexivity.
  - repeat split; reflexivity.
Qed.

Lemma getVenueSchedule_exact_and_more_inclusive_witness :
  (truthy "Main Hall" = true
   /\ window_start (rt := demo_runtime) 0
        {| s_location := "Main Hall";
           s_startDate := "2030-01-01T09:00:00.000Z";
           s_endDate := "2030-01-01T13:00:00.000Z" |}
      = Date_at 1893488400000
   /\ window_end (rt := demo_runtime) 0
        {| s_location := "Main Hall";
           s_startDate := "2030-01-01T09:00:00.000Z";
           s_endDate := "2030-01-01T13:00:00.000Z" |}
      = Date_at 1893502800000)
  /\ (exists slots,
        fst (getVenueSchedule (rt := demo_runtime) 0
               {| s_location := "Main Hall";
                  s_startDate := "2030-01-01T09:00:00.000Z";
                  s_endDate := "2030-01-01T13:00:00.000Z" |} busy_world)
        = {| code := 200;
             body := json_schedule "Main Hall" (Date_at 1893488400000)
                                   (Date_at 1893502800000) slots |}
        /\ Permutation slots
             (map slot (filter (booked "Main Hall" 1893488400000
                                       1893502800000)
                               (events busy_world))))
  /\ booked "Main Hall" 1893495600000 1893502800000 seminar = true
  /\ (booked "Main Hall" 1893499200000 1893502800000 seminar = true
      /\ matches_all (conflict_where "Main Hall" (Date_at 1893499200000)
                                     (Date_at 1893502800000)
                      ++ exclusion None) seminar = false).
Proof.
  split; [repeat split|]. split; [|split].
  - exact (proj1 getVenueSchedule_exact_and_more_inclusive demo_runtime 0
             {| s_location := "Main Hall";
                s_startDate := "2030-01-01T09:00:00.000Z";
                s_endDate := "2030-01-01T13:00:00.000Z" |}
             busy_world 1893488400000 1893502800000
             eq_refl eq_refl eq_refl).
  - apply (proj1 (proj2 (proj2 getVenueSchedule_exact_and_more_inclusive))
             "Main Hall" 1893495600000 1893502800000 None seminar).
    + cbn. lia.
    + reflexivity.
  - apply (proj1 (proj2 (proj2 (proj2
             getVenueSchedule_exact_and_more_inclusive)))
             "Main Hall" 1893499200000 1893502800000 None seminar).
    + lia.
    + cbn. lia.
    + reflexivity.
    + now right.
    + now left.
Defined.

(** C7. A schedule request with a location and neither date is answered
    for the window that starts now and ends 7 * 24 * 60 * 60 * 1000
    milliseconds later; and the booked slots of every schedule answer are
    in ascending order of start time. *)
Theorem getVenueSchedule_default_window_and_order :
  (forall (rt : Runtime) (now : Z) (q : ScheduleQuery) (w : World),
      truthy (s_location q) = true ->
      s_startDate q = EmptyString -> s_endDate q = EmptyString ->
      exists slots,
        fst (getVenueSchedule now q w)
        = {| code := 200;
             body := json_schedule (s_location q) (Date_at now)
                       (Date_at (now + 7 * 24 * 60 * 60 * 1000)) slots |}
        /\ calls (snd (getVenueSchedule now q w))
           = (calls w
              ++ [call_findMany
                    (schedule_where (s_location q) (Date_at now)
                       (Date_at (now + 7 * 24 * 60 * 60 * 1000)))])%list)
  /\ (forall (rt : Runtime) (now : Z) (q : ScheduleQuery) (w : World)
             (loc : string) (from to : Date) (slots : list Slot),
         body (fst (getVenueSchedule now q w))
         = json_schedule loc from to slots ->
         StronglySorted Z.le (map slot_start slots)).
Proof.
  split.
  - intros rt now q w Hl Hs He.
    rewrite getVenueSchedule_run. cbv zeta.
    unfold window_end, window_start. rewrite Hl, Hs, He.
    cbn [truthy String.eqb negb date_plus date_valid andb fst snd].
    eexists. split; reflexivity.
  - intros rt now q w loc from to slots.
    rewrite getVenueSchedule_run. cbv zeta.
    destruct (negb (truthy (s_location q))); [discriminate|].
    destruct (date_valid _ && date_valid _); [|discriminate].
    cbn [fst body]. intros [= _ _ _ <-].
    rewrite slot_start_startDate. apply sorted_by_startDate.
Qed.

Lemma getVenueSchedule_default_window_and_order_witness :
  (truthy "Main Hall" = true)
  /\ (exists slots,
        fst (getVenueSchedule (rt := demo_runtime) demo_now
               {| s_location := "Main Hall"; s_startDate := EmptyString;
                  s_endDate := EmptyString |} busy_world)
        = {| code := 200;
             body := json_schedule "Main Hall" (Date_at demo_now)
                       (Date_at (demo_now + 7 * 24 * 60 * 60 * 1000))
                       slots |})
  /\ StronglySorted Z.le (map slot_start [slot seminar; slot lecture]).
Proof.
  split; [reflexivity|]. split.
  - destruct (proj1 getVenueSchedule_default_window_and_order demo_runtime
                demo_now
                {| s_location := "Main Hall"; s_startDate := EmptyString;
                   s_endDate := EmptyString |}
                busy_world eq_refl eq_refl eq_refl) as [slots [H _]].
    exists slots. exact H.
  - exact (proj2 getVenueSchedule_default_window_and_order demo_runtime
                 demo_now
                 {| s_location := "Main Hall"; s_startDate := EmptyString;
                    s_endDate := EmptyString |}
                 busy_world _ _ _ _ eq_refl).
Defined.

(* ================================================================== *)
(** ** Availability *)

(** What [checkAvailability] guarantees: a request with a field missing,
    or with two parsed dates of which the start is not before the end, is
    answered 400 and no call is issued. *)
Lemma checkAvailability_validates_first :
  forall (rt : Runtime) (q : AvailabilityQuery) (w : World),
    (q_location q = EmptyString \/ q_startDate q = EmptyString
     \/ q_endDate q = EmptyString
     \/ (exists s f, Date_parse (q_startDate q) = Date_at s
                     /\ Date_parse (q_endDate q) = Date_at f /\ s >= f)) ->
    code (fst (checkAvailability q w)) = 400
    /\ snd (checkAvailability q w) = w.
Proof.
  intros rt q w H. rewrite checkAvailability_run. cbv zeta.
  destruct (negb (truthy (q_location q)) || negb (truthy (q_startDate q))
            || negb (truthy (q_endDate q))) eqn:M; [now split|].
  apply orb_false_iff in M. destruct M as [M M3].
  apply orb_false_iff in M. destruct M as [M1 M2].
  rewrite negb_false_iff, truthy_true in M1, M2, M3.
  destruct H as [H|[H|[H|[s [f [Hs [Hf Hsf]]]]]]]; try contradiction.
  rewrite Hs, Hf. cbn [date_ge].
  destruct (Z.leb_spec f s); [now split|lia].
Qed.

(** With dates that parse, the conflict query is issued only for a
    complete request whose start is before its end, and is then answered
    with a boolean. *)
Lemma checkAvailability_parsed_dates :
  forall (rt : Runtime) (q : AvailabilityQuery) (w : World) (s f : Z),
    Date_parse (q_startDate q) = Date_at s ->
    Date_parse (q_endDate q) = Date_at f ->
    snd (checkAvailability q w) <> w ->
    (q_location q <> EmptyString /\ q_startDate q <> EmptyString
     /\ q_endDate q <> EmptyString /\ s < f)
    /\ code (fst (checkAvailability q w)) = 200
    /\ exists available msg c,
         body (fst (checkAvailability q w)) = json_available available msg c.
Proof.
  intros rt q w s f Hs Hf. rewrite checkAvailability_run. cbv zeta.
  destruct (negb (truthy (q_location q)) || negb (truthy (q_startDate q))
            || negb (truthy (q_endDate q))) eqn:M; [now intros []|].
  apply orb_false_iff in M. destruct M as [M M3].
  apply orb_false_iff in M. destruct M as [M1 M2].
  rewrite negb_false_iff, truthy_true in M1, M2, M3.
  rewrite Hs, Hf. cbn [date_ge date_valid andb].
  destruct (Z.leb_spec f s); [now intros []|]. intros _.
  split; [auto|].
  destruct (find _ (events w)); cbn [fst code body]; split; try reflexivity;
    eexists; eexists; eexists; reflexivity.
Qed.

(** C6, at an input where the code departs from it: a start date that
    does not parse passes both guards, since no comparison with an
    Invalid Date holds, so the conflict query is issued although the
    start is not before the end, and the answer is neither the validation
    error nor a boolean. *)
Theorem checkAvailability_unparsable_date_is_queried :
  let q := {| q_location := "Main Hall";
              q_startDate := "tomorrow";
              q_endDate := "2030-01-01T10:00:00.000Z";
              q_excludeEventId := EmptyString |} in
  Date_parse (Runtime := demo_runtime) (q_startDate q) = Invalid_Date
  /\ date_lt (Date_parse (Runtime := demo_runtime) (q_startDate q))
             (Date_parse (Runtime := demo_runtime) (q_endDate q)) = false
  /\ checkAvailability (rt := demo_runtime) q demo_world
     = (error 500 "Failed to check availability",
        log (call_findFirst
               (conflict_where "Main Hall" Invalid_Date
                               (Date_at 1893492000000)))
            demo_world).
Proof. repeat split. Qed.

(** The same for every runtime and request: once the three fields are
    present, a date that does not parse leads to the query and to 500. *)
Lemma checkAvailability_invalid_date :
  forall (rt : Runtime) (q : AvailabilityQuery) (w : World),
    truthy (q_location q) = true -> truthy (q_startDate q) = true ->
    truthy (q_endDate q) = true ->
    Date_parse (q_startDate q) = Invalid_Date
    \/ Date_parse (q_endDate q) = Invalid_Date ->
    fst (checkAvailability q w) = error 500 "Failed to check availability"
    /\ exists wh, calls (snd (checkAvailability q w))
                  = (calls w ++ [call_findFirst wh])%list.
Proof.
  intros rt q w H1 H2 H3 H. rewrite checkAvailability_run. cbv zeta.
  rewrite H1, H2, H3. cbn [negb orb].
  destruct H as [H|H]; rewrite H.
  - cbn [date_ge date_valid andb fst snd]. split; [reflexivity|].
    eexists. reflexivity.
  - destruct (Date_parse (q_startDate q));
      cbn [date_ge date_valid andb fst snd]; (split; [reflexivity|]);
      eexists; reflexivity.
Qed.

(* ================================================================== *)
(** ** Creating and updating events *)

Ltac break_create req w :=
  destruct (c_startDate (create_data req));
  [ destruct (c_endDate (create_data req));
    [ destruct (c_maxAttendees (create_data req)) as [n|];
      [ destruct (find _ (users w)); [ destruct (int32 n) | ] | ] | ] | ].

Section Persisting.
Context {rt : Runtime}.

Lemma persist_update_calls req w :
  calls (snd (persist_update req w))
  = (calls w ++ [call_update (ur_id req) (update_data (ur_body req))])%list.
Proof.
  rewrite persist_update_run. cbv zeta.
  destruct (update_valid _); [|reflexivity].
  destruct (find _ _); reflexivity.
Qed.

Lemma persist_update_users req w :
  users (snd (persist_update req w)) = users w.
Proof.
  rewrite persist_update_run. cbv zeta.
  destruct (update_valid _); [|reflexivity].
  destruct (find _ _); reflexivity.
Qed.

Lemma persist_update_code req w :
  code (fst (persist_update req w)) = 200
  \/ fst (persist_update req w) = error 500 "Failed to update event".
Proof.
  rewrite persist_update_run. cbv zeta.
  destruct (update_valid _); [|now right].
  destruct (find _ _); [now left|now right].
Qed.

Lemma find_updated_row (i : string) (g : Event -> Event) (l : list Event)
      (event : Event) :
  (forall e, id (g e) = id e) ->
  find (fun e => String.eqb (id e) i) l = Some event ->
  find (fun e => String.eqb (id e) i)
       (map (fun e => if String.eqb (id e) i then g e else e) l)
  = Some (g event).
Proof.
  intros G. induction l as [|x l IH]; [discriminate|].
  cbn [find map]. destruct (String.eqb (id x) i) eqn:X.
  - intros [= <-]. now rewrite G, X.
  - rewrite X. exact IH.
Qed.

Lemma persist_update_found req w event :
  find (fun e => String.eqb (id e) (ur_id req)) (events w) = Some event ->
  update_valid (update_data (ur_body req)) = true ->
  persist_update req w
  = ({| code := 200;
        body := json_event "Event updated successfully"
                  (apply_update (update_data (ur_body req)) event) |},
     set_events
       (map (fun e => if String.eqb (id e) (ur_id req)
                      then apply_update (update_data (ur_body req)) e
                      else e) (events w))
       (log (call_update (ur_id req) (update_data (ur_body req))) w)).
Proof.
  intros F V. rewrite persist_update_run. cbv zeta. rewrite V.
  now rewrite (find_updated_row _ (apply_update _) _ event (fun _ => eq_refl) F).
Qed.

Lemma persist_create_calls req w :
  calls (snd (persist_create req w))
  = (calls w ++ [call_create (create_data req)])%list.
Proof.
  unfold persist_create, try_catch, bind, prisma_event_create, ret.
  break_create req w; reflexivity.
Qed.

Lemma persist_create_code req w :
  code (fst (persist_create req w)) = 201
  \/ fst (persist_create req w) = error 500 "Failed to create event".
Proof.
  unfold persist_create, try_catch, bind, prisma_event_create, ret.
  break_create req w; (now left) || (now right).
Qed.

Lemma persist_create_events req w ev :
  In ev (events (snd (persist_create req w))) ->
  In ev (events w)
  \/ (Date_parse (b_startDate (cr_body req)) = Date_at (startDate ev)
      /\ Date_parse (b_endDate (cr_body req)) = Date_at (endDate ev)
      /\ location ev = b_location (cr_body req)
      /\ status ev = PENDING).
Proof.
  unfold persist_create, try_catch, bind, prisma_event_create, ret.
  cbn [create_data c_startDate c_endDate c_maxAttendees c_createdById].
  destruct (Date_parse (b_startDate _)) as [s|]; [|now left].
  destruct (Date_parse (b_endDate _)) as [f|]; [|now left].
  destruct (parseInt _) as [n|]; [|now left].
  destruct (find _ _); [|now left].
  destruct (int32 n); [|now left].
  cbn [snd events set_events]. intros H. apply in_app_or in H.
  destruct H as [H|[<-|[]]]; [now left|right]. now cbn.
Qed.

End Persisting.

Lemma checked_without_write (l : list PrismaCall) :
  Forall (fun c => ~ is_write c) l -> checked_before_persisting l.
Proof.
  intros F pre c post -> W. rewrite Forall_forall in F.
  exfalso. apply (F c); [|exact W]. apply in_or_app. right. now left.
Qed.

Lemma checked_after_check (pre0 : list PrismaCall) (q : list Where)
      (l : list PrismaCall) :
  Forall (fun c => ~ is_write c) pre0 ->
  checked_before_persisting (pre0 ++ call_findFirst q :: l).
Proof.
  intros F. induction pre0 as [|x pre0 IH].
  - intros pre c post E W. destruct pre as [|y pre].
    + cbn in E. injection E as <- _. destruct W.
    + cbn in E. injection E as <- _. now apply Exists_cons_hd.
  - intros pre c post E W. destruct pre as [|y pre].
    + cbn in E. injection E as <- _.
      exfalso. now apply (Forall_inv F).
    + cbn in E. injection E as <- E. apply Exists_cons_tl.
      exact (IH (Forall_inv_tail F) pre c post E W).
Qed.

Lemma conflict_where_selects loc sd ed e :
  matches_all (conflict_where loc sd ed) e = true ->
  location e = loc /\ active e.
Proof.
  intros H.
  assert (H' : matches_all (conflict_where loc sd ed ++ exclusion None) e
               = true) by (cbn [exclusion]; now rewrite app_nil_r).
  apply conflict_query_selects in H'. tauto.
Qed.

Lemma find_exists {A} (p : A -> bool) (l : list A) :
  (exists x, In x l /\ p x = true) -> exists y, find p l = Some y.
Proof.
  intros H. apply is_some_find in H.
  destruct (find p l) as [y|]; [now exists y|discriminate].
Qed.

(** C8 as stated fails: an update that supplies only a title is persisted
    and no conflict check is issued before it. *)
Lemma update_without_dates_persists_unchecked :
  ~ (forall (rt : Runtime) (req : UpdateRequest) (evs : list Event)
            (us : list User),
        checked_before_persisting
          (calls (snd (updateEvent req (at_start evs us))))).
Proof.
  intros H.
  specialize (H demo_runtime rename_request [seminar] [alice; bob]
                [call_findUnique "event-1"]
                (call_update "event-1" (update_data (rt := demo_runtime)
                                          (ur_body rename_request)))
                [] eq_refl I).
  inversion H as [? ? C|? ? C]; subst; [destruct C|inversion C].
Qed.

Section WithoutRescheduling.
Context {rt : Runtime}.

Lemma update_valid_accepted (b : EventBody) :
  reschedules b = false ->
  (update_valid (update_data b) = true <-> accepted b).
Proof.
  intros R. unfold reschedules in R.
  apply orb_false_iff in R. destruct R as [R R3].
  apply orb_false_iff in R. destruct R as [_ R2].
  unfold update_valid, update_data, accepted.
  cbn [d_startDate d_endDate d_maxAttendees d_tags]. rewrite R2, R3.
  cbn [andb]. rewrite andb_true_iff. unfold int32.
  split.
  - intros [M T]. split.
    + intros N. apply truthy_true in N. rewrite N in M.
      destruct (parseInt (b_maxAttendees b)) as [n|]; [|discriminate].
      exists n. split; [reflexivity|].
      apply andb_true_iff in M. rewrite !Z.leb_le in M. lia.
    + intros x Hx. rewrite Hx in T. cbn [tags_truthy] in T.
      destruct (truthy x) eqn:X; [discriminate|].
      now apply truthy_false.
  - intros [M T]. split.
    + destruct (truthy (b_maxAttendees b)) eqn:X; [|reflexivity].
      apply truthy_true in X. destruct (M X) as [n [-> B]].
      apply andb_true_iff. rewrite !Z.leb_le. lia.
    + destruct (b_tags b) as [|x|l] eqn:Hb; cbn [tags_truthy];
        try reflexivity.
      rewrite (T x eq_refl). reflexivity.
Qed.

Lemma applied_as_supplied (b : EventBody) (e : Event) :
  reschedules b = false -> accepted b ->
  apply_update (update_data b) e = with_supplied_fields b e.
Proof.
  intros R [M T]. unfold reschedules in R.
  apply orb_false_iff in R. destruct R as [R R3].
  apply orb_false_iff in R. destruct R as [R1 R2].
  unfold apply_update, update_data, with_supplied_fields, when, upd,
    upd_date, upd_int, upd_tags, truthy in *.
  cbn [d_title d_description d_location d_startDate d_endDate
       d_maxAttendees d_category d_tags].
  rewrite R1, R2, R3.
  destruct (String.eqb (b_title b) EmptyString);
    destruct (String.eqb (b_description b) EmptyString);
    destruct (String.eqb (b_category b) EmptyString);
    destruct (String.eqb (b_maxAttendees b) EmptyString) eqn:X;
    cbn [negb];
    try (apply String.eqb_neq in X; destruct (M X) as [n [-> _]]);
    (destruct (b_tags b) as [|x|l] eqn:Hb; cbn [tags_truthy];
     [reflexivity| |reflexivity];
     rewrite (T x eq_refl); reflexivity).
Qed.

(** The whole outcome of an update that supplies no venue and no date,
    for an existing event and its creator or an admin. *)
Lemma updateEvent_without_rescheduling req evs us event :
  reschedules (ur_body req) = false ->
  find (fun e => String.eqb (id e) (ur_id req)) evs = Some event ->
  forbidden req event = false ->
  calls (snd (updateEvent req (at_start evs us)))
  = [call_findUnique (ur_id req);
     call_update (ur_id req) (update_data (ur_body req))]
  /\ users (snd (updateEvent req (at_start evs us))) = us
  /\ (accepted (ur_body req) ->
      fst (updateEvent req (at_start evs us))
      = {| code := 200;
           body := json_event "Event updated successfully"
                     (with_supplied_fields (ur_body req) event) |}
      /\ events (snd (updateEvent req (at_start evs us)))
         = map (fun e => if String.eqb (id e) (ur_id req)
                         then with_supplied_fields (ur_body req) e else e)
               evs)
  /\ (~ accepted (ur_body req) ->
      fst (updateEvent req (at_start evs us))
      = error 500 "Failed to update event"
      /\ events (snd (updateEvent req (at_start evs us))) = evs).
Proof.
  intros R F Fb.
  rewrite updateEvent_run. cbv zeta. cbn [events at_start].
  rewrite F, Fb, R.
  split; [now rewrite persist_update_calls|].
  split; [|split].
  - now rewrite persist_update_users.
  - intros A.
    assert (V : update_valid (update_data (ur_body req)) = true)
      by (now apply update_valid_accepted).
    rewrite (persist_update_found req
               (log (call_findUnique (ur_id req)) (at_start evs us))
               event F V).
    cbn [fst snd events set_events log at_start].
    rewrite (applied_as_supplied _ event R A). split; [reflexivity|].
    apply map_ext. intros e.
    destruct (String.eqb (id e) (ur_id req)); [|reflexivity].
    now apply applied_as_supplied.
  - intros A.
    assert (V : update_valid (update_data (ur_body req)) = false).
    { destruct (update_valid (update_data (ur_body req))) eqn:V;
        [|reflexivity].
      exfalso. apply A. now apply update_valid_accepted. }
    rewrite persist_update_run. cbv zeta. rewrite V. now split.
Qed.

(** A conflict check in the log of an update means the request supplied
    a venue or a date. *)
Lemma updateEvent_check_reschedules req evs us :
  Exists is_conflict_check (calls (snd (updateEvent req (at_start evs us)))) ->
  reschedules (ur_body req) = true.
Proof.
  rewrite updateEvent_run. cbv zeta. cbn [events at_start].
  destruct (reschedules (ur_body req)); [reflexivity|].
  intros H. exfalso.
  destruct (find _ evs) as [event|];
    [destruct (forbidden req event)|].
  - inversion H as [? ? C|? ? C]; subst; [destruct C|inversion C].
  - rewrite persist_update_calls in H.
    inversion H as [? ? C|? ? C]; subst; [destruct C|].
    inversion C as [? ? D|? ? D]; subst; [destruct D|inversion D].
  - inversion H as [? ? C|? ? C]; subst; [destruct C|inversion C].
Qed.

End WithoutRescheduling.

(** C8, amended. Every create request, and every update request that
    supplies at least one of location, start date and end date, issues the
    conflict check before any write.  A 409 answer of either handler names
    the blocking event: a stored Pending or Approved event at the venue
    the request asks for, other than the event being updated, whose
    interval meets the requested one in one of the three coded cases; it
    carries the error, the message and the summary of that event (id,
    title, start, end, and the organizer's name or else the club name),
    and leaves the store unchanged with no write issued.  When a stored
    event blocks a valid request, the answer is 409.  An update that
    supplies none of the three fields issues no conflict check and is
    never answered 409; when it is for an existing event, by its creator
    or an admin, with a body the client accepts, it is answered 200 and
    persisted: the event carrying the supplied fields replaces the stored
    one. *)
Theorem conflict_check_precedes_persisting :
  (forall (rt : Runtime) (now : Z) (req : CreateRequest)
          (evs : list Event) (us : list User),
      let out := createEvent now req (at_start evs us) in
      checked_before_persisting (calls (snd out))
      /\ (code (fst out) = 409 ->
          exists ce s f,
            In ce evs /\ active ce
            /\ location ce = b_location (cr_body req)
            /\ Date_parse (b_startDate (cr_body req)) = Date_at s
            /\ Date_parse (b_endDate (cr_body req)) = Date_at f
            /\ s < f
            /\ three_cases s f ce
            /\ (startDate ce < endDate ce -> overlaps s f ce)
            /\ fst out = {| code := 409;
                            body := json_conflict "Venue conflict detected"
                                      (booked_message ce) (summary ce) |}
            /\ events (snd out) = evs
            /\ Forall (fun c => ~ is_write c) (calls (snd out))))
  /\ (forall (rt : Runtime) (req : UpdateRequest)
             (evs : list Event) (us : list User),
         let out := updateEvent req (at_start evs us) in
         (reschedules (ur_body req) = true ->
          checked_before_persisting (calls (snd out)))
         /\ (code (fst out) = 409 ->
             exists event ce s f,
               find (fun e => String.eqb (id e) (ur_id req)) evs = Some event
               /\ In ce evs /\ active ce
               /\ (ur_id req <> EmptyString -> id ce <> ur_id req)
               /\ location ce = newLocation (ur_body req) event
               /\ newStartDate (ur_body req) event = Date_at s
               /\ newEndDate (ur_body req) event = Date_at f
               /\ s < f
               /\ three_cases s f ce
               /\ (startDate ce < endDate ce -> overlaps s f ce)
               /\ fst out = {| code := 409;
                               body := json_conflict "Venue conflict detected"
                                         (booked_message ce) (summary ce) |}
               /\ events (snd out) = evs
               /\ Forall (fun c => ~ is_write c) (calls (snd out))))
  /\ (forall ce : Event,
         summary ce
         = {| cs_id := id ce;
              cs_title := title ce;
              cs_startDate := startDate ce;
              cs_endDate := endDate ce;
              cs_organizer :=
                if truthy (name (createdBy ce)) then Some (name (createdBy ce))
                else clubName (createdBy ce) |})
  /\ (forall (rt : Runtime) (now : Z) (req : CreateRequest)
             (evs : list Event) (us : list User) (s f : Z),
         createEventValidation (cr_body req) = [] ->
         Date_parse (b_startDate (cr_body req)) = Date_at s ->
         Date_parse (b_endDate (cr_body req)) = Date_at f ->
         s < f -> now <= s ->
         (exists e, In e evs /\ location e = b_location (cr_body req)
                    /\ active e /\ three_cases s f e) ->
         code (fst (createEvent now req (at_start evs us))) = 409)
  /\ (forall (rt : Runtime) (req : UpdateRequest)
             (evs : list Event) (us : list User) (event : Event) (s f : Z),
         find (fun e => String.eqb (id e) (ur_id req)) evs = Some event ->
         forbidden req event = false ->
         reschedules (ur_body req) = true ->
         newStartDate (ur_body req) event = Date_at s ->
         newEndDate (ur_body req) event = Date_at f ->
         s < f ->
         (exists e, In e evs /\ id e <> ur_id req
                    /\ location e = newLocation (ur_body req) event
                    /\ active e /\ three_cases s f e) ->
         code (fst (updateEvent req (at_start evs us))) = 409)
  /\ (forall (rt : Runtime) (req : UpdateRequest)
             (evs : list Event) (us : list User),
         reschedules (ur_body req) = false ->
         let out := updateEvent req (at_start evs us) in
         ~ Exists is_conflict_check (calls (snd out))
         /\ code (fst out) <> 409
         /\ (forall event,
               find (fun e => String.eqb (id e) (ur_id req)) evs
               = Some event ->
               forbidden req event = false ->
               accepted (ur_body req) ->
               fst out
               = {| code := 200;
                    body := json_event "Event updated successfully"
                              (with_supplied_fields (ur_body req) event) |}
               /\ events (snd out)
                  = map (fun e => if String.eqb (id e) (ur_id req)
                                  then with_supplied_fields (ur_body req) e
                                  else e)
                        evs
               /\ Exists is_write (calls (snd out)))).
Proof.
  split; [|split; [|split; [|split; [|split]]]].
  - intros rt now req evs us. cbv zeta. rewrite createEvent_run. cbv zeta.
    destruct (negb (is_nil _));
      [split; [apply checked_without_write; constructor|discriminate]|].
    destruct (date_ge _ _) eqn:G;
      [split; [apply checked_without_write; constructor|discriminate]|].
    destruct (date_lt _ _);
      [split; [apply checked_without_write; constructor|discriminate]|].
    destruct (Date_parse (b_startDate (cr_body req))) as [s|] eqn:Hs;
      [|split; [apply (checked_after_check [] _ []); constructor
               |discriminate]].
    destruct (Date_parse (b_endDate (cr_body req))) as [f|] eqn:Hf;
      [|split; [apply (checked_after_check [] _ []); constructor
               |discriminate]].
    cbn [date_valid andb events at_start].
    cbn [date_ge] in G. apply Z.leb_gt in G.
    destruct (find (matches_all _) evs) as [ce|] eqn:F.
    + split; [apply (checked_after_check [] _ []); constructor|].
      intros _. exists ce, s, f.
      apply find_some in F. destruct F as [I F].
      apply conflict_where_matches in F. destruct F as (L & A & T).
      split; [exact I|]. split; [exact A|]. split; [exact L|].
      split; [reflexivity|]. split; [reflexivity|]. split; [exact G|].
      split; [exact T|].
      split; [intros O; now apply three_cases_overlaps|].
      split; [reflexivity|]. split; [reflexivity|].
      repeat constructor. intros [].
    + split.
      * rewrite persist_create_calls.
        apply (checked_after_check [] _ [_]). constructor.
      * match goal with |- context [persist_create req ?w0] =>
          destruct (persist_create_code req w0) as [C|C] end;
          rewrite C; discriminate.
  - intros rt req evs us. cbv zeta. rewrite updateEvent_run. cbv zeta.
    cbn [events at_start].
    destruct (find _ evs) as [event|];
      [|split; [intros _; apply checked_without_write;
                repeat constructor; intros []|discriminate]].
    destruct (forbidden req event);
      [split; [intros _; apply checked_without_write;
               repeat constructor; intros []|discriminate]|].
    destruct (reschedules (ur_body req)).
    + destruct (date_ge _ _) eqn:G;
        [split; [intros _; apply checked_without_write;
                 repeat constructor; intros []|discriminate]|].
      destruct (newStartDate (ur_body req) event) as [s|] eqn:Hs;
        [|split; [intros _; apply (checked_after_check [_] _ []);
                  repeat constructor; intros []|discriminate]].
      destruct (newEndDate (ur_body req) event) as [f|] eqn:Hf;
        [|split; [intros _; apply (checked_after_check [_] _ []);
                  repeat constructor; intros []|discriminate]].
      cbn [date_valid andb]. cbn [date_ge] in G. apply Z.leb_gt in G.
      destruct (find (matches_all _) evs) as [ce|] eqn:F.
      * split; [intros _; apply (checked_after_check [_] _ []);
                repeat constructor; intros []|].
        intros _. exists event, ce, s, f.
        apply find_some in F. destruct F as [I F].
        apply conflict_query_matches in F. destruct F as (L & A & X & T).
        split; [reflexivity|]. split; [exact I|]. split; [exact A|].
        split; [exact (X _ eq_refl)|]. split; [exact L|].
        split; [exact Hs|]. split; [exact Hf|]. split; [exact G|].
        split; [exact T|].
        split; [intros O; now apply three_cases_overlaps|].
        split; [reflexivity|]. split; [reflexivity|].
        repeat constructor; intros [].
      * split.
        -- intros _. rewrite persist_update_calls.
           apply (checked_after_check [_] _ [_]).
           repeat constructor; intros [].
        -- match goal with |- context [persist_update req ?w0] =>
             destruct (persist_update_code req w0) as [C|C] end;
             rewrite C; discriminate.
    + split; [discriminate|].
      match goal with |- context [persist_update req ?w0] =>
        destruct (persist_update_code req w0) as [C|C] end;
        rewrite C; discriminate.
  - reflexivity.
  - intros rt now req evs us s f Hv Hs Hf Hsf Hnow [e [I [L [A T]]]].
    rewrite createEvent_run. cbv zeta. rewrite Hv, Hs, Hf.
    cbn [is_nil negb date_ge date_lt date_valid andb events at_start].
    destruct (Z.leb_spec f s); [lia|].
    destruct (Z.ltb_spec s now); [lia|].
    destruct (find_exists
                (matches_all (conflict_where (b_location (cr_body req))
                                             (Date_at s) (Date_at f)))
                evs) as [ce F].
    { exists e. split; [exact I|]. apply conflict_where_matches. tauto. }
    rewrite F. reflexivity.
  - intros rt req evs us event s f Hfind Hforb Hres Hs Hf Hsf
           [e [I [N [L [A T]]]]].
    rewrite updateEvent_run. cbv zeta. cbn [events at_start].
    rewrite Hfind, Hforb, Hres, Hs, Hf.
    cbn [date_ge date_valid andb].
    destruct (Z.leb_spec f s); [lia|].
    destruct (find_exists
                (matches_all (conflict_where (newLocation (ur_body req) event)
                                             (Date_at s) (Date_at f)
                              ++ exclusion (Some (ur_id req))))
                evs) as [ce F].
    { exists e. split; [exact I|]. apply conflict_query_matches.
      split; [exact L|]. split; [exact A|]. split; [|exact T].
      intros i [= <-] _. exact N. }
    rewrite F. reflexivity.
  - intros rt req evs us R. cbv zeta.
    split; [|split].
    + intros X. apply updateEvent_check_reschedules in X.
      rewrite R in X. discriminate X.
    + rewrite updateEvent_run. cbv zeta. cbn [events at_start].
      destruct (find _ evs) as [event|]; [|discriminate].
      destruct (forbidden req event); [discriminate|]. rewrite R.
      match goal with |- context [persist_update req ?w0] =>
        destruct (persist_update_code req w0) as [C|C] end;
        rewrite C; discriminate.
    + intros event F Fb A.
      destruct (updateEvent_without_rescheduling req evs us event R F Fb)
        as (C & _ & P & _).
      destruct (P A) as [P1 P2].
      split; [exact P1|]. split; [exact P2|]. rewrite C.
      apply Exists_cons_tl, Exists_cons_hd. exact I.
Qed.

Lemma conflict_check_precedes_persisting_witness :
  (createEventValidation (rt := demo_runtime) (cr_body clashing_request) = []
   /\ 1893495600000 < 1893502800000
   /\ demo_now <= 1893495600000
   /\ reschedules (ur_body move_request) = true
   /\ reschedules (ur_body rename_request) = false
   /\ forbidden rename_request seminar = false
   /\ accepted (rt := demo_runtime) (ur_body rename_request))
  /\ code (fst (createEvent (rt := demo_runtime) demo_now clashing_request
                  (at_start busy_hall [alice; bob]))) = 409
  /\ (exists ce,
        In ce busy_hall
        /\ location ce = "Main Hall"
        /\ three_cases 1893495600000 1893502800000 ce
        /\ fst (createEvent (rt := demo_runtime) demo_now clashing_request
                  (at_start busy_hall [alice; bob]))
           = {| code := 409;
                body := json_conflict "Venue conflict detected"
                          (booked_message (rt := demo_runtime) ce)
                          (summary ce) |}
        /\ events (snd (createEvent (rt := demo_runtime) demo_now
                          clashing_request (at_start busy_hall [alice; bob])))
           = busy_hall)
  /\ code (fst (updateEvent (rt := demo_runtime) move_request
                  (at_start busy_hall [alice; bob]))) = 409
  /\ checked_before_persisting
       (calls (snd (updateEvent (rt := demo_runtime) move_request
                      (at_start busy_hall [alice; bob]))))
  /\ (exists ce,
        In ce busy_hall
        /\ id ce <> "event-3"
        /\ location ce = "Main Hall"
        /\ three_cases 1893495600000 1893506400000 ce
        /\ events (snd (updateEvent (rt := demo_runtime) move_request
                          (at_start busy_hall [alice; bob]))) = busy_hall)
  /\ fst (updateEvent (rt := demo_runtime) rename_request
            (at_start busy_hall [alice; bob]))
     = {| code := 200;
          body := json_event "Event updated successfully"
                    (with_supplied_fields (rt := demo_runtime)
                       (ur_body rename_request) seminar) |}
  /\ ~ Exists is_conflict_check
         (calls (snd (updateEvent (rt := demo_runtime) rename_request
                        (at_start busy_hall [alice; bob])))).
Proof.
  assert (H1 : 1893495600000 < 1893502800000) by lia.
  assert (H2 : demo_now <= 1893495600000) by (unfold demo_now; lia).
  assert (H3 : 1893495600000 < 1893506400000) by lia.
  assert (H4 : accepted (rt := demo_runtime) (ur_body rename_request)).
  { split; [intros N; now destruct N|discriminate]. }
  assert (C : code (fst (createEvent (rt := demo_runtime) demo_now
                           clashing_request (at_start busy_hall [alice; bob])))
              = 409).
  { apply (proj1 (proj2 (proj2 (proj2 conflict_check_precedes_persisting)))
             demo_runtime demo_now clashing_request busy_hall [alice; bob]
             1893495600000 1893502800000 eq_refl eq_refl eq_refl H1 H2).
    exists seminar. split; [now left|]. split; [reflexivity|].
    split; [now right|]. left. split; cbn; lia. }
  assert (U : code (fst (updateEvent (rt := demo_runtime) move_request
                           (at_start busy_hall [alice; bob]))) = 409).
  { apply (proj1 (proj2 (proj2 (proj2 (proj2
                    conflict_check_precedes_persisting))))
             demo_runtime move_request busy_hall [alice; bob] lecture
             1893495600000 1893506400000 eq_refl eq_refl eq_refl eq_refl
             eq_refl H3).
    exists seminar. split; [now left|]. split; [discriminate|].
    split; [reflexivity|]. split; [now right|]. left. split; cbn; lia. }
  split; [repeat split; auto; apply H4|]. split; [exact C|].
  split; [|split; [exact U|split; [|split; [|split]]]].
  - destruct (proj2 (proj1 conflict_check_precedes_persisting demo_runtime
                       demo_now clashing_request busy_hall [alice; bob]) C)
      as (ce & s & f & I & _ & L & Hs & Hf & _ & T & _ & R & E & _).
    injection Hs as <-. injection Hf as <-.
    exists ce. auto.
  - exact (proj1 (proj1 (proj2 conflict_check_precedes_persisting)
                    demo_runtime move_request busy_hall [alice; bob])
                 eq_refl).
  - destruct (proj2 (proj1 (proj2 conflict_check_precedes_persisting)
                       demo_runtime move_request busy_hall [alice; bob]) U)
      as (event & ce & s & f & Fd & I & _ & N & L & Hs & Hf & _ & T & _ & _
          & E & _).
    injection Fd as <-. injection Hs as <-. injection Hf as <-.
    exists ce. split; [exact I|]. split; [apply N; discriminate|]. auto.
  - destruct (proj2 (proj2 (proj2 (proj2 (proj2
                       conflict_check_precedes_persisting))))
                    demo_runtime rename_request busy_hall [alice; bob]
                    eq_refl) as (_ & _ & P).
    apply (P seminar eq_refl eq_refl H4).
  - apply (proj2 (proj2 (proj2 (proj2 (proj2
                    conflict_check_precedes_persisting))))
                 demo_runtime rename_request busy_hall [alice; bob]
                 eq_refl).
Defined.




(** C10. [updateEvent] issues the conflict check only for a request that
    supplies at least one of location, start date and end date, and then
    on the supplied values completed with the stored event's own; an
    update of an existing event by its creator or an admin that supplies
    none of the three issues only the lookup and the write and is never
    answered with the date error or a conflict; when the client accepts
    its body it is answered 200 with the event carrying the supplied
    title, description, capacity, category and tags and its own venue,
    dates and everything else, and that event replaces the stored one;
    otherwise it is answered 500 and the events are as they were. *)
Theorem updateEvent_checks_only_when_rescheduling :
  forall (rt : Runtime) (req : UpdateRequest) (evs : list Event)
         (us : list User),
    let out := updateEvent req (at_start evs us) in
    let b := ur_body req in
    (Exists is_conflict_check (calls (snd out)) -> reschedules b = true)
    /\ (forall q, In (call_findFirst q) (calls (snd out)) ->
          exists event,
            find (fun e => String.eqb (id e) (ur_id req)) evs = Some event
            /\ q = (conflict_where (newLocation b event)
                      (newStartDate b event) (newEndDate b event)
                    ++ exclusion (Some (ur_id req)))%list)
    /\ (forall event,
          newLocation b event
          = (if truthy (b_location b) then b_location b else location event)
          /\ newStartDate b event
             = (if truthy (b_startDate b) then Date_parse (b_startDate b)
                else Date_at (startDate event))
          /\ newEndDate b event
             = (if truthy (b_endDate b) then Date_parse (b_endDate b)
                else Date_at (endDate event)))
    /\ (reschedules b = true
        <-> b_location b <> EmptyString \/ b_startDate b <> EmptyString
            \/ b_endDate b <> EmptyString)
    /\ (forall event,
          reschedules b = false ->
          find (fun e => String.eqb (id e) (ur_id req)) evs = Some event ->
          forbidden req event = false ->
          calls (snd out)
          = [call_findUnique (ur_id req);
             call_update (ur_id req) (update_data b)]
          /\ fst out <> error 400 "End date must be after start date"
          /\ code (fst out) <> 409
          /\ users (snd out) = us
          /\ (accepted b ->
              fst out
              = {| code := 200;
                   body := json_event "Event updated successfully"
                             (with_supplied_fields b event) |}
              /\ events (snd out)
                 = map (fun e => if String.eqb (id e) (ur_id req)
                                 then with_supplied_fields b e else e)
                       evs
              /\ location (with_supplied_fields b event) = location event
              /\ startDate (with_supplied_fields b event) = startDate event
              /\ endDate (with_supplied_fields b event) = endDate event
              /\ status (with_supplied_fields b event) = status event
              /\ (b_title b <> EmptyString ->
                  title (with_supplied_fields b event) = b_title b)
              /\ (b_title b = EmptyString ->
                  title (with_supplied_fields b event) = title event)
              /\ (forall n, b_maxAttendees b <> EmptyString ->
                            parseInt (b_maxAttendees b) = Some n ->
                            maxAttendees (with_supplied_fields b event) = n)
              /\ (b_maxAttendees b = EmptyString ->
                  maxAttendees (with_supplied_fields b event)
                  = maxAttendees event)
              /\ (b_description b <> EmptyString ->
                  description (with_supplied_fields b event)
                  = b_description b)
              /\ (b_description b = EmptyString ->
                  description (with_supplied_fields b event)
                  = description event)
              /\ (b_category b <> EmptyString ->
                  category (with_supplied_fields b event) = b_category b)
              /\ (b_category b = EmptyString ->
                  category (with_supplied_fields b event) = category event)
              /\ (forall l, b_tags b = tags_array l ->
                            tags (with_supplied_fields b event) = l)
              /\ (b_tags b = tags_absent ->
                  tags (with_supplied_fields b event) = tags event)
              /\ id (with_supplied_fields b event) = id event
              /\ createdBy (with_supplied_fields b event) = createdBy event
              /\ currentAttendees (with_supplied_fields b event)
                 = currentAttendees event)
          /\ (~ accepted b ->
              fst out = error 500 "Failed to update event"
              /\ events (snd out) = evs)).
Proof.
  intros rt req evs us. cbv zeta.
  split; [|split; [|split; [|split]]].
  - rewrite updateEvent_run. cbv zeta. cbn [events at_start].
    destruct (reschedules (ur_body req)); [reflexivity|].
    intros H. exfalso.
    destruct (find _ evs) as [event|];
      [destruct (forbidden req event)|].
    + inversion H as [? ? C|? ? C]; subst; [destruct C|inversion C].
    + rewrite persist_update_calls in H.
      inversion H as [? ? C|? ? C]; subst; [destruct C|].
      inversion C as [? ? D|? ? D]; subst; [destruct D|inversion D].
    + inversion H as [? ? C|? ? C]; subst; [destruct C|inversion C].
  - intros q. rewrite updateEvent_run. cbv zeta. cbn [events at_start].
    destruct (find _ evs) as [event|];
      [|intros [H|[]]; discriminate].
    destruct (forbidden req event); [intros [H|[]]; discriminate|].
    destruct (reschedules (ur_body req)).
    + destruct (date_ge _ _); [intros [H|[]]; discriminate|].
      destruct (date_valid _ && date_valid _).
      * destruct (find (matches_all _) evs).
        -- intros [H|[H|[]]]; [discriminate|]. injection H as <-.
           now exists event.
        -- rewrite persist_update_calls.
           intros [H|[H|[H|[]]]]; try discriminate. injection H as <-.
           now exists event.
      * intros [H|[H|[]]]; [discriminate|]. injection H as <-.
        now exists event.
    + rewrite persist_update_calls. intros [H|[H|[]]]; discriminate.
  - intros event. repeat split.
  - unfold reschedules. rewrite !orb_true_iff, !truthy_true. tauto.
  - intros event Hres Hfind Hforb.
    destruct (updateEvent_without_rescheduling req evs us event
                Hres Hfind Hforb) as (C & U & P & N).
    split; [exact C|].
    assert (K : code (fst (updateEvent req (at_start evs us))) = 200
                \/ fst (updateEvent req (at_start evs us))
                   = error 500 "Failed to update event").
    { rewrite updateEvent_run. cbv zeta. cbn [events at_start].
      rewrite Hfind, Hforb, Hres. apply persist_update_code. }
    split; [|split; [|split; [exact U|split; [|exact N]]]].
    + destruct K as [K|K]; [intros E; rewrite E in K|rewrite K];
        discriminate.
    + destruct K as [K|K]; rewrite K; discriminate.
    + intros A. destruct (P A) as [P1 P2].
      split; [exact P1|]. split; [exact P2|].
      unfold with_supplied_fields.
      cbn [location startDate endDate status title maxAttendees
           description category tags id createdBy currentAttendees].
      split; [reflexivity|]. split; [reflexivity|]. split; [reflexivity|].
      split; [reflexivity|].
      split; [intros T; apply String.eqb_neq in T; now rewrite T|].
      split; [intros T; apply String.eqb_eq in T; now rewrite T|].
      split; [intros n T Q; apply String.eqb_neq in T; now rewrite T, Q|].
      split; [intros T; apply String.eqb_eq in T; now rewrite T|].
      split; [intros T; apply String.eqb_neq in T; now rewrite T|].
      split; [intros T; apply String.eqb_eq in T; now rewrite T|].
      split; [intros T; apply String.eqb_neq in T; now rewrite T|].
      split; [intros T; apply String.eqb_eq in T; now rewrite T|].
      split; [intros l T; now rewrite T|].
      split; [intros T; now rewrite T|].
      repeat split.
Qed.

Lemma updateEvent_checks_only_when_rescheduling_witness :
  (reschedules (ur_body resize_request) = false
   /\ find (fun e => String.eqb (id e) (ur_id resize_request)) busy_hall
      = Some lecture
   /\ forbidden resize_request lecture = false
   /\ accepted (rt := demo_runtime) (ur_body resize_request))
  /\ calls (snd (updateEvent (rt := demo_runtime) resize_request
                   (at_start busy_hall [alice; bob])))
     = [call_findUnique "event-3";
        call_update "event-3" (update_data (rt := demo_runtime)
                                 (ur_body resize_request))]
  /\ fst (updateEvent (rt := demo_runtime) resize_request
            (at_start busy_hall [alice; bob]))
     = {| code := 200;
          body := json_event "Event updated successfully" open_lecture |}
  /\ events (snd (updateEvent (rt := demo_runtime) resize_request
                    (at_start busy_hall [alice; bob])))
     = [seminar; rejected_party; open_lecture]
  /\ (Exists is_conflict_check
        (calls (snd (updateEvent (rt := demo_runtime) move_request
                       (at_start busy_hall [alice; bob]))))
      /\ reschedules (ur_body move_request) = true).
Proof.
  assert (A : accepted (rt := demo_runtime) (ur_body resize_request)).
  { split; [intros _; exists 50; split; [reflexivity|lia]|discriminate]. }
  split; [repeat split; apply A|].
  destruct (proj2 (proj2 (proj2 (proj2
              (updateEvent_checks_only_when_rescheduling demo_runtime
                 resize_request busy_hall [alice; bob]))))
              lecture eq_refl eq_refl eq_refl) as (C & _ & _ & _ & P & _).
  destruct (P A) as (P1 & P2 & _).
  split; [exact C|]. split; [exact P1|]. split; [exact P2|].
  assert (X : Exists is_conflict_check
                (calls (snd (updateEvent (rt := demo_runtime) move_request
                               (at_start busy_hall [alice; bob])))))
    by (apply Exists_cons_tl, Exists_cons_hd; exact I).
  split; [exact X|].
  exact (proj1 (updateEvent_checks_only_when_rescheduling demo_runtime
                  move_request busy_hall [alice; bob]) X).
Defined.

(* ================================================================== *)
(** ** The invariant on stored dates *)

(** Both writers keep every stored event's start before its end, which is
    what the statements above assume of the store. *)

(** X1. [createEvent] keeps the dates of the store in order: if every
    stored event starts before it ends, so does every stored event after
    any create request. *)
Lemma createEvent_keeps_dates_ordered :
  forall (rt : Runtime) (now : Z) (req : CreateRequest) (w : World),
    dates_ordered (events w) ->
    dates_ordered (events (snd (createEvent now req w))).
Proof.
  intros rt now req w O. unfold dates_ordered in *.
  rewrite Forall_forall in *. intros ev.
  rewrite createEvent_run. cbv zeta.
  destruct (negb (is_nil _)); [apply O|].
  destruct (date_ge _ _) eqn:G; [apply O|].
  destruct (date_lt _ _); [apply O|].
  destruct (date_valid _ && date_valid _); [|apply O].
  destruct (find (matches_all _) (events w)); [apply O|].
  intros H. apply persist_create_events in H.
  destruct H as [H|[Hs [Hf _]]]; [now apply O|].
  rewrite Hs, Hf in G. cbn [date_ge] in G.
  destruct (Z.leb_spec (endDate ev) (startDate ev)); [discriminate|lia].
Qed.

Lemma unique_row (i : string) (l : list Event) (event e : Event) :
  NoDup (map id l) ->
  find (fun x => String.eqb (id x) i) l = Some event ->
  In e l -> id e = i -> e = event.
Proof.
  induction l as [|x l IH]; [intros _ [=]|].
  cbn [map find In]. intros N F I E.
  apply NoDup_cons_iff in N. destruct N as [Nx N].
  destruct (String.eqb (id x) i) eqn:X.
  - injection F as <-. destruct I as [I|I]; [now symmetry|].
    exfalso. apply Nx. apply String.eqb_eq in X.
    rewrite X, <- E. now apply in_map.
  - destruct I as [<-|I]; [|now apply IH].
    apply String.eqb_neq in X. contradiction.
Qed.

(** What a request that got past its checks does is what its write
    does: the answer and the events of [createEvent] answering 201, and
    of [updateEvent] answering 200, are those of [persist_create] and
    [persist_update] on the store the request found. *)
Lemma createEvent_passed_writes {rt : Runtime} now req w :
  code (fst (createEvent now req w)) = 201 ->
  fst (createEvent now req w) = fst (persist_create req w)
  /\ events (snd (createEvent now req w))
     = events (snd (persist_create req w)).
Proof.
  assert (P : forall c,
             fst (persist_create req (log c w)) = fst (persist_create req w)
             /\ events (snd (persist_create req (log c w)))
                = events (snd (persist_create req w))).
  { intros c.
    unfold persist_create, try_catch, bind, prisma_event_create, ret.
    cbn [events users log].
    destruct (c_startDate (create_data req));
      destruct (c_endDate (create_data req));
      destruct (c_maxAttendees (create_data req)) as [n|];
      try (split; reflexivity).
    destruct (find _ (users w)); [|split; reflexivity].
    destruct (int32 n); split; reflexivity. }
  rewrite createEvent_run. cbv zeta.
  destruct (negb (is_nil _)); [discriminate|].
  destruct (date_ge _ _); [discriminate|].
  destruct (date_lt _ _); [discriminate|].
  destruct (date_valid _ && date_valid _); [|discriminate].
  destruct (find (matches_all _) (events w)); [discriminate|].
  intros _. apply P.
Qed.

Lemma updateEvent_passed_writes {rt : Runtime} req w :
  code (fst (updateEvent req w)) = 200 ->
  fst (updateEvent req w) = fst (persist_update req w)
  /\ events (snd (updateEvent req w))
     = events (snd (persist_update req w)).
Proof.
  assert (P : forall w0, events w0 = events w ->
             fst (persist_update req w0) = fst (persist_update req w)
             /\ events (snd (persist_update req w0))
                = events (snd (persist_update req w))).
  { intros w0 E. rewrite !persist_update_run. cbv zeta. rewrite E.
    destruct (update_valid _); [|split; [reflexivity|exact E]].
    destruct (find _ (map _ _)); split; try reflexivity; exact E. }
  rewrite updateEvent_run. cbv zeta.
  destruct (find _ (events w)) as [event|]; [|discriminate].
  destruct (forbidden req event); [discriminate|].
  destruct (reschedules (ur_body req)).
  - destruct (date_ge _ _); [discriminate|].
    destruct (date_valid _ && date_valid _); [|discriminate].
    destruct (find (matches_all _) (events w)); [discriminate|].
    intros _. now apply P.
  - intros _. now apply P.
Qed.

(** X2. An update request handled on its own, with no other request's
    write between its lookup and its write, keeps the dates of the store
    in order: over a store whose ids are unique, if every stored event
    starts before it ends, so does every stored event afterwards.  A
    request answered 200 gave the answer, and left the events, of its
    write [persist_update] run on the store it found.  The condition is
    needed, for the handler reads, checks and writes in separate calls:
    two updates of the seminar, one supplying only a start of 11:00 and
    one only an end of 11:00, are each answered 200 on the busy hall, and
    once both their writes have run the seminar starts when it ends. *)
Lemma updateEvent_keeps_dates_ordered :
  (forall (rt : Runtime) (req : UpdateRequest) (w : World),
      NoDup (map id (events w)) ->
      dates_ordered (events w) ->
      dates_ordered (events (snd (updateEvent req w))))
  /\ (forall (rt : Runtime) (req : UpdateRequest) (w : World),
         code (fst (updateEvent req w)) = 200 ->
         fst (updateEvent req w) = fst (persist_update req w)
         /\ events (snd (updateEvent req w))
            = events (snd (persist_update req w)))
  /\ (code (fst (updateEvent (rt := demo_runtime) late_start_request
                   busy_world)) = 200
      /\ code (fst (updateEvent (rt := demo_runtime) early_end_request
                      busy_world)) = 200
      /\ NoDup (map id (events busy_world))
      /\ dates_ordered (events busy_world)
      /\ ~ dates_ordered
           (events (snd (persist_update (rt := demo_runtime)
                           early_end_request
                           (snd (persist_update (rt := demo_runtime)
                                   late_start_request busy_world)))))).
Proof.
  split.
  {
  intros rt req w N O.
  assert (P : forall w0 event,
             events w0 = events w ->
             find (fun e => String.eqb (id e) (ur_id req)) (events w)
             = Some event ->
             (forall s f,
                 upd_date (d_startDate (update_data (ur_body req)))
                          (startDate event) = s ->
                 upd_date (d_endDate (update_data (ur_body req)))
                          (endDate event) = f ->
                 update_valid (update_data (ur_body req)) = true -> s < f) ->
             dates_ordered (events (snd (persist_update req w0)))).
  { intros w0 event E F H. rewrite persist_update_run. cbv zeta.
    destruct (update_valid _) eqn:V; [|cbn; now rewrite E].
    destruct (find _ (map _ _)); [|cbn; now rewrite E].
    cbn [snd events set_events]. rewrite E.
    unfold dates_ordered in *. rewrite Forall_forall in *.
    intros x Hx. apply in_map_iff in Hx. destruct Hx as [y [<- I]].
    destruct (String.eqb (id y) (ur_id req)) eqn:X; [|now apply O].
    apply String.eqb_eq in X.
    rewrite (unique_row _ _ event y N F I X).
    cbn [apply_update startDate endDate]. now apply (H _ _ eq_refl eq_refl). }
  rewrite updateEvent_run. cbv zeta.
  destruct (find _ (events w)) as [event|] eqn:F; [|exact O].
  destruct (forbidden req event); [exact O|].
  assert (Oe : startDate event < endDate event).
  { unfold dates_ordered in O. rewrite Forall_forall in O.
    apply O. now apply find_some in F. }
  destruct (reschedules (ur_body req)) eqn:R.
  - destruct (date_ge _ _) eqn:G; [exact O|].
    destruct (date_valid _ && date_valid _); [|exact O].
    destruct (find (matches_all _) (events w)); [exact O|].
    apply (P _ event); [reflexivity|reflexivity|]. intros s f Hs Hf V.
    unfold newStartDate, newEndDate in G.
    unfold update_data, update_valid in Hs, Hf, V.
    cbn [d_startDate d_endDate d_maxAttendees d_tags] in Hs, Hf, V.
    destruct (truthy (b_startDate (ur_body req)));
      destruct (truthy (b_endDate (ur_body req)));
      try destruct (Date_parse (b_startDate (ur_body req)));
      try destruct (Date_parse (b_endDate (ur_body req)));
      cbn in Hs, Hf, V, G; try discriminate; subst s f;
      apply Z.leb_gt in G; lia.
  - apply (P _ event); [reflexivity|reflexivity|]. intros s f Hs Hf _.
    unfold reschedules in R.
    apply orb_false_iff in R. destruct R as [R R3].
    apply orb_false_iff in R. destruct R as [_ R2].
    unfold update_data in Hs, Hf. cbn [d_startDate d_endDate] in Hs, Hf.
    rewrite R2 in Hs. rewrite R3 in Hf. cbn in Hs, Hf. lia.
  }
  split; [intros rt req w; apply updateEvent_passed_writes|].
  { split; [reflexivity|]. split; [reflexivity|].
    split; [repeat constructor; cbn; intuition discriminate|].
    split; [repeat constructor|].
    intros H. vm_compute in H. apply Forall_inv in H. discriminate H. }
Qed.

(* ================================================================== *)
(** ** Scenarios *)

(** With the seminar from 10:00 to 12:00 stored: 11:00 to 13:00 starts
    during it, 09:00 to 11:00 ends during it, 09:00 to 13:00 contains
    it. *)
Example overlapping_candidates_conflict :
  fst (checkEventConflict "Main Hall" (Date_at 1893495600000)
         (Date_at 1893502800000) None demo_world)
  = Val {| hasConflict := true; conflictingEvent := Some seminar |}
  /\ fst (checkEventConflict "Main Hall" (Date_at 1893488400000)
            (Date_at 1893495600000) None demo_world)
     = Val {| hasConflict := true; conflictingEvent := Some seminar |}
  /\ fst (checkEventConflict "Main Hall" (Date_at 1893488400000)
            (Date_at 1893502800000) None demo_world)
     = Val {| hasConflict := true; conflictingEvent := Some seminar |}.
Proof. repeat split. Qed.

(** Another venue is free at the seminar's own time. *)
Example other_venue_is_free :
  fst (checkEventConflict "Room 101" (Date_at 1893492000000)
         (Date_at 1893499200000) None demo_world)
  = Val {| hasConflict := false; conflictingEvent := None |}.
Proof. reflexivity. Qed.

(** A request for the free hour after the seminar is checked, then
    created as a pending event. *)
Example free_slot_is_created :
  let out := createEvent (rt := demo_runtime) demo_now free_request
                         demo_world in
  code (fst out) = 201
  /\ map id (events (snd out)) = ["event-1"; "event-B"]
  /\ map status (events (snd out)) = [APPROVED; PENDING]
  /\ calls (snd out)
     = [call_findFirst (conflict_where "Main Hall" (Date_at 1893502800000)
                                       (Date_at 1893506400000));
        call_create (create_data (rt := demo_runtime) free_request)].
Proof. repeat split. Qed.

(** Complete and well-ordered availability queries are answered with a
    boolean. *)
Example availability_answers :
  body (fst (checkAvailability (rt := demo_runtime)
               {| q_location := "Main Hall";
                  q_startDate := "2030-01-01T12:00:00.000Z";
                  q_endDate := "2030-01-01T13:00:00.000Z";
                  q_excludeEventId := EmptyString |} demo_world))
  = json_available true "Venue is available for the selected time" None
  /\ (exists msg,
        body (fst (checkAvailability (rt := demo_runtime)
                     {| q_location := "Main Hall";
                        q_startDate := "2030-01-01T11:00:00.000Z";
                        q_endDate := "2030-01-01T13:00:00.000Z";
                        q_excludeEventId := EmptyString |} demo_world))
        = json_available false msg (Some (summary seminar)))
  /\ body (fst (checkAvailability (rt := demo_runtime)
                  {| q_location := "Main Hall";
                     q_startDate := "2030-01-01T11:00:00.000Z";
                     q_endDate := "2030-01-01T13:00:00.000Z";
                     q_excludeEventId := "event-1" |} demo_world))
     = json_available true "Venue is available for the selected time" None.
Proof. split; [reflexivity|]. split; [eexists|]; reflexivity. Qed.

(* ================================================================== *)
(** ** What the event handlers keep true of the store *)

Lemma overlaps_three_cases (s f : Z) (e : Event) :
  overlaps s f e -> three_cases s f e.
Proof.
  unfold three_cases, starts_during, ends_during, contains, overlaps. lia.
Qed.

Lemma not_selected_no_overlap loc s f excl rows e :
  find (matches_all (conflict_where loc (Date_at s) (Date_at f)
                     ++ exclusion excl)) rows = None ->
  In e rows -> location e = loc -> active e -> not_excluded excl e ->
  ~ overlaps s f e.
Proof.
  intros F I L A X O.
  pose proof (find_none _ _ F e I) as N.
  assert (T : matches_all (conflict_where loc (Date_at s) (Date_at f)
                           ++ exclusion excl) e = true).
  { apply conflict_query_matches. auto using overlaps_three_cases. }
  congruence.
Qed.

Section Outcomes.
Context {rt : Runtime}.

Lemma persist_create_outcome req w :
  persist_create req w
  = (error 500 "Failed to create event", log (call_create (create_data req)) w)
  \/ exists s f n u,
       Date_parse (b_startDate (cr_body req)) = Date_at s
       /\ Date_parse (b_endDate (cr_body req)) = Date_at f
       /\ parseInt (b_maxAttendees (cr_body req)) = Some n
       /\ find (fun x => String.eqb (user_id x) (au_id (cr_user req)))
               (users w) = Some u
       /\ persist_create req w
          = ({| code := 201;
                body := json_event
                  "Event created successfully and pending approval"
                  (new_event req s f n u (events w)) |},
             set_events (events w ++ [new_event req s f n u (events w)])
                        (log (call_create (create_data req)) w)).
Proof.
  unfold persist_create, try_catch, bind, prisma_event_create, ret.
  cbn [create_data c_startDate c_endDate c_maxAttendees c_createdById].
  destruct (Date_parse (b_startDate _)) as [s|]; [|now left].
  destruct (Date_parse (b_endDate _)) as [f|]; [|now left].
  destruct (parseInt _) as [n|]; [|now left].
  destruct (find _ (users w)) as [u|]; [|now left].
  destruct (int32 n); [|now left].
  right. exists s, f, n, u. repeat split.
Qed.

(** The ways [createEvent] ends: with the store as it was, or with one row
    added after a conflict check that found nothing. *)
Lemma createEvent_outcome now req w :
  (code (fst (createEvent now req w)) <> 201
   /\ events (snd (createEvent now req w)) = events w
   /\ users (snd (createEvent now req w)) = users w)
  \/ exists s f n u,
       createEventValidation (cr_body req) = []
       /\ Date_parse (b_startDate (cr_body req)) = Date_at s
       /\ Date_parse (b_endDate (cr_body req)) = Date_at f
       /\ s < f /\ now <= s
       /\ parseInt (b_maxAttendees (cr_body req)) = Some n
       /\ find (fun x => String.eqb (user_id x) (au_id (cr_user req)))
               (users w) = Some u
       /\ find (matches_all (conflict_where (b_location (cr_body req))
                                            (Date_at s) (Date_at f)
                             ++ exclusion None)) (events w) = None
       /\ fst (createEvent now req w)
          = {| code := 201;
               body := json_event
                 "Event created successfully and pending approval"
                 (new_event req s f n u (events w)) |}
       /\ events (snd (createEvent now req w))
          = (events w ++ [new_event req s f n u (events w)])%list
       /\ users (snd (createEvent now req w)) = users w.
Proof.
  rewrite createEvent_run. cbv zeta.
  destruct (createEventValidation (cr_body req)) as [|x l] eqn:V;
    cbn [is_nil negb]; [|left; repeat split; discriminate].
  destruct (date_ge _ _) eqn:G; [left; repeat split; discriminate|].
  destruct (date_lt _ _) eqn:L; [left; repeat split; discriminate|].
  destruct (date_valid _ && date_valid _) eqn:D;
    [|left; repeat split; discriminate].
  destruct (find (matches_all _) (events w)) as [ce|] eqn:F;
    [left; repeat split; discriminate|].
  match goal with |- context [persist_create req ?w0] =>
    destruct (persist_create_outcome req w0)
      as [E|[s [f [n [u [Hs [Hf [Hn [Hu E]]]]]]]]] end; rewrite E.
  - left. repeat split. discriminate.
  - right. exists s, f, n, u. rewrite Hs, Hf in *.
    cbn [date_ge date_lt] in G, L.
    apply Z.leb_gt in G. apply Z.ltb_ge in L.
    cbn [exclusion]. rewrite app_nil_r.
    repeat split; auto.
Qed.

End Outcomes.

Lemma find_append {A} (p : A -> bool) (l1 l2 : list A) :
  find p (l1 ++ l2)
  = match find p l1 with Some x => Some x | None => find p l2 end.
Proof.
  induction l1 as [|x l1 IH]; [reflexivity|].
  cbn. destruct (p x); [reflexivity|exact IH].
Qed.

Section UpdateOutcomes.
Context {rt : Runtime}.

Lemma applied_location b event :
  location (apply_update (update_data b) event) = newLocation b event.
Proof.
  unfold newLocation, or_else, when. cbn. unfold when.
  destruct (truthy (b_location b)); reflexivity.
Qed.

Lemma applied_startDate b event s :
  newStartDate b event = Date_at s ->
  startDate (apply_update (update_data b) event) = s.
Proof.
  unfold newStartDate. cbn.
  destruct (truthy (b_startDate b)); cbn.
  - now intros ->.
  - now intros [= <-].
Qed.

Lemma applied_endDate b event f :
  newEndDate b event = Date_at f ->
  endDate (apply_update (update_data b) event) = f.
Proof.
  unfold newEndDate. cbn.
  destruct (truthy (b_endDate b)); cbn.
  - now intros ->.
  - now intros [= <-].
Qed.

Lemma not_rescheduled b event :
  reschedules b = false ->
  newLocation b event = location event
  /\ newStartDate b event = Date_at (startDate event)
  /\ newEndDate b event = Date_at (endDate event).
Proof.
  unfold reschedules, newLocation, newStartDate, newEndDate, or_else.
  intros R. apply orb_false_iff in R. destruct R as [R R3].
  apply orb_false_iff in R. destruct R as [R1 R2].
  now rewrite R1, R2, R3.
Qed.

(** The ways [updateEvent] ends: with the tables as they were, or with the
    rows of the requested id rewritten, on behalf of the creator or an
    admin, after a conflict check that found nothing when the request
    reschedules. *)
Lemma updateEvent_outcome req w :
  (code (fst (updateEvent req w)) <> 200
   /\ events (snd (updateEvent req w)) = events w
   /\ users (snd (updateEvent req w)) = users w)
  \/ exists event,
       find (fun e => String.eqb (id e) (ur_id req)) (events w) = Some event
       /\ forbidden req event = false
       /\ update_valid (update_data (ur_body req)) = true
       /\ fst (updateEvent req w)
          = {| code := 200;
               body := json_event "Event updated successfully"
                         (apply_update (update_data (ur_body req)) event) |}
       /\ events (snd (updateEvent req w))
          = map (fun e => if String.eqb (id e) (ur_id req)
                          then apply_update (update_data (ur_body req)) e
                          else e) (events w)
       /\ users (snd (updateEvent req w)) = users w
       /\ exists s f,
            newStartDate (ur_body req) event = Date_at s
            /\ newEndDate (ur_body req) event = Date_at f
            /\ (reschedules (ur_body req) = true ->
                s < f
                /\ find (matches_all
                           (conflict_where (newLocation (ur_body req) event)
                                           (Date_at s) (Date_at f)
                            ++ exclusion (Some (ur_id req))))
                        (events w) = None).
Proof.
  assert (P : forall w0 event,
             events w0 = events w -> users w0 = users w ->
             find (fun e => String.eqb (id e) (ur_id req)) (events w)
             = Some event ->
             (code (fst (persist_update req w0)) <> 200
              /\ events (snd (persist_update req w0)) = events w
              /\ users (snd (persist_update req w0)) = users w)
             \/ (update_valid (update_data (ur_body req)) = true
                 /\ fst (persist_update req w0)
                    = {| code := 200;
                         body := json_event "Event updated successfully"
                           (apply_update (update_data (ur_body req)) event) |}
                 /\ events (snd (persist_update req w0))
                    = map (fun e => if String.eqb (id e) (ur_id req)
                             then apply_update (update_data (ur_body req)) e
                             else e) (events w)
                 /\ users (snd (persist_update req w0)) = users w)).
  { intros w0 event E U F.
    destruct (update_valid (update_data (ur_body req))) eqn:V.
    - right. rewrite <- E in F.
      rewrite (persist_update_found req w0 event F V).
      cbn [fst snd events users set_events log]. rewrite E, U. auto.
    - left. rewrite persist_update_run. cbv zeta. rewrite V.
      cbn [fst snd events users log code error]. repeat split; auto.
      discriminate. }
  rewrite updateEvent_run. cbv zeta.
  destruct (find _ (events w)) as [event|] eqn:F;
    [|left; repeat split; discriminate].
  destruct (forbidden req event) eqn:Fb; [left; repeat split; discriminate|].
  destruct (reschedules (ur_body req)) eqn:R.
  - destruct (date_ge _ _) eqn:G; [left; repeat split; discriminate|].
    destruct (date_valid _ && date_valid _) eqn:D;
      [|left; repeat split; discriminate].
    destruct (find (matches_all _) (events w)) as [ce|] eqn:C;
      [left; repeat split; discriminate|].
    match goal with |- context [persist_update req ?w0] =>
      destruct (P w0 event eq_refl eq_refl eq_refl)
        as [L|[V [A [B U]]]] end; [now left|].
    right. exists event. repeat (split; [assumption || reflexivity|]).
    destruct (newStartDate (ur_body req) event) as [s|]; [|discriminate].
    destruct (newEndDate (ur_body req) event) as [f|];
      [|cbn in D; discriminate].
    exists s, f. split; [reflexivity|]. split; [reflexivity|].
    intros _. cbn [date_ge] in G. apply Z.leb_gt in G. auto.
  - match goal with |- context [persist_update req ?w0] =>
      destruct (P w0 event eq_refl eq_refl eq_refl)
        as [L|[V [A [B U]]]] end; [now left|].
    right. exists event. repeat (split; [assumption || reflexivity|]).
    destruct (not_rescheduled (ur_body req) event R) as [_ [Hs Hf]].
    exists (startDate event), (endDate event).
    split; [exact Hs|]. split; [exact Hf|]. discriminate.
Qed.

End UpdateOutcomes.

Lemma createEvent_keeps_dates_ordered_witness :
  dates_ordered (events demo_world)
  /\ dates_ordered (events (snd (createEvent (rt := demo_runtime) demo_now
                                   free_request demo_world)))
  /\ List.length (events (snd (createEvent (rt := demo_runtime) demo_now
                                 free_request demo_world))) = 2%nat.
Proof.
  assert (H : dates_ordered (events demo_world)) by repeat constructor.
  split; [exact H|]. split; [|reflexivity].
  exact (createEvent_keeps_dates_ordered demo_runtime demo_now free_request
           demo_world H).
Defined.

Lemma updateEvent_keeps_dates_ordered_witness :
  (NoDup (map id (events busy_world)) /\ dates_ordered (events busy_world))
  /\ dates_ordered (events (snd (updateEvent (rt := demo_runtime)
                                   shift_request busy_world)))
  /\ map startDate (events (snd (updateEvent (rt := demo_runtime)
                                   shift_request busy_world)))
     = [1893488400000; 1893499200000; 1893502800000].
Proof.
  assert (N : NoDup (map id (events busy_world))).
  { repeat constructor; cbn; intuition discriminate. }
  assert (H : dates_ordered (events busy_world)) by repeat constructor.
  split; [auto|]. split; [|reflexivity].
  exact (proj1 updateEvent_keeps_dates_ordered demo_runtime shift_request
           busy_world N H).
Defined.

(** X3. A create request handled on its own, with no other request's
    write between its conflict check and its write, never books a venue
    twice: if no two different Pending or Approved events at one location
    overlap before it, none do after it.  A request answered 201 gave
    the answer, and left the events, of its write [persist_create] run on
    the store it found.  The condition is needed, for the check and the
    write are separate calls with no transaction around them: two create
    requests for the same free hour of the main hall are each answered
    201 on the same store, and once both their writes have run the hall
    holds two overlapping Pending events. *)
Theorem createEvent_keeps_no_double_booking :
  (forall (rt : Runtime) (now : Z) (req : CreateRequest) (w : World),
      no_double_booking (events w) ->
      no_double_booking (events (snd (createEvent now req w))))
  /\ (forall (rt : Runtime) (now : Z) (req : CreateRequest) (w : World),
         code (fst (createEvent now req w)) = 201 ->
         fst (createEvent now req w) = fst (persist_create req w)
         /\ events (snd (createEvent now req w))
            = events (snd (persist_create req w)))
  /\ (code (fst (createEvent (rt := demo_runtime) demo_now free_request
                   demo_world)) = 201
      /\ code (fst (createEvent (rt := demo_runtime) demo_now rival_request
                      demo_world)) = 201
      /\ no_double_booking (events demo_world)
      /\ ~ no_double_booking
           (events (snd (persist_create (rt := demo_runtime) rival_request
                           (snd (persist_create (rt := demo_runtime)
                                   free_request demo_world)))))).
Proof.
  split.
  {
  intros rt now req w H.
  destruct (createEvent_outcome now req w)
    as [[_ [E _]]|(s & f & n & u & _ & _ & _ & _ & _ & _ & _ & F & _ & E & _)].
  - now rewrite E.
  - rewrite E. clear E.
    set (ev := new_event req s f n u (events w)) in *.
    assert (K : forall e, In e (events w) -> location e = location ev ->
                          active e -> ~ overlaps s f e).
    { intros e I L A.
      apply (not_selected_no_overlap _ _ _ _ _ _ F I L A). intros i [=]. }
    intros e1 e2 I1 I2 N L A1 A2 [O1 O2].
    apply in_app_or in I1. apply in_app_or in I2.
    destruct I1 as [I1|[<-|[]]], I2 as [I2|[<-|[]]].
    + now apply (H e1 e2).
    + apply (K e1 I1 L A1). split; [exact O2|exact O1].
    + apply (K e2 I2 (eq_sym L) A2). split; [exact O1|exact O2].
    + now apply N.
  }
  split; [intros rt now req w; apply createEvent_passed_writes|].
  { split; [reflexivity|]. split; [reflexivity|]. split.
    - intros e1 e2 [<-|[]] [<-|[]] N. now contradiction N.
    - intros H.
      set (l := events (snd (persist_create (rt := demo_runtime)
                               rival_request
                               (snd (persist_create (rt := demo_runtime)
                                       free_request demo_world))))) in H.
      apply (H (nth 1 l seminar) (nth 2 l seminar));
        vm_compute; auto; discriminate. }
Qed.

Lemma createEvent_keeps_no_double_booking_witness :
  no_double_booking (events demo_world)
  /\ no_double_booking (events (snd (createEvent (rt := demo_runtime) demo_now
                                       free_request demo_world))).
Proof.
  assert (H : no_double_booking (events demo_world)).
  { intros e1 e2 [<-|[]] [<-|[]] N. now contradiction N. }
  split; [exact H|].
  exact (proj1 createEvent_keeps_no_double_booking demo_runtime demo_now
           free_request demo_world H).
Defined.

(** X4. An update request handled on its own, with no other request's
    write between its conflict check and its write, never books a venue
    twice either: over a store whose ids are unique, if no two different
    Pending or Approved events at one location overlap before it, none do
    after it.  A request answered 200 gave the answer, and left the
    events, of its write [persist_update] run on the store it found.  The
    condition is needed: moving the seminar to 09:00 to 11:00 and moving
    the lecture to 09:00 to 10:00 are each answered 200 on the busy hall,
    and once both their writes have run the two overlap. *)
Theorem updateEvent_keeps_no_double_booking :
  (forall (rt : Runtime) (req : UpdateRequest) (w : World),
      NoDup (map id (events w)) ->
      no_double_booking (events w) ->
      no_double_booking (events (snd (updateEvent req w))))
  /\ (forall (rt : Runtime) (req : UpdateRequest) (w : World),
         code (fst (updateEvent req w)) = 200 ->
         fst (updateEvent req w) = fst (persist_update req w)
         /\ events (snd (updateEvent req w))
            = events (snd (persist_update req w)))
  /\ (code (fst (updateEvent (rt := demo_runtime) shift_request
                   busy_world)) = 200
      /\ code (fst (updateEvent (rt := demo_runtime) early_request
                      busy_world)) = 200
      /\ ~ no_double_booking
           (events (snd (persist_update (rt := demo_runtime) early_request
                           (snd (persist_update (rt := demo_runtime)
                                   shift_request busy_world)))))).
Proof.
  split.
  {
  intros rt req w U H.
  destruct (updateEvent_outcome req w)
    as [[_ [E _]]|(event & F & _ & _ & _ & E & _ & s & f & Hs & Hf & R)].
  - now rewrite E.
  - rewrite E. clear E.
    set (d := update_data (ur_body req)) in *.
    assert (Ie : In event (events w)) by (now apply find_some in F).
    assert (Ide : id event = ur_id req).
    { apply find_some in F. now apply String.eqb_eq. }
    assert (K : forall y, In y (events w) -> id y <> ur_id req ->
                          location (apply_update d event) = location y ->
                          active (apply_update d event) -> active y ->
                          ~ (s < endDate y /\ startDate y < f)).
    { intros y Iy Ny L Ax Ay.
      destruct (reschedules (ur_body req)) eqn:Rs.
      - destruct (R eq_refl) as [_ C].
        apply (not_selected_no_overlap _ _ _ _ _ _ C Iy); auto.
        + rewrite <- L. apply applied_location.
        + intros i [= <-] _. exact Ny.
      - destruct (not_rescheduled (ur_body req) event Rs) as [Hl [Hs' Hf']].
        rewrite Hs' in Hs. rewrite Hf' in Hf.
        injection Hs as <-. injection Hf as <-.
        apply (H event y Ie Iy); auto.
        + rewrite Ide. auto.
        + rewrite <- L. unfold d. now rewrite applied_location. }
    subst d. intros x1 x2 I1 I2 N L A1 A2 [O1 O2].
    apply in_map_iff in I1. destruct I1 as [e1 [<- I1]].
    apply in_map_iff in I2. destruct I2 as [e2 [<- I2]].
    destruct (String.eqb (id e1) (ur_id req)) eqn:X1;
      destruct (String.eqb (id e2) (ur_id req)) eqn:X2.
    + apply N. cbn. apply String.eqb_eq in X1, X2. congruence.
    + apply String.eqb_eq in X1. apply String.eqb_neq in X2.
      rewrite (unique_row _ _ event e1 U F I1 X1) in *.
      rewrite (applied_startDate _ _ _ Hs) in O1.
      rewrite (applied_endDate _ _ _ Hf) in O2.
      apply (K e2 I2 X2 L A1 A2). auto.
    + apply String.eqb_neq in X1. apply String.eqb_eq in X2.
      rewrite (unique_row _ _ event e2 U F I2 X2) in *.
      rewrite (applied_endDate _ _ _ Hf) in O1.
      rewrite (applied_startDate _ _ _ Hs) in O2.
      apply (K e1 I1 X1 (eq_sym L) A2 A1). auto.
    + now apply (H e1 e2).
  }
  split; [intros rt req w; apply updateEvent_passed_writes|].
  { split; [reflexivity|]. split; [reflexivity|].
    intros H.
    set (l := events (snd (persist_update (rt := demo_runtime) early_request
                             (snd (persist_update (rt := demo_runtime)
                                     shift_request busy_world))))) in H.
    apply (H (nth 0 l seminar) (nth 2 l seminar));
      vm_compute; auto; discriminate. }
Qed.

Lemma updateEvent_keeps_no_double_booking_witness :
  (NoDup (map id (events busy_world)) /\ no_double_booking (events busy_world))
  /\ no_double_booking (events (snd (updateEvent (rt := demo_runtime)
                                       shift_request busy_world)))
  /\ code (fst (updateEvent (rt := demo_runtime) shift_request busy_world))
     = 200.
Proof.
  assert (N : NoDup (map id (events busy_world))).
  { repeat constructor; cbn; intuition discriminate. }
  assert (H : no_double_booking (events busy_world)).
  { intros e1 e2 I1 I2 Nid _ A1 A2 [O1 O2].
    destruct I1 as [<-|[<-|[<-|[]]]], I2 as [<-|[<-|[<-|[]]]];
      try (now contradiction Nid);
      try (destruct A1 as [A1|A1]; discriminate A1);
      try (destruct A2 as [A2|A2]; discriminate A2);
      cbn in O1, O2; lia. }
  split; [auto|]. split; [|reflexivity].
  exact (proj1 updateEvent_keeps_no_double_booking demo_runtime shift_request
           busy_world N H).
Defined.

(** X5. A create request answered 201 adds exactly one row, at the end:
    a Pending event with no attendees, owned by the requester, at the
    requested venue and dates, which start no earlier than now and end
    after they start.  Any other answer leaves the events as they were,
    and the users are never touched. *)
Theorem createEvent_adds_one_pending_event :
  forall (rt : Runtime) (now : Z) (req : CreateRequest) (w : World),
    (code (fst (createEvent now req w)) = 201 ->
     exists ev,
       events (snd (createEvent now req w)) = (events w ++ [ev])%list
       /\ body (fst (createEvent now req w))
          = json_event "Event created successfully and pending approval" ev
       /\ status ev = PENDING /\ currentAttendees ev = 0
       /\ createdById ev = au_id (cr_user req)
       /\ location ev = b_location (cr_body req)
       /\ title ev = b_title (cr_body req)
       /\ Date_parse (b_startDate (cr_body req)) = Date_at (startDate ev)
       /\ Date_parse (b_endDate (cr_body req)) = Date_at (endDate ev)
       /\ now <= startDate ev < endDate ev)
    /\ (code (fst (createEvent now req w)) <> 201 ->
        events (snd (createEvent now req w)) = events w)
    /\ users (snd (createEvent now req w)) = users w.
Proof.
  intros rt now req w.
  destruct (createEvent_outcome now req w)
    as [[C [E U]]|(s & f & n & u & _ & Hs & Hf & Hsf & Hnow & _ & Hu & _
                   & R & E & U)].
  - split; [intros C'; contradiction|]. auto.
  - rewrite R, E. split; [|split; [intros C; now contradiction C|exact U]].
    intros _. exists (new_event req s f n u (events w)).
    apply find_some in Hu. destruct Hu as [_ Hu]. apply String.eqb_eq in Hu.
    repeat split; auto.
Qed.

Lemma createEvent_adds_one_pending_event_witness :
  code (fst (createEvent (rt := demo_runtime) demo_now free_request
               demo_world)) = 201
  /\ exists ev,
       events (snd (createEvent (rt := demo_runtime) demo_now free_request
                      demo_world)) = [seminar; ev]
       /\ status ev = PENDING
       /\ createdById ev = "user-2".
Proof.
  split; [reflexivity|].
  destruct (proj1 (createEvent_adds_one_pending_event demo_runtime demo_now
                     free_request demo_world) eq_refl)
    as (ev & E & _ & S & _ & C & _).
  exists ev. auto.
Defined.

(** X6. A created event blocks its own slot: a create request that was
    answered 201 and is repeated, at whatever later or earlier clock
    reading, adds nothing; while the event's start is not yet past, the
    repeat is answered 409, naming the event the first request created;
    once the start is past, the repeat is answered 400 by the guard on the
    start date, which comes before the conflict check, with no call
    issued. *)
Theorem createEvent_twice_conflicts :
  forall (rt : Runtime) (now now2 : Z) (req : CreateRequest) (w : World),
    code (fst (createEvent now req w)) = 201 ->
    exists ev,
      body (fst (createEvent now req w))
      = json_event "Event created successfully and pending approval" ev
      /\ In ev (events (snd (createEvent now req w)))
      /\ (now2 <= startDate ev ->
          fst (createEvent now2 req (snd (createEvent now req w)))
          = venue_conflict ev
          /\ events (snd (createEvent now2 req (snd (createEvent now req w))))
             = events (snd (createEvent now req w)))
      /\ (startDate ev < now2 ->
          fst (createEvent now2 req (snd (createEvent now req w)))
          = error 400 "Start date must be in the future"
          /\ snd (createEvent now2 req (snd (createEvent now req w)))
             = snd (createEvent now req w)).
Proof.
  intros rt now now2 req w C.
  destruct (createEvent_outcome now req w)
    as [[C' _]|(s & f & n & u & V & Hs & Hf & Hsf & Hnow & _ & _ & F
                & R & E & _)]; [contradiction|].
  set (ev := new_event req s f n u (events w)) in *.
  exists ev. split; [now rewrite R|].
  split; [rewrite E; apply in_or_app; right; now left|].
  split.
  - intros L. cbn [startDate ev new_event] in L.
    rewrite (createEvent_run now2 req (snd (createEvent now req w))).
    cbv zeta. rewrite V, Hs, Hf, E.
    cbn [is_nil negb date_ge date_lt date_valid andb].
    destruct (Z.leb_spec f s); [lia|].
    destruct (Z.ltb_spec s now2); [lia|].
    cbn [exclusion] in F. rewrite app_nil_r in F.
    rewrite find_append, F. cbn [find].
    assert (M : matches_all (conflict_where (b_location (cr_body req))
                                            (Date_at s) (Date_at f)) ev
                = true).
    { apply conflict_where_matches. split; [reflexivity|].
      split; [now left|]. left. unfold starts_during. cbn. lia. }
    rewrite M. cbn [fst snd events log]. now rewrite E.
  - intros L. cbn [startDate ev new_event] in L.
    rewrite (createEvent_run now2 req (snd (createEvent now req w))).
    cbv zeta. rewrite V, Hs, Hf.
    cbn [is_nil negb date_ge date_lt].
    destruct (Z.leb_spec f s); [lia|].
    destruct (Z.ltb_spec s now2); [|lia].
    split; reflexivity.
Qed.

Lemma createEvent_twice_conflicts_witness :
  code (fst (createEvent (rt := demo_runtime) demo_now free_request
               demo_world)) = 201
  /\ code (fst (createEvent (rt := demo_runtime) (demo_now + 60000)
                  free_request
                  (snd (createEvent (rt := demo_runtime) demo_now
                          free_request demo_world)))) = 409
  /\ fst (createEvent (rt := demo_runtime) 1893502800001 free_request
            (snd (createEvent (rt := demo_runtime) demo_now
                    free_request demo_world)))
     = error 400 "Start date must be in the future".
Proof.
  split; [reflexivity|].
  destruct (createEvent_twice_conflicts demo_runtime demo_now
              (demo_now + 60000) free_request demo_world eq_refl)
    as (ev & B & _ & R & _).
  destruct (createEvent_twice_conflicts demo_runtime demo_now
              1893502800001 free_request demo_world eq_refl)
    as (ev' & B' & _ & _ & R').
  injection B as <-. injection B' as <-.
  split.
  - destruct R as [R _]; [unfold demo_now; cbn; lia|]. now rewrite R.
  - destruct R' as [R' _]; [cbn; lia|]. exact R'.
Defined.

(** X7. [updateEvent] never changes which events exist or who owns them:
    the ids, statuses, creators, attendee counts and images of the stored
    events, in order, are the same after every update request, and so
    are the users.  In particular no update approves, rejects or cancels
    an event. *)
Theorem updateEvent_keeps_identity :
  forall (rt : Runtime) (req : UpdateRequest) (w : World),
    map id (events (snd (updateEvent req w))) = map id (events w)
    /\ map status (events (snd (updateEvent req w))) = map status (events w)
    /\ map createdBy (events (snd (updateEvent req w)))
       = map createdBy (events w)
    /\ map currentAttendees (events (snd (updateEvent req w)))
       = map currentAttendees (events w)
    /\ map imageUrl (events (snd (updateEvent req w)))
       = map imageUrl (events w)
    /\ users (snd (updateEvent req w)) = users w.
Proof.
  intros rt req w.
  destruct (updateEvent_outcome req w)
    as [[_ [E U]]|(event & _ & _ & _ & _ & E & U & _)]; rewrite E, U.
  - repeat split.
  - rewrite !map_map.
    repeat split; apply map_ext; intros e;
      destruct (String.eqb (id e) (ur_id req)); reflexivity.
Qed.

(** X8. Only the creator of an event or an admin changes it: an update
    request that changes the stored events names an existing event, and
    comes from that event's creator or from an admin. *)
Theorem updateEvent_only_by_creator_or_admin :
  forall (rt : Runtime) (req : UpdateRequest) (w : World),
    events (snd (updateEvent req w)) <> events w ->
    exists event,
      find (fun e => String.eqb (id e) (ur_id req)) (events w) = Some event
      /\ (createdById event = au_id (ur_user req)
          \/ au_role (ur_user req) = ADMIN).
Proof.
  intros rt req w D.
  destruct (updateEvent_outcome req w)
    as [[_ [E _]]|(event & F & Fb & _)]; [contradiction|].
  exists event. split; [exact F|].
  unfold forbidden in Fb. apply andb_false_iff in Fb.
  destruct Fb as [Fb|Fb]; apply negb_false_iff in Fb.
  - left. now apply String.eqb_eq.
  - right. destruct (au_role (ur_user req)); (reflexivity || discriminate).
Qed.

Lemma updateEvent_only_by_creator_or_admin_witness :
  events (snd (updateEvent (rt := demo_runtime) shift_request busy_world))
  <> events busy_world
  /\ (exists event,
        find (fun e => String.eqb (id e) "event-1") (events busy_world)
        = Some event
        /\ (createdById event = "user-1" \/ ORGANIZER = ADMIN))
  /\ events (snd (updateEvent (rt := demo_runtime) intruding_request
                    busy_world)) = events busy_world.
Proof.
  assert (D : events (snd (updateEvent (rt := demo_runtime) shift_request
                             busy_world)) <> events busy_world)
    by discriminate.
  split; [exact D|]. split; [|reflexivity].
  exact (updateEvent_only_by_creator_or_admin demo_runtime shift_request
           busy_world D).
Defined.

(* ================================================================== *)
(** ** How the queries and the writers agree *)

Section Agreement.
Context {rt : Runtime}.

Lemma validation_passed (b : EventBody) :
  createEventValidation b = [] ->
  truthy (b_title b) = true /\ truthy (b_description b) = true
  /\ truthy (b_location b) = true /\ isISO8601 (b_startDate b) = true
  /\ isISO8601 (b_endDate b) = true /\ isInt_min1 (b_maxAttendees b) = true
  /\ truthy (b_category b) = true.
Proof.
  unfold createEventValidation.
  destruct (truthy (b_title b)); [|discriminate].
  destruct (truthy (b_description b)); [|discriminate].
  destruct (truthy (b_location b)); [|discriminate].
  destruct (isISO8601 (b_startDate b)); [|discriminate].
  destruct (isISO8601 (b_endDate b)); [|discriminate].
  destruct (isInt_min1 (b_maxAttendees b)); [|discriminate].
  destruct (truthy (b_category b)); [|discriminate].
  repeat split.
Qed.

Lemma selected_is_booked loc a b excl e :
  startDate e <= endDate e ->
  matches_all (conflict_where loc (Date_at a) (Date_at b) ++ exclusion excl) e
  = true ->
  booked loc a b e = true.
Proof.
  intros He. rewrite conflict_query_matches, booked_true.
  unfold three_cases, starts_during, ends_during, contains.
  intuition lia.
Qed.

End Agreement.

(** X9. The availability query and [createEvent] agree.  For a create
    request that passes field validation, with non-empty dates that parse
    to a start before the end and not before now: the availability query
    for its venue and dates reports a conflict exactly when the create
    request is answered 409, with the same conflicting event; and it
    reports the venue available exactly when the create request is not
    answered 409. *)
Theorem availability_agrees_with_create :
  forall (rt : Runtime) (now : Z) (req : CreateRequest) (w : World) (s f : Z),
    createEventValidation (cr_body req) = [] ->
    b_startDate (cr_body req) <> EmptyString ->
    b_endDate (cr_body req) <> EmptyString ->
    Date_parse (b_startDate (cr_body req)) = Date_at s ->
    Date_parse (b_endDate (cr_body req)) = Date_at f ->
    s < f -> now <= s ->
    (forall c,
        (exists msg,
            body (fst (checkAvailability (availability_of req) w))
            = json_available false msg (Some c))
        <-> (exists msg,
                fst (createEvent now req w)
                = {| code := 409;
                     body := json_conflict "Venue conflict detected" msg c |}))
    /\ (body (fst (checkAvailability (availability_of req) w))
        = json_available true "Venue is available for the selected time" None
        <-> code (fst (createEvent now req w)) <> 409).
Proof.
  intros rt now req w s f V Ns Nf Hs Hf Hsf Hnow.
  destruct (validation_passed _ V) as (_ & _ & Tl & _).
  apply truthy_true in Ns, Nf.
  rewrite checkAvailability_run, createEvent_run. cbv zeta.
  cbn [availability_of q_location q_startDate q_endDate q_excludeEventId].
  rewrite V, Tl, Ns, Nf, Hs, Hf.
  cbn [is_nil negb orb date_ge date_lt date_valid andb exclusion truthy
       String.eqb].
  rewrite app_nil_r.
  destruct (Z.leb_spec f s); [lia|]. destruct (Z.ltb_spec s now); [lia|].
  destruct (find _ (events w)) as [ce|].
  - split.
    + intros c. cbn [fst body venue_conflict]. split.
      * intros [msg [= _ <-]]. eexists. reflexivity.
      * intros [msg [= _ <-]]. eexists. reflexivity.
    + cbn [fst body code venue_conflict]. split; [discriminate|].
      intros C. now contradiction C.
  - match goal with |- context [persist_create req ?w0] =>
      destruct (persist_create_code req w0) as [C|C] end.
    + split.
      * intros c. cbn [fst body]. split.
        -- intros [msg [=]].
        -- intros [msg E]. rewrite E in C. discriminate.
      * split; [intros _; rewrite C; discriminate|reflexivity].
    + rewrite C. split.
      * intros c. cbn [fst body]. split; intros [msg [=]].
      * split; [discriminate|reflexivity].
Qed.

Lemma availability_agrees_with_create_witness :
  (createEventValidation (rt := demo_runtime) (cr_body clashing_request) = []
   /\ b_startDate (cr_body clashing_request) <> EmptyString
   /\ b_endDate (cr_body clashing_request) <> EmptyString
   /\ 1893495600000 < 1893502800000 /\ demo_now <= 1893495600000)
  /\ exists msg,
       fst (createEvent (rt := demo_runtime) demo_now clashing_request
              demo_world)
       = {| code := 409;
            body := json_conflict "Venue conflict detected" msg
                                  (summary seminar) |}.
Proof.
  assert (H1 : b_startDate (cr_body clashing_request) <> EmptyString)
    by discriminate.
  assert (H2 : b_endDate (cr_body clashing_request) <> EmptyString)
    by discriminate.
  assert (H3 : 1893495600000 < 1893502800000) by lia.
  assert (H4 : demo_now <= 1893495600000) by (unfold demo_now; lia).
  split; [repeat split; auto|].
  apply (proj1 (availability_agrees_with_create demo_runtime demo_now
                  clashing_request demo_world 1893495600000 1893502800000
                  eq_refl H1 H2 eq_refl eq_refl H3 H4)).
  eexists. reflexivity.
Defined.

(** X10. The two queries are read-only: whatever the request,
    [checkAvailability] and [getVenueSchedule] leave the events and the
    users as they were. *)
Theorem queries_are_read_only :
  forall (rt : Runtime) (now : Z) (q : AvailabilityQuery) (sq : ScheduleQuery)
         (w : World),
    events (snd (checkAvailability q w)) = events w
    /\ users (snd (checkAvailability q w)) = users w
    /\ events (snd (getVenueSchedule now sq w)) = events w
    /\ users (snd (getVenueSchedule now sq w)) = users w.
Proof.
  intros rt now q sq w.
  rewrite checkAvailability_run, getVenueSchedule_run. cbv zeta.
  destruct (negb (truthy (q_location q)) || negb (truthy (q_startDate q))
            || negb (truthy (q_endDate q)));
    [|destruct (date_ge _ _);
      [|destruct (date_valid _ && date_valid _);
        [destruct (find _ (events w))|]]];
    (destruct (negb (truthy (s_location sq)));
     [|destruct (date_valid _ && date_valid _)]);
    repeat split.
Qed.

(** X11. What blocks a slot shows in the schedule: over a store whose
    events start before they end, when the availability query reports a
    conflict, the conflicting event is stored and is one of the booked
    slots that [getVenueSchedule] returns for the same venue and
    window. *)
Theorem availability_conflict_in_schedule :
  forall (rt : Runtime) (now : Z) (q : AvailabilityQuery) (w : World)
         (msg : string) (c : ConflictSummary),
    dates_ordered (events w) ->
    body (fst (checkAvailability q w)) = json_available false msg (Some c) ->
    exists e a b slots,
      In e (events w) /\ c = summary e
      /\ fst (getVenueSchedule now (schedule_of q) w)
         = {| code := 200;
              body := json_schedule (q_location q) (Date_at a) (Date_at b)
                                    slots |}
      /\ Date_parse (q_startDate q) = Date_at a
      /\ Date_parse (q_endDate q) = Date_at b
      /\ In (slot e) slots.
Proof.
  intros rt now q w msg c O.
  rewrite checkAvailability_run, getVenueSchedule_run. cbv zeta.
  unfold window_end, window_start.
  cbn [schedule_of s_location s_startDate s_endDate].
  destruct (truthy (q_location q)); [|discriminate].
  destruct (truthy (q_startDate q)); [|discriminate].
  destruct (truthy (q_endDate q)); [|discriminate].
  cbn [negb orb].
  destruct (Date_parse (q_startDate q)) as [a|];
    [|destruct (date_ge _ _); discriminate].
  destruct (Date_parse (q_endDate q)) as [b|];
    [|destruct (date_ge _ _); discriminate].
  destruct (date_ge _ _); [discriminate|].
  cbn [date_valid andb].
  destruct (find _ (events w)) as [ce|] eqn:F; [|discriminate].
  cbn [fst body]. intros [= _ <-].
  apply find_some in F. destruct F as [I M].
  exists ce, a, b. eexists. split; [exact I|]. split; [reflexivity|].
  split; [reflexivity|]. split; [reflexivity|]. split; [reflexivity|].
  apply in_map.
  apply (Permutation_in _ (EventSort.Permuted_sort _)).
  apply filter_In. split; [exact I|].
  rewrite schedule_where_matches.
  apply (selected_is_booked _ _ _ (Some (q_excludeEventId q))); [|exact M].
  unfold dates_ordered in O. rewrite Forall_forall in O.
  specialize (O ce I). lia.
Qed.

Lemma availability_conflict_in_schedule_witness :
  dates_ordered (events busy_world)
  /\ exists e a b slots,
       In e (events busy_world) /\ summary seminar = summary e
       /\ fst (getVenueSchedule (rt := demo_runtime) demo_now
                 (schedule_of (availability_of clashing_request)) busy_world)
          = {| code := 200;
               body := json_schedule "Main Hall" (Date_at a) (Date_at b)
                                     slots |}
       /\ In (slot e) slots.
Proof.
  assert (H : dates_ordered (events busy_world)) by repeat constructor.
  split; [exact H|].
  destruct (availability_conflict_in_schedule demo_runtime demo_now
              (availability_of clashing_request) busy_world
              _ (summary seminar) H eq_refl)
    as (e & a & b & slots & I & S & R & _ & _ & K).
  exists e, a, b, slots. auto.
Defined.

(* ================================================================== *)
(** ** Registrations *)

Lemma find_changed {A} (key : A -> bool) (g : A -> A) (l : list A) :
  (forall x, key (g x) = key x) ->
  find key (map (fun x => if key x then g x else x) l)
  = option_map g (find key l).
Proof.
  intros K. induction l as [|x l IH]; [reflexivity|].
  cbn [map find]. destruct (key x) eqn:X.
  - now rewrite K, X.
  - rewrite X. exact IH.
Qed.

Lemma find_is_some {A} (p : A -> bool) (l : list A) :
  existsb p l = true -> exists x, find p l = Some x.
Proof.
  intros H. apply existsb_exists in H. now apply find_exists.
Qed.

Lemma existsb_find {A} (p : A -> bool) (l : list A) (x : A) :
  find p l = Some x -> existsb p l = true.
Proof.
  intros F. apply find_some in F. apply existsb_exists. now exists x.
Qed.

Lemma has_id_eq (i : string) (e : Event) : has_id i e = true <-> id e = i.
Proof. unfold has_id. apply String.eqb_eq. Qed.

Lemma count_unchanged {A} (p : A -> bool) (g : A -> A) (l : list A) :
  (forall x, p (g x) = p x) ->
  List.length (filter p (map g l)) = List.length (filter p l).
Proof.
  intros G. induction l as [|x l IH]; [reflexivity|].
  cbn. rewrite G. destruct (p x); cbn; now rewrite IH.
Qed.

Lemma registered_count_coded (eid rid q : string) (l : list Registration) :
  registered_count eid
    (map (fun r => if String.eqb (reg_id r) rid then set_qrCode q r else r) l)
  = registered_count eid l.
Proof.
  unfold registered_count. f_equal. apply count_unchanged.
  intros r. destruct (String.eqb (reg_id r) rid); reflexivity.
Qed.

Lemma registered_count_added (eid : string) (l : list Registration)
      (r : Registration) :
  registered_count eid (l ++ [r])
  = registered_count eid l + (if registered_for eid r then 1 else 0).
Proof.
  unfold registered_count. rewrite filter_app, length_app. cbn [filter].
  destruct (registered_for eid r); cbn [List.length]; lia.
Qed.

Section RegisterRuns.
Context {st : Storage}.

(** The ways [registerForEvent] ends: with the tables as they were, or
    with the registration through, which takes an Approved event that
    has not started and has a place left, a user row, and no row yet for
    this user and event. *)
Lemma registerForEvent_outcome now eid user db :
  (reply_code (fst (registerForEvent now eid user db)) <> 201
   /\ snd (registerForEvent now eid user db) = db)
  \/ exists event,
       find (has_id eid) (db_events db) = Some event
       /\ status event = APPROVED
       /\ now <= startDate event
       /\ registered_count eid (registrations db) < maxAttendees event
       /\ existsb (for_pair (au_id user) eid) (registrations db) = false
       /\ existsb (fun u => String.eqb (user_id u) (au_id user))
                  (db_users db) = true
       /\ reply_code (fst (registerForEvent now eid user db)) = 201
       /\ snd (registerForEvent now eid user db)
          = registered_db now (au_id user) eid db.
Proof.
  remember (registerForEvent now eid user db) as out eqn:E.
  unfold registerForEvent, op_catch in E.
  unfold op_bind at 1 in E. unfold event_findUnique_counting at 1 in E.
  destruct (find (has_id eid) (db_events db)) as [event|] eqn:F;
    [|subst out; left; split; [discriminate|reflexivity]].
  assert (Ie : id event = eid).
  { apply find_some in F. now apply has_id_eq. }
  rewrite Ie in E.
  destruct (EventStatus_eqb (status event) APPROVED) eqn:S;
    cbn [negb] in E; [|subst out; left; split; [discriminate|reflexivity]].
  destruct (startDate event <? now) eqn:P;
    [subst out; left; split; [discriminate|reflexivity]|].
  destruct (maxAttendees event <=? registered_count eid (registrations db))
    eqn:C; [subst out; left; split; [discriminate|reflexivity]|].
  unfold op_bind at 1 in E. unfold registration_findUnique at 1 in E.
  destruct (find (for_pair (au_id user) eid) (registrations db))
    as [r|] eqn:R.
  - destruct (RegistrationStatus.eqb (reg_status r)
                                     RegistrationStatus.REGISTERED);
      [subst out; left; split; [discriminate|reflexivity]|].
    unfold op_bind at 1 in E. unfold registration_create at 1 in E.
    rewrite (existsb_find _ _ _ R) in E. cbn [orb] in E.
    subst out; left; split; [discriminate|reflexivity].
  - unfold op_bind at 1 in E. unfold registration_create at 1 in E.
    assert (X : existsb (for_pair (au_id user) eid) (registrations db)
                = false).
    { destruct (existsb _ (registrations db)) eqn:X; [|reflexivity].
      destruct (find_is_some _ _ X) as [x Fx]. congruence. }
    rewrite X in E. rewrite (existsb_find _ _ _ F) in E.
    cbn [orb negb] in E.
    destruct (existsb (fun u => String.eqb (user_id u) (au_id user))
                      (db_users db)) eqn:U;
      cbn [negb orb] in E;
      [|subst out; left; split; [discriminate|reflexivity]].
    right. exists event.
    split; [reflexivity|].
    split; [now destruct (status event)|].
    split; [now apply Z.ltb_ge|].
    split; [now apply Z.leb_gt|].
    split; [exact X|]. split; [reflexivity|].
    unfold op_bind at 1 in E. unfold registration_update at 1 in E.
    cbn [registrations set_registrations reg_id] in E.
    set (rid := registration_uuid (registrations db)) in *.
    set (r0 := {| reg_id := rid; userId := au_id user; eventId := eid;
                  reg_status := RegistrationStatus.REGISTERED;
                  qrCode := EmptyString; registeredAt := now;
                  cancelledAt := None; attendedAt := None |}) in *.
    rewrite (find_changed (fun r => String.eqb (reg_id r) rid)
                          (set_qrCode ("REG-" ++ rid))
                          (registrations db ++ [r0]) (fun _ => eq_refl)) in E.
    assert (Fr : exists x, find (fun r => String.eqb (reg_id r) rid)
                                (registrations db ++ [r0]) = Some x).
    { apply find_exists. exists r0. split.
      - apply in_or_app. right. now left.
      - cbn. apply String.eqb_refl. }
    destruct Fr as [x Fr]. rewrite Fr in E. cbn [option_map] in E.
    unfold op_bind at 1 in E. unfold event_findUnique at 1 in E.
    unfold op_bind at 1 in E. unfold event_update at 1 in E.
    cbn [db_events set_registrations] in E.
    rewrite (find_changed (has_id eid) (increment_attendees 1)
                          (db_events db) (fun _ => eq_refl)) in E.
    rewrite F in E. cbn [option_map op_ret] in E.
    subst out. split; reflexivity.
Qed.

End RegisterRuns.

Section CancelRuns.
Context {st : Storage}.

(** The ways [cancelRegistration] ends: with the tables as they were, or
    with the caller's Registered registration for an event that has not
    started cancelled and the event's counter lowered. *)
Lemma cancelRegistration_outcome now at_ eid user db :
  (reply_code (fst (cancelRegistration now at_ eid user db)) <> 200
   /\ snd (cancelRegistration now at_ eid user db) = db)
  \/ exists r event,
       find (for_pair (au_id user) eid) (registrations db) = Some r
       /\ reg_status r = RegistrationStatus.REGISTERED
       /\ find (has_id eid) (db_events db) = Some event
       /\ now <= startDate event
       /\ fst (cancelRegistration now at_ eid user db)
          = {| reply_code := 200;
               payload := reply_message
                            "Registration cancelled successfully" |}
       /\ snd (cancelRegistration now at_ eid user db)
          = cancelled_db at_ (reg_id r) eid db.
Proof.
  remember (cancelRegistration now at_ eid user db) as out eqn:E.
  unfold cancelRegistration, op_catch in E.
  unfold op_bind at 1 in E. unfold registration_findUnique at 1 in E.
  destruct (find (for_pair (au_id user) eid) (registrations db))
    as [r|] eqn:R; [|subst out; left; split; [discriminate|reflexivity]].
  assert (Er : eventId r = eid).
  { apply find_some in R. destruct R as [_ R]. unfold for_pair in R.
    apply andb_true_iff in R. now apply String.eqb_eq. }
  rewrite Er in E.
  unfold op_bind at 1 in E. unfold event_findUnique at 1 in E.
  destruct (RegistrationStatus.eqb (reg_status r)
                                   RegistrationStatus.REGISTERED) eqn:S;
    cbn [negb] in E; [|subst out; left; split; [discriminate|reflexivity]].
  destruct (find (has_id eid) (db_events db)) as [event|] eqn:F;
    [|subst out; left; split; [discriminate|reflexivity]].
  destruct (startDate event <? now) eqn:P;
    [subst out; left; split; [discriminate|reflexivity]|].
  right. exists r, event.
  split; [reflexivity|].
  split; [now destruct (reg_status r)|].
  split; [reflexivity|]. split; [now apply Z.ltb_ge|].
  unfold op_bind at 1 in E. unfold registration_update at 1 in E.
  rewrite (find_changed (fun x => String.eqb (reg_id x) (reg_id r))
                        (set_cancelled at_) (registrations db)
                        (fun _ => eq_refl)) in E.
  assert (Fr : exists x, find (fun x => String.eqb (reg_id x) (reg_id r))
                              (registrations db) = Some x).
  { apply find_exists. exists r. split.
    - now apply find_some in R.
    - apply String.eqb_refl. }
  destruct Fr as [x Fr]. rewrite Fr in E. cbn [option_map] in E.
  unfold op_bind at 1 in E. unfold event_update at 1 in E.
  cbn [db_events set_registrations] in E.
  rewrite (find_changed (has_id eid) (increment_attendees (-1))
                        (db_events db) (fun _ => eq_refl)) in E.
  rewrite F in E. cbn [option_map op_ret] in E.
  subst out. split; reflexivity.
Qed.

End CancelRuns.

(** X12. A registration request handled on its own, with no other
    request's write between its count of the places taken and its own
    writes, never overfills an event: over events with unique ids, if no
    event has more Registered registrations than places before it, none
    has after it.  A request answered 201 ran, after its checks, exactly
    the writes of [persist_registration].  The condition is needed: on
    the tutorial with its single place free, Carol's request and Dave's
    are each answered 201, and once the writes of both have run the
    tutorial has two Registered registrations. *)
Theorem registerForEvent_keeps_within_capacity :
  (forall (st : Storage) (now : Z) (eid : string) (user : AuthUser)
          (db : Database),
      NoDup (map id (db_events db)) ->
      within_capacity db ->
      within_capacity (snd (registerForEvent now eid user db)))
  /\ (forall (st : Storage) (now : Z) (eid : string) (user : AuthUser)
             (db : Database),
         reply_code (fst (registerForEvent now eid user db)) = 201 ->
         registerForEvent now eid user db
         = persist_registration now eid user db)
  /\ (reply_code (fst (registerForEvent (st := demo_storage Restrict)
                         demo_now "event-4" carol_session tutorial_db)) = 201
      /\ reply_code (fst (registerForEvent (st := demo_storage Restrict)
                            demo_now "event-4" dave_session tutorial_db))
         = 201
      /\ within_capacity tutorial_db
      /\ ~ within_capacity
           (snd (persist_registration (st := demo_storage Restrict)
                   demo_now "event-4" dave_session
                   (snd (persist_registration (st := demo_storage Restrict)
                           demo_now "event-4" carol_session
                           tutorial_db))))).
Proof.
  split.
  {
  intros st now eid user db N H.
  destruct (registerForEvent_outcome now eid user db)
    as [[_ E]|(event & F & _ & _ & C & _ & _ & _ & E)]; rewrite E;
    [exact H|].
  intros e' I. cbn [registered_db db_events registrations] in *.
  apply in_map_iff in I. destruct I as [e [<- I]].
  rewrite registered_count_coded, registered_count_added.
  assert (M : maxAttendees (if has_id eid e then increment_attendees 1 e
                            else e) = maxAttendees e)
    by (destruct (has_id eid e); reflexivity).
  assert (D : id (if has_id eid e then increment_attendees 1 e else e)
              = id e)
    by (destruct (has_id eid e); reflexivity).
  rewrite M, D. specialize (H e I).
  unfold registered_for. cbn [new_registration eventId reg_status].
  destruct (String.eqb eid (id e)) eqn:X; cbn [andb RegistrationStatus.eqb].
  - apply String.eqb_eq in X.
    assert (e = event).
    { apply (unique_row eid (db_events db) event e N); auto. }
    subst e. rewrite <- X in *. lia.
  - lia.
  }
  split.
  { intros st now eid user db H.
    remember (registerForEvent now eid user db) as out eqn:E.
    unfold registerForEvent, op_catch in E.
    unfold op_bind at 1 in E. unfold event_findUnique_counting at 1 in E.
    destruct (find (has_id eid) (db_events db)) as [event|];
      [|subst out; discriminate H].
    destruct (negb (EventStatus_eqb (status event) APPROVED));
      [subst out; discriminate H|].
    destruct (startDate event <? now); [subst out; discriminate H|].
    destruct (maxAttendees event <=? _); [subst out; discriminate H|].
    unfold op_bind at 1 in E. unfold registration_findUnique at 1 in E.
    destruct (find (for_pair (au_id user) eid) (registrations db))
      as [r|]; [|exact E].
    destruct (RegistrationStatus.eqb (reg_status r)
                                     RegistrationStatus.REGISTERED);
      [subst out; discriminate H|exact E]. }
  { split; [reflexivity|]. split; [reflexivity|]. split.
    - intros e [<-|[]]. vm_compute. discriminate.
    - intros H.
      set (db' := snd (persist_registration (st := demo_storage Restrict)
                         demo_now "event-4" dave_session
                         (snd (persist_registration
                                 (st := demo_storage Restrict)
                                 demo_now "event-4" carol_session
                                 tutorial_db)))) in H.
      assert (I : In (nth 0 (db_events db') tutorial) (db_events db'))
        by (vm_compute; auto).
      specialize (H _ I). vm_compute in H. apply H. reflexivity. }
Qed.

Lemma registerForEvent_keeps_within_capacity_witness :
  (NoDup (map id (db_events demo_db)) /\ within_capacity demo_db)
  /\ within_capacity (snd (registerForEvent (st := demo_storage Restrict)
                             demo_now "event-1" carol_session demo_db))
  /\ reply_code (fst (registerForEvent (st := demo_storage Restrict)
                        demo_now "event-1" carol_session demo_db)) = 201.
Proof.
  assert (N : NoDup (map id (db_events demo_db))).
  { repeat constructor; cbn; intuition discriminate. }
  assert (H : within_capacity demo_db).
  { intros e [<-|[<-|[<-|[]]]]; vm_compute; discriminate. }
  split; [auto|]. split; [|reflexivity].
  exact (proj1 registerForEvent_keeps_within_capacity (demo_storage Restrict)
           demo_now "event-1" carol_session demo_db N H).
Defined.

(** X13. One registration per user and event: when a row for the user
    and the event exists, whatever its status, a registration request
    is not answered 201 and changes nothing. *)
Theorem registerForEvent_once_per_user :
  forall (st : Storage) (now : Z) (eid : string) (user : AuthUser)
         (db : Database) (r : Registration),
    In r (registrations db) -> userId r = au_id user -> eventId r = eid ->
    reply_code (fst (registerForEvent now eid user db)) <> 201
    /\ snd (registerForEvent now eid user db) = db.
Proof.
  intros st now eid user db r I Hu He.
  destruct (registerForEvent_outcome now eid user db)
    as [L|(event & _ & _ & _ & _ & X & _)]; [exact L|].
  exfalso.
  assert (T : existsb (for_pair (au_id user) eid) (registrations db) = true).
  { apply existsb_exists. exists r. split; [exact I|].
    unfold for_pair. now rewrite Hu, He, !String.eqb_refl. }
  congruence.
Qed.

Lemma registerForEvent_once_per_user_witness :
  (In dave_at_seminar (registrations demo_db)
   /\ userId dave_at_seminar = au_id dave_session
   /\ eventId dave_at_seminar = "event-1")
  /\ fst (registerForEvent (st := demo_storage Restrict) demo_now "event-1"
            dave_session demo_db)
     = fail 400 "You are already registered for this event"
  /\ snd (registerForEvent (st := demo_storage Restrict) demo_now "event-1"
            dave_session demo_db) = demo_db.
Proof.
  assert (I : In dave_at_seminar (registrations demo_db)) by now left.
  split; [repeat split; auto|]. split; [reflexivity|].
  exact (proj2 (registerForEvent_once_per_user (demo_storage Restrict)
                  demo_now "event-1" dave_session demo_db dave_at_seminar
                  I eq_refl eq_refl)).
Defined.

(** X14. A cancelled registration cannot be taken up again: when the
    event is Approved, has not started and has a place left, and the row
    found for the user and the event is not Registered, the registration
    request passes every check, the insertion then violates the
    uniqueness of the pair, and the answer is 500 with nothing
    changed. *)
Theorem registerForEvent_after_cancel_fails :
  forall (st : Storage) (now : Z) (eid : string) (user : AuthUser)
         (db : Database) (event : Event) (r : Registration),
    find (has_id eid) (db_events db) = Some event ->
    status event = APPROVED -> now <= startDate event ->
    registered_count eid (registrations db) < maxAttendees event ->
    find (for_pair (au_id user) eid) (registrations db) = Some r ->
    reg_status r <> RegistrationStatus.REGISTERED ->
    registerForEvent now eid user db
    = (fail 500 "Failed to register for event", db).
Proof.
  intros st now eid user db event r F S P C R N.
  assert (Ie : id event = eid).
  { apply find_some in F. now apply has_id_eq. }
  unfold registerForEvent, op_catch.
  unfold op_bind at 1. unfold event_findUnique_counting at 1.
  rewrite F, Ie, S. cbn [EventStatus_eqb negb].
  apply Z.ltb_ge in P. apply Z.leb_gt in C. rewrite P, C.
  unfold op_bind at 1. unfold registration_findUnique at 1. rewrite R.
  destruct (RegistrationStatus.eqb (reg_status r)
                                   RegistrationStatus.REGISTERED) eqn:Q.
  - exfalso. apply N. now destruct (reg_status r).
  - unfold op_bind at 1. unfold registration_create at 1.
    rewrite (existsb_find _ _ _ R). reflexivity.
Qed.

Lemma registerForEvent_after_cancel_fails_witness :
  (find (has_id "event-1") (db_events demo_db_after_cancel)
   = Some seminar_booked
   /\ status seminar_booked = APPROVED
   /\ demo_now <= startDate seminar_booked
   /\ registered_count "event-1" (registrations demo_db_after_cancel)
      < maxAttendees seminar_booked
   /\ find (for_pair (au_id carol_session) "event-1")
           (registrations demo_db_after_cancel) = Some carol_cancelled
   /\ reg_status carol_cancelled <> RegistrationStatus.REGISTERED)
  /\ registerForEvent (st := demo_storage Restrict) demo_now "event-1"
       carol_session demo_db_after_cancel
     = (fail 500 "Failed to register for event", demo_db_after_cancel).
Proof.
  assert (H3 : demo_now <= startDate seminar_booked)
    by (vm_compute; discriminate).
  assert (H4 : registered_count "event-1"
                 (registrations demo_db_after_cancel)
               < maxAttendees seminar_booked) by reflexivity.
  assert (H6 : reg_status carol_cancelled <> RegistrationStatus.REGISTERED)
    by discriminate.
  split; [repeat split; auto|].
  exact (registerForEvent_after_cancel_fails (demo_storage Restrict)
           demo_now "event-1" carol_session demo_db_after_cancel
           seminar_booked carol_cancelled eq_refl eq_refl H3 H4 eq_refl H6).
Defined.

Lemma NoDup_key {A B} (k : A -> B) (l : list A) (x y : A) :
  NoDup (map k l) -> In x l -> In y l -> k x = k y -> x = y.
Proof.
  induction l as [|a l IH]; [intros _ []|].
  cbn [map]. intros N Ix Iy E.
  apply NoDup_cons_iff in N. destruct N as [Na N].
  destruct Ix as [<-|Ix], Iy as [<-|Iy].
  - reflexivity.
  - exfalso. apply Na. rewrite E. now apply in_map.
  - exfalso. apply Na. rewrite <- E. now apply in_map.
  - now apply IH.
Qed.

Lemma registered_count_cons (i : string) (x : Registration)
      (l : list Registration) :
  registered_count i (x :: l)
  = (if registered_for i x then 1 else 0) + registered_count i l.
Proof.
  unfold registered_count. cbn [filter].
  destruct (registered_for i x); cbn [List.length]; lia.
Qed.

Lemma registered_count_cancelled (i : string) (at_ : Z) (r : Registration)
      (l : list Registration) :
  NoDup (map reg_id l) -> In r l ->
  reg_status r = RegistrationStatus.REGISTERED ->
  registered_count i
    (map (fun x => if String.eqb (reg_id x) (reg_id r)
                   then set_cancelled at_ x else x) l)
  = registered_count i l - (if String.eqb (eventId r) i then 1 else 0).
Proof.
  intros N I S. induction l as [|x l IH]; [destruct I|].
  cbn [map] in *. apply NoDup_cons_iff in N. destruct N as [Nx N].
  rewrite !registered_count_cons. destruct I as [->|I].
  - rewrite String.eqb_refl.
    assert (Same : map (fun x => if String.eqb (reg_id x) (reg_id r)
                                 then set_cancelled at_ x else x) l = l).
    { rewrite <- (map_id l) at 2. apply map_ext_in. intros y Iy.
      destruct (String.eqb (reg_id y) (reg_id r)) eqn:Y; [|reflexivity].
      exfalso. apply Nx. apply String.eqb_eq in Y. rewrite <- Y.
      now apply in_map. }
    rewrite Same. unfold registered_for.
    cbn [set_cancelled eventId reg_status]. rewrite S.
    cbn [RegistrationStatus.eqb]. rewrite andb_false_r, andb_true_r.
    destruct (String.eqb (eventId r) i); lia.
  - assert (D : String.eqb (reg_id x) (reg_id r) = false).
    { apply String.eqb_neq. intros E. apply Nx. rewrite E. now apply in_map. }
    rewrite D, (IH N I). lia.
Qed.

(** X15. A registration answered 201 is for an Approved event that had
    not started and had a place left; it adds a Registered row for the user
    and the event whose code is REG- followed by its id, raises the number
    of Registered registrations of the event by one, raises the counter of
    the event by one and changes nothing else of the events. *)
Theorem registerForEvent_registers :
  forall (st : Storage) (now : Z) (eid : string) (user : AuthUser)
         (db : Database),
    reply_code (fst (registerForEvent now eid user db)) = 201 ->
    (exists event,
        find (has_id eid) (db_events db) = Some event
        /\ status event = APPROVED /\ now <= startDate event
        /\ registered_count eid (registrations db) < maxAttendees event)
    /\ (exists r,
           In r (registrations (snd (registerForEvent now eid user db)))
           /\ userId r = au_id user /\ eventId r = eid
           /\ reg_status r = RegistrationStatus.REGISTERED
           /\ qrCode r = "REG-" ++ reg_id r)
    /\ registered_count eid
         (registrations (snd (registerForEvent now eid user db)))
       = registered_count eid (registrations db) + 1
    /\ db_events (snd (registerForEvent now eid user db))
       = map (fun e => if has_id eid e then increment_attendees 1 e else e)
             (db_events db)
    /\ db_users (snd (registerForEvent now eid user db)) = db_users db.
Proof.
  intros st now eid user db C.
  destruct (registerForEvent_outcome now eid user db)
    as [[L _]|(event & F & S & P & K & _ & _ & _ & E)]; [contradiction|].
  rewrite E. split; [exists event; auto|].
  cbn [registered_db db_events db_users registrations].
  split; [|split; [|split; reflexivity]].
  - exists (set_qrCode ("REG-" ++ registration_uuid (registrations db))
                       (new_registration now (au_id user) eid
                                         (registrations db))).
    split; [|repeat split].
    apply in_map_iff.
    exists (new_registration now (au_id user) eid (registrations db)).
    split.
    + cbn [new_registration reg_id]. now rewrite String.eqb_refl.
    + apply in_or_app. right. now left.
  - rewrite registered_count_coded, registered_count_added.
    unfold registered_for. cbn [new_registration eventId reg_status].
    now rewrite String.eqb_refl.
Qed.

Lemma registerForEvent_registers_witness :
  reply_code (fst (registerForEvent (st := demo_storage Restrict) demo_now
                     "event-1" carol_session demo_db)) = 201
  /\ registered_count "event-1"
       (registrations (snd (registerForEvent (st := demo_storage Restrict)
                              demo_now "event-1" carol_session demo_db)))
     = registered_count "event-1" (registrations demo_db) + 1.
Proof.
  split; [reflexivity|].
  exact (proj1 (proj2 (proj2 (registerForEvent_registers
                                (demo_storage Restrict) demo_now "event-1"
                                carol_session demo_db eq_refl)))).
Defined.

(** X16. Registering keeps the attendee counters right: if every event's
    counter is the number of its Registered registrations before a
    registration request, it is after it. *)
Theorem registerForEvent_keeps_counters :
  forall (st : Storage) (now : Z) (eid : string) (user : AuthUser)
         (db : Database),
    counters_agree db ->
    counters_agree (snd (registerForEvent now eid user db)).
Proof.
  intros st now eid user db H.
  destruct (registerForEvent_outcome now eid user db)
    as [[_ E]|(event & _ & _ & _ & _ & _ & _ & _ & E)]; rewrite E;
    [exact H|].
  intros e' I. cbn [registered_db db_events registrations] in *.
  apply in_map_iff in I. destruct I as [e [<- I]].
  rewrite registered_count_coded, registered_count_added.
  specialize (H e I). unfold registered_for.
  cbn [new_registration eventId reg_status RegistrationStatus.eqb].
  rewrite andb_true_r. unfold has_id.
  rewrite (String.eqb_sym eid).
  destruct (String.eqb (id e) eid) eqn:X.
  - cbn [increment_attendees id currentAttendees]. rewrite X. lia.
  - rewrite X. lia.
Qed.

Lemma registerForEvent_keeps_counters_witness :
  counters_agree demo_db
  /\ counters_agree (snd (registerForEvent (st := demo_storage Restrict)
                            demo_now "event-1" carol_session demo_db))
  /\ map currentAttendees
       (db_events (snd (registerForEvent (st := demo_storage Restrict)
                          demo_now "event-1" carol_session demo_db)))
     = [2; 0; 0].
Proof.
  assert (H : counters_agree demo_db).
  { intros e [<-|[<-|[<-|[]]]]; reflexivity. }
  split; [exact H|]. split; [|reflexivity].
  exact (registerForEvent_keeps_counters (demo_storage Restrict) demo_now
           "event-1" carol_session demo_db H).
Defined.

(** X17. A cancel request handled on its own, with no other request's
    write between its lookup and its own writes, keeps the attendee
    counters right, over registrations with unique ids.  A request
    answered 200 ran, after its checks, exactly the writes of
    [persist_cancellation] for the registration it read.  The condition
    is needed: when Dave's cancel request is sent twice and both read his
    registration before either writes, both pass the checks, both
    decrement, and the seminar's counter falls below the number of its
    Registered registrations. *)
Theorem cancelRegistration_keeps_counters :
  (forall (now at_ : Z) (eid : string) (user : AuthUser)
          (db : Database),
      NoDup (map reg_id (registrations db)) ->
      counters_agree db ->
      counters_agree (snd (cancelRegistration now at_ eid user db)))
  /\ (forall (now at_ : Z) (eid : string) (user : AuthUser)
             (db : Database),
         reply_code (fst (cancelRegistration now at_ eid user db)) = 200 ->
         exists r,
           find (for_pair (au_id user) eid) (registrations db) = Some r
           /\ cancelRegistration now at_ eid user db
              = persist_cancellation at_ eid r db)
  /\ (reply_code (fst (cancelRegistration demo_now demo_now "event-1"
                         dave_session demo_db)) = 200
      /\ find (for_pair (au_id dave_session) "event-1")
              (registrations demo_db) = Some dave_at_seminar
      /\ counters_agree demo_db
      /\ ~ counters_agree
           (snd (persist_cancellation demo_now "event-1" dave_at_seminar
                   (snd (persist_cancellation demo_now "event-1"
                           dave_at_seminar demo_db))))).
Proof.
  split.
  {
  intros now at_ eid user db N H.
  destruct (cancelRegistration_outcome now at_ eid user db)
    as [[_ E]|(r & event & R & S & _ & _ & _ & E)]; rewrite E; [exact H|].
  assert (Ir : In r (registrations db)) by (now apply find_some in R).
  assert (Er : eventId r = eid).
  { apply find_some in R. destruct R as [_ R]. unfold for_pair in R.
    apply andb_true_iff in R. now apply String.eqb_eq. }
  intros e' I. cbn [cancelled_db db_events registrations] in *.
  apply in_map_iff in I. destruct I as [e [<- I]].
  specialize (H e I).
  assert (D : id (if has_id eid e then increment_attendees (-1) e else e)
              = id e)
    by (destruct (has_id eid e); reflexivity).
  rewrite D, (registered_count_cancelled _ _ _ _ N Ir S), Er.
  unfold has_id. rewrite (String.eqb_sym eid).
  destruct (String.eqb (id e) eid); cbn [increment_attendees currentAttendees];
    lia.
  }
  split.
  { intros now at_ eid user db H.
    remember (cancelRegistration now at_ eid user db) as out eqn:E.
    unfold cancelRegistration, op_catch in E.
    unfold op_bind at 1 in E. unfold registration_findUnique at 1 in E.
    destruct (find (for_pair (au_id user) eid) (registrations db))
      as [r|]; [|subst out; discriminate H].
    unfold op_bind at 1 in E. unfold event_findUnique at 1 in E.
    destruct (negb (RegistrationStatus.eqb (reg_status r)
                                           RegistrationStatus.REGISTERED));
      [subst out; discriminate H|].
    destruct (find (has_id (eventId r)) (db_events db)) as [event|];
      [|subst out; discriminate H].
    destruct (startDate event <? now); [subst out; discriminate H|].
    exists r. split; [reflexivity|exact E]. }
  { split; [reflexivity|]. split; [reflexivity|]. split.
    - intros e [<-|[<-|[<-|[]]]]; reflexivity.
    - intros H.
      set (db' := snd (persist_cancellation demo_now "event-1"
                         dave_at_seminar
                         (snd (persist_cancellation demo_now "event-1"
                                 dave_at_seminar demo_db)))) in H.
      assert (I : In (nth 0 (db_events db') seminar) (db_events db'))
        by (vm_compute; auto).
      specialize (H _ I). vm_compute in H. discriminate H. }
Qed.

Lemma cancelRegistration_keeps_counters_witness :
  (NoDup (map reg_id (registrations demo_db)) /\ counters_agree demo_db)
  /\ counters_agree (snd (cancelRegistration
                            demo_now demo_now "event-1" dave_session demo_db))
  /\ map currentAttendees
       (db_events (snd (cancelRegistration
                          demo_now demo_now "event-1" dave_session demo_db)))
     = [0; 0; 0].
Proof.
  assert (N : NoDup (map reg_id (registrations demo_db))).
  { repeat constructor; cbn; intuition discriminate. }
  assert (H : counters_agree demo_db).
  { intros e [<-|[<-|[<-|[]]]]; reflexivity. }
  split; [auto|]. split; [|reflexivity].
  exact (proj1 cancelRegistration_keeps_counters demo_now
           demo_now "event-1" dave_session demo_db N H).
Defined.

(** X18. Cancelling touches only the caller's own registration for the
    event: over registrations with unique ids, every row of another user
    or another event is among the registrations afterwards, unchanged,
    and events and users keep their number. *)
Theorem cancelRegistration_only_own :
  forall (now at_ : Z) (eid : string) (user : AuthUser)
         (db : Database) (x : Registration),
    NoDup (map reg_id (registrations db)) ->
    In x (registrations db) ->
    userId x <> au_id user \/ eventId x <> eid ->
    In x (registrations (snd (cancelRegistration now at_ eid user db)))
    /\ map id (db_events (snd (cancelRegistration now at_ eid user db)))
       = map id (db_events db)
    /\ db_users (snd (cancelRegistration now at_ eid user db)) = db_users db.
Proof.
  intros now at_ eid user db x N Ix Other.
  destruct (cancelRegistration_outcome now at_ eid user db)
    as [[_ E]|(r & event & R & _ & _ & _ & _ & E)]; rewrite E; [auto|].
  cbn [cancelled_db db_events db_users registrations].
  apply find_some in R. destruct R as [Ir R]. unfold for_pair in R.
  apply andb_true_iff in R. destruct R as [Ru Re].
  apply String.eqb_eq in Ru, Re.
  split; [|split; [|reflexivity]].
  - apply in_map_iff. exists x. split; [|exact Ix].
    destruct (String.eqb (reg_id x) (reg_id r)) eqn:X; [|reflexivity].
    apply String.eqb_eq in X.
    rewrite (NoDup_key reg_id _ x r N Ix Ir X) in Other.
    destruct Other; contradiction.
  - rewrite map_map. apply map_ext. intros e.
    destruct (has_id eid e); reflexivity.
Qed.

Lemma cancelRegistration_only_own_witness :
  (NoDup (map reg_id (registrations demo_db_after_cancel))
   /\ In carol_cancelled (registrations demo_db_after_cancel)
   /\ (userId carol_cancelled <> au_id dave_session
       \/ eventId carol_cancelled <> "event-1"))
  /\ In carol_cancelled
       (registrations (snd (cancelRegistration
                              demo_now demo_now "event-1" dave_session
                              demo_db_after_cancel)))
  /\ reply_code (fst (cancelRegistration
                        demo_now demo_now "event-1" dave_session
                        demo_db_after_cancel)) = 200.
Proof.
  assert (N : NoDup (map reg_id (registrations demo_db_after_cancel))).
  { repeat constructor; cbn; intuition discriminate. }
  assert (I : In carol_cancelled (registrations demo_db_after_cancel))
    by (right; now left).
  assert (O : userId carol_cancelled <> au_id dave_session
              \/ eventId carol_cancelled <> "event-1")
    by (left; discriminate).
  split; [auto|]. split; [|reflexivity].
  exact (proj1 (cancelRegistration_only_own demo_now
                  demo_now "event-1" dave_session demo_db_after_cancel
                  carol_cancelled N I O)).
Defined.

Lemma map_fresh (rid : string) (g : Registration -> Registration)
      (l : list Registration) :
  ~ In rid (map reg_id l) ->
  map (fun r => if String.eqb (reg_id r) rid then g r else r) l = l.
Proof.
  intros N. rewrite <- (map_id l) at 2. apply map_ext_in. intros y Iy.
  destruct (String.eqb (reg_id y) rid) eqn:Y; [|reflexivity].
  exfalso. apply N. apply String.eqb_eq in Y. rewrite <- Y. now apply in_map.
Qed.

Lemma find_absent {A} (p : A -> bool) (l : list A) :
  existsb p l = false -> find p l = None.
Proof.
  intros X. destruct (find p l) as [x|] eqn:F; [|reflexivity].
  rewrite (existsb_find _ _ _ F) in X. discriminate.
Qed.

Lemma attendees_restored (e : Event) :
  increment_attendees (-1) (increment_attendees 1 e) = e.
Proof.
  destruct e. unfold increment_attendees. cbn. f_equal. lia.
Qed.

Lemma cancelRegistration_success now at_ eid user db r event :
  find (for_pair (au_id user) eid) (registrations db) = Some r ->
  reg_status r = RegistrationStatus.REGISTERED ->
  find (has_id eid) (db_events db) = Some event ->
  now <= startDate event ->
  cancelRegistration now at_ eid user db
  = ({| reply_code := 200;
        payload := reply_message "Registration cancelled successfully" |},
     cancelled_db at_ (reg_id r) eid db).
Proof.
  intros R S F P.
  assert (Er : eventId r = eid).
  { apply find_some in R. destruct R as [_ R]. unfold for_pair in R.
    apply andb_true_iff in R. now apply String.eqb_eq. }
  unfold cancelRegistration, op_catch.
  unfold op_bind at 1. unfold registration_findUnique at 1. rewrite R.
  unfold op_bind at 1. unfold event_findUnique at 1. rewrite Er, F, S.
  cbn [RegistrationStatus.eqb negb]. apply Z.ltb_ge in P. rewrite P.
  unfold op_bind at 1. unfold registration_update at 1.
  rewrite (find_changed (fun x => String.eqb (reg_id x) (reg_id r))
                        (set_cancelled at_) (registrations db)
                        (fun _ => eq_refl)).
  assert (Fr : exists x, find (fun x => String.eqb (reg_id x) (reg_id r))
                              (registrations db) = Some x).
  { apply find_exists. exists r. split.
    - now apply find_some in R.
    - apply String.eqb_refl. }
  destruct Fr as [x Fr]. rewrite Fr. cbn [option_map].
  unfold op_bind at 1. unfold event_update at 1.
  cbn [db_events set_registrations].
  rewrite (find_changed (has_id eid) (increment_attendees (-1))
                        (db_events db) (fun _ => eq_refl)).
  rewrite F. reflexivity.
Qed.

(** X19. Registering and then cancelling is a round trip for the events:
    when the database gives the new registration an id no row has yet,
    and the event has still not started when the user cancels, the
    cancellation is answered 200, the events and users are exactly as
    before the registration, the registrations are the old ones followed
    by the user's row, now Cancelled, and every event has as many
    Registered registrations as before. *)
Theorem register_then_cancel_restores :
  forall (st : Storage) (now now2 at_ : Z) (eid : string) (user : AuthUser)
         (db : Database),
    ~ In (registration_uuid (registrations db))
         (map reg_id (registrations db)) ->
    reply_code (fst (registerForEvent now eid user db)) = 201 ->
    (forall e, In e (db_events db) -> id e = eid -> now2 <= startDate e) ->
    fst (cancelRegistration now2 at_ eid user
           (snd (registerForEvent now eid user db)))
    = {| reply_code := 200;
         payload := reply_message "Registration cancelled successfully" |}
    /\ db_events (snd (cancelRegistration now2 at_ eid user
                         (snd (registerForEvent now eid user db))))
       = db_events db
    /\ db_users (snd (cancelRegistration now2 at_ eid user
                        (snd (registerForEvent now eid user db))))
       = db_users db
    /\ registrations (snd (cancelRegistration now2 at_ eid user
                             (snd (registerForEvent now eid user db))))
       = (registrations db
          ++ [set_cancelled at_
                (set_qrCode ("REG-" ++ registration_uuid (registrations db))
                   (new_registration now (au_id user) eid
                                     (registrations db)))])%list
    /\ forall i,
         registered_count i
           (registrations (snd (cancelRegistration now2 at_ eid user
                                  (snd (registerForEvent now eid user db)))))
         = registered_count i (registrations db).
Proof.
  intros st now now2 at_ eid user db Fresh C Later.
  destruct (registerForEvent_outcome now eid user db)
    as [[L _]|(event & F & _ & _ & _ & X & _ & _ & E)]; [contradiction|].
  rewrite E. clear E C.
  set (rid := registration_uuid (registrations db)) in *.
  set (r0 := new_registration now (au_id user) eid (registrations db)).
  assert (Regs : registrations (registered_db now (au_id user) eid db)
                 = (registrations db ++ [set_qrCode ("REG-" ++ rid) r0])%list).
  { cbn [registered_db registrations]. fold rid. fold r0.
    rewrite map_app, (map_fresh rid _ _ Fresh). cbn [map].
    unfold r0 at 1. cbn [new_registration reg_id]. fold rid.
    now rewrite String.eqb_refl. }
  assert (R : find (for_pair (au_id user) eid)
                   (registrations (registered_db now (au_id user) eid db))
              = Some (set_qrCode ("REG-" ++ rid) r0)).
  { rewrite Regs, find_append, (find_absent _ _ X). cbn [find].
    unfold for_pair. cbn. now rewrite !String.eqb_refl. }
  assert (Fe : find (has_id eid)
                    (db_events (registered_db now (au_id user) eid db))
               = Some (increment_attendees 1 event)).
  { cbn [registered_db db_events].
    rewrite (find_changed (has_id eid) (increment_attendees 1)
                          (db_events db) (fun _ => eq_refl)).
    now rewrite F. }
  assert (P : now2 <= startDate (increment_attendees 1 event)).
  { cbn. apply find_some in F. destruct F as [I H].
    apply Later; [exact I|now apply has_id_eq]. }
  rewrite (cancelRegistration_success now2 at_ eid user _ _ _ R eq_refl Fe P).
  cbn [fst snd cancelled_db db_events db_users registrations].
  assert (Regs2 :
    map (fun r => if String.eqb (reg_id r)
                       (reg_id (set_qrCode ("REG-" ++ rid) r0))
                  then set_cancelled at_ r else r)
        (registrations (registered_db now (au_id user) eid db))
    = (registrations db
       ++ [set_cancelled at_ (set_qrCode ("REG-" ++ rid) r0)])%list).
  { rewrite Regs, map_app. cbn [set_qrCode reg_id].
    unfold r0 at 1 3. cbn [new_registration reg_id]. fold rid.
    rewrite (map_fresh rid _ _ Fresh). cbn [map reg_id set_qrCode].
    unfold r0 at 1. cbn [new_registration reg_id]. fold rid.
    now rewrite String.eqb_refl. }
  split; [reflexivity|]. split; [|split; [reflexivity|split]].
  - cbn [registered_db db_events]. rewrite map_map.
    rewrite <- (map_id (db_events db)) at 2. apply map_ext. intros e.
    destruct (has_id eid e) eqn:H.
    + change (has_id eid (increment_attendees 1 e)) with (has_id eid e).
      rewrite H. apply attendees_restored.
    + now rewrite H.
  - exact Regs2.
  - intros i. rewrite Regs2, registered_count_added.
    unfold registered_for. cbn [set_cancelled reg_status].
    cbn [RegistrationStatus.eqb]. rewrite andb_false_r. lia.
Qed.

Lemma register_then_cancel_restores_witness :
  (~ In (registration_uuid (Storage := demo_storage Restrict)
           (registrations demo_db))
        (map reg_id (registrations demo_db))
   /\ reply_code (fst (registerForEvent (st := demo_storage Restrict)
                         demo_now "event-1" carol_session demo_db)) = 201)
  /\ db_events (snd (cancelRegistration demo_now demo_now "event-1"
                       carol_session
                       (snd (registerForEvent (st := demo_storage Restrict)
                               demo_now "event-1" carol_session demo_db))))
     = db_events demo_db.
Proof.
  assert (Fr : ~ In (registration_uuid (Storage := demo_storage Restrict)
                       (registrations demo_db))
                    (map reg_id (registrations demo_db))).
  { cbn. intuition discriminate. }
  split; [split; [exact Fr|reflexivity]|].
  apply (register_then_cancel_restores (demo_storage Restrict) demo_now
           demo_now demo_now "event-1" carol_session demo_db Fr eq_refl).
  intros e [<-|[<-|[<-|[]]]] _; vm_compute; discriminate.
Defined.

(* ================================================================== *)
(** ** Approval *)

Lemma decide_run i decision msg on_error db :
  decide i decision msg on_error db
  = match find (has_id i) (db_events db) with
    | None => (fail 404 "Event not found", db)
    | Some event =>
        if is_pending event then
          ({| reply_code := 200;
              payload := reply_event msg (set_status decision event) |},
           set_events_of (decided i decision (db_events db)) db)
        else (fail 400 "Event is not pending approval", db)
    end.
Proof.
  unfold decide, op_catch. unfold op_bind at 1. unfold event_findUnique at 1.
  destruct (find (has_id i) (db_events db)) as [event|] eqn:F;
    [|reflexivity].
  unfold is_pending. destruct (EventStatus_eqb (status event) PENDING);
    cbn [negb]; [|reflexivity].
  unfold op_bind, event_update.
  rewrite (find_changed (has_id i) (set_status decision) (db_events db)
                        (fun _ => eq_refl)).
  rewrite F. reflexivity.
Qed.

Lemma is_pending_true (e : Event) : is_pending e = true <-> status e = PENDING.
Proof.
  unfold is_pending. destruct (status e); split; intros H;
    (reflexivity || discriminate).
Qed.

(** X20. The admin decides only on Pending events, and a decision changes
    only the status.  [approveEvent] and [rejectEvent] answer 200 exactly
    when the event exists and is Pending; otherwise nothing changes; and
    after a 200 the stored events are the same rows with the status of
    the rows of that id set, so ids, venues, dates, capacities and
    creators are as before, as are users and registrations. *)
Theorem decisions_only_on_pending :
  forall (i : string) (db : Database),
    (reply_code (fst (approveEvent i db)) = 200
     <-> exists event, find (has_id i) (db_events db) = Some event
                       /\ status event = PENDING)
    /\ (reply_code (fst (rejectEvent i db)) = 200
        <-> exists event, find (has_id i) (db_events db) = Some event
                          /\ status event = PENDING)
    /\ (reply_code (fst (approveEvent i db)) <> 200 ->
        snd (approveEvent i db) = db)
    /\ (reply_code (fst (rejectEvent i db)) <> 200 ->
        snd (rejectEvent i db) = db)
    /\ (reply_code (fst (approveEvent i db)) = 200 ->
        snd (approveEvent i db)
        = set_events_of (decided i APPROVED (db_events db)) db)
    /\ (reply_code (fst (rejectEvent i db)) = 200 ->
        snd (rejectEvent i db)
        = set_events_of (decided i REJECTED (db_events db)) db)
    /\ (forall d,
          map (fun e => (id e, location e, startDate e, endDate e,
                         maxAttendees e, currentAttendees e, createdBy e))
              (decided i d (db_events db))
          = map (fun e => (id e, location e, startDate e, endDate e,
                           maxAttendees e, currentAttendees e, createdBy e))
                (db_events db)).
Proof.
  intros i db. unfold approveEvent, rejectEvent. rewrite !decide_run.
  destruct (find (has_id i) (db_events db)) as [event|] eqn:F.
  - destruct (is_pending event) eqn:P.
    + apply is_pending_true in P.
      repeat split; try reflexivity; try (intros C; now contradiction C);
        try (intros _; exists event; now split).
      intros d. unfold decided. rewrite map_map. apply map_ext.
      intros e. destruct (has_id i e); reflexivity.
    + assert (N : status event <> PENDING).
      { intros S. apply is_pending_true in S. congruence. }
      repeat split; try reflexivity; try discriminate;
        try (intros [e [[= <-] S]]; contradiction).
      intros d. unfold decided. rewrite map_map. apply map_ext.
      intros e. destruct (has_id i e); reflexivity.
  - repeat split; try reflexivity; try discriminate;
      try (intros [e [[=] _]]).
    intros d. unfold decided. rewrite map_map. apply map_ext.
    intros e. destruct (has_id i e); reflexivity.
Qed.

Lemma decisions_only_on_pending_witness :
  (exists event, find (has_id "event-3") (db_events demo_db) = Some event
                 /\ status event = PENDING)
  /\ reply_code (fst (approveEvent "event-3" demo_db)) = 200
  /\ map status (db_events (snd (approveEvent "event-3" demo_db)))
     = [APPROVED; REJECTED; APPROVED]
  /\ snd (approveEvent "event-2" demo_db) = demo_db.
Proof.
  assert (H : exists event,
             find (has_id "event-3") (db_events demo_db) = Some event
             /\ status event = PENDING)
    by (exists lecture; split; reflexivity).
  split; [exact H|].
  pose proof (decisions_only_on_pending "event-3" demo_db)
    as (A & _ & _ & _ & S & _).
  pose proof (decisions_only_on_pending "event-2" demo_db)
    as (_ & _ & U & _).
  split; [exact (proj2 A H)|]. split.
  - rewrite (S (proj2 A H)). reflexivity.
  - apply U. discriminate.
Defined.

(** X21. A decision is final: once [approveEvent] or [rejectEvent] has
    answered 200 for an event, every further approval or rejection of it
    is answered 400 and changes nothing. *)
Theorem decisions_are_final :
  forall (i : string) (db : Database),
    (reply_code (fst (approveEvent i db)) = 200 ->
     approveEvent i (snd (approveEvent i db))
     = (fail 400 "Event is not pending approval", snd (approveEvent i db))
     /\ rejectEvent i (snd (approveEvent i db))
        = (fail 400 "Event is not pending approval", snd (approveEvent i db)))
    /\ (reply_code (fst (rejectEvent i db)) = 200 ->
        approveEvent i (snd (rejectEvent i db))
        = (fail 400 "Event is not pending approval", snd (rejectEvent i db))
        /\ rejectEvent i (snd (rejectEvent i db))
           = (fail 400 "Event is not pending approval",
              snd (rejectEvent i db))).
Proof.
  intros i db.
  assert (K : forall d msg err msg' err' d',
             d <> PENDING ->
             reply_code (fst (decide i d msg err db)) = 200 ->
             decide i d' msg' err' (snd (decide i d msg err db))
             = (fail 400 "Event is not pending approval",
                snd (decide i d msg err db))).
  { intros d msg err msg' err' d' Nd.
    rewrite (decide_run i d msg err db).
    destruct (find (has_id i) (db_events db)) as [event|] eqn:F;
      [|discriminate].
    destruct (is_pending event); [|discriminate]. intros _.
    rewrite decide_run. cbn [snd set_events_of db_events]. unfold decided.
    rewrite (find_changed (has_id i) (set_status d) (db_events db)
                          (fun _ => eq_refl)).
    rewrite F. cbn [option_map]. unfold is_pending.
    cbn [set_status status]. destruct d; try reflexivity.
    now contradiction Nd. }
  unfold approveEvent, rejectEvent.
  split; intros C; split; apply K; (discriminate || exact C).
Qed.

Lemma decisions_are_final_witness :
  reply_code (fst (approveEvent "event-3" demo_db)) = 200
  /\ fst (rejectEvent "event-3" (snd (approveEvent "event-3" demo_db)))
     = fail 400 "Event is not pending approval"
  /\ reply_code (fst (rejectEvent "event-3" demo_db)) = 200
  /\ fst (approveEvent "event-3" (snd (rejectEvent "event-3" demo_db)))
     = fail 400 "Event is not pending approval".
Proof.
  split; [reflexivity|]. split; [|split; [reflexivity|]].
  - destruct (proj1 (decisions_are_final "event-3" demo_db) eq_refl)
      as [_ R]. now rewrite R.
  - destruct (proj2 (decisions_are_final "event-3" demo_db) eq_refl)
      as [A _]. now rewrite A.
Defined.



(* ================================================================== *)
(** ** The dashboard *)

Lemma count_all {A} (l : list A) :
  count (fun _ => true) l = Z.of_nat (List.length l).
Proof.
  unfold count. f_equal. induction l as [|x l IH]; [reflexivity|].
  cbn. now rewrite IH.
Qed.

Lemma count_bounds {A} (p : A -> bool) (l : list A) :
  0 <= count p l <= Z.of_nat (List.length l).
Proof.
  unfold count. pose proof (filter_length_le p l). lia.
Qed.

Lemma count_disjoint {A} (p q : A -> bool) (l : list A) :
  (forall x, p x = true -> q x = false) ->
  count p l + count q l <= Z.of_nat (List.length l).
Proof.
  intros D. unfold count. induction l as [|x l IH]; [cbn; lia|].
  cbn [filter List.length]. destruct (p x) eqn:P.
  - rewrite (D x P). cbn [List.length]. lia.
  - destruct (q x); cbn [List.length]; lia.
Qed.

Lemma count_cons {A} (p : A -> bool) (x : A) (l : list A) :
  count p (x :: l) = (if p x then 1 else 0) + count p l.
Proof.
  unfold count. cbn [filter]. destruct (p x); cbn [List.length]; lia.
Qed.

Lemma sum_counts_positive (groups : list (UserRole * Z)) :
  Forall (fun g => 0 <= snd g) groups ->
  sum_counts (filter (fun g => 0 <? snd g) groups) = sum_counts groups.
Proof.
  induction 1 as [|g groups G _ IH]; [reflexivity|].
  cbn [filter]. destruct (Z.ltb_spec 0 (snd g)); cbn [sum_counts fold_right].
  - fold (sum_counts (filter (fun g => 0 <? snd g) groups)).
    fold (sum_counts groups). now rewrite IH.
  - fold (sum_counts groups). rewrite IH. lia.
Qed.

Lemma groupBy_role_total (l : list User) :
  sum_counts (groupBy_role l) = Z.of_nat (List.length l).
Proof.
  unfold groupBy_role. rewrite sum_counts_positive.
  - cbn [map sum_counts fold_right snd].
    induction l as [|u l IH]; [reflexivity|].
    rewrite !count_cons. cbn [List.length].
    destruct (role u); cbn [UserRole_eqb]; lia.
  - repeat constructor; cbn [snd]; apply count_bounds.
Qed.

(** X23. The dashboard numbers add up: [getDashboardStats] is answered
    200 without changing anything; the totals are the sizes of the
    tables; pending and upcoming events together are at most all events;
    the Registered registrations are at most all registrations; and the
    groups by role have distinct roles, each at least one user, and
    together account for every user. *)
Theorem dashboard_counts_are_consistent :
  forall (now : Z) (db : Database),
    exists stats,
      getDashboardStats now db
      = ({| reply_code := 200; payload := reply_stats stats |}, db)
      /\ totalUsers stats = Z.of_nat (List.length (db_users db))
      /\ totalEvents stats = Z.of_nat (List.length (db_events db))
      /\ 0 <= pendingEvents stats /\ 0 <= upcomingEvents stats
      /\ pendingEvents stats + upcomingEvents stats <= totalEvents stats
      /\ 0 <= totalRegistrations stats
         <= Z.of_nat (List.length (registrations db))
      /\ sum_counts (usersByRole stats) = totalUsers stats
      /\ Forall (fun g => 1 <= snd g) (usersByRole stats)
      /\ NoDup (map fst (usersByRole stats)).
Proof.
  intros now db. eexists. split; [reflexivity|].
  cbn [totalUsers totalEvents pendingEvents upcomingEvents
       totalRegistrations usersByRole].
  rewrite !count_all.
  split; [reflexivity|]. split; [reflexivity|].
  split; [apply count_bounds|]. split; [apply count_bounds|].
  split.
  { apply count_disjoint. intros e P. unfold is_pending in P.
    unfold is_upcoming. destruct (status e); try discriminate. reflexivity. }
  split; [apply count_bounds|].
  split; [apply groupBy_role_total|].
  split.
  - unfold groupBy_role. apply Forall_forall. intros g I.
    apply filter_In in I. destruct I as [_ I].
    apply Z.ltb_lt in I. lia.
  - unfold groupBy_role. cbn [map filter].
    repeat match goal with
           | |- context [0 <? ?x] => destruct (0 <? x)
           end; cbn [map fst];
      repeat constructor; cbn; intuition discriminate.
Qed.

(* ================================================================== *)
(** ** Deleting an event *)

Section DeleteRuns.
Context {st : Storage}.

Lemma deleteEvent_outcome i user db :
  (reply_code (fst (deleteEvent i user db)) <> 200
   /\ snd (deleteEvent i user db) = db)
  \/ exists event,
       find (has_id i) (db_events db) = Some event
       /\ (createdById event = au_id user \/ au_role user = ADMIN)
       /\ fst (deleteEvent i user db)
          = {| reply_code := 200;
               payload := reply_message "Event deleted successfully" |}
       /\ db_events (snd (deleteEvent i user db))
          = filter (fun e => negb (has_id i e)) (db_events db)
       /\ db_users (snd (deleteEvent i user db)) = db_users db
       /\ registrations (snd (deleteEvent i user db))
          = filter (fun r => negb (String.eqb (eventId r) i))
                   (registrations db)
       /\ (registrations_onDelete = Restrict ->
           registrations (snd (deleteEvent i user db)) = registrations db).
Proof.
  remember (deleteEvent i user db) as out eqn:E.
  unfold deleteEvent, op_catch in E.
  unfold op_bind at 1 in E. unfold event_findUnique at 1 in E.
  destruct (find (has_id i) (db_events db)) as [event|] eqn:F;
    [|subst out; left; split; [discriminate|reflexivity]].
  destruct (negb (String.eqb (createdById event) (au_id user))
            && negb (UserRole_eqb (au_role user) ADMIN)) eqn:Fb;
    [subst out; left; split; [discriminate|reflexivity]|].
  assert (Who : createdById event = au_id user \/ au_role user = ADMIN).
  { apply andb_false_iff in Fb. destruct Fb as [Fb|Fb];
      apply negb_false_iff in Fb.
    - left. now apply String.eqb_eq.
    - right. destruct (au_role user); (reflexivity || discriminate). }
  unfold op_bind, event_delete in E.
  rewrite (existsb_find _ _ _ F) in E. cbn [negb] in E.
  destruct registrations_onDelete eqn:A.
  - subst out. right. exists event. repeat split; auto. discriminate.
  - destruct (existsb (fun r => String.eqb (eventId r) i) (registrations db))
      eqn:X; [subst out; left; split; [discriminate|reflexivity]|].
    subst out. right. exists event.
    assert (Same : filter (fun r => negb (String.eqb (eventId r) i))
                          (registrations db) = registrations db).
    { apply forallb_filter_id. apply forallb_forall. intros r I.
      apply negb_true_iff. destruct (String.eqb (eventId r) i) eqn:Y;
        [|reflexivity].
      assert (T : existsb (fun r => String.eqb (eventId r) i)
                          (registrations db) = true)
        by (apply existsb_exists; now exists r).
      congruence. }
    cbn [fst snd set_events_of db_events db_users registrations op_ret].
    rewrite Same. repeat split; auto.
Qed.

End DeleteRuns.

(** X24. A deleted event is gone, with everything that referred to it:
    whichever way the schema treats the registrations of a deleted event,
    [deleteEvent] answers 200 only to the creator of an existing event or
    to an admin, and then the stored events are the others, unchanged and
    in order, no registration of the event is left while all other
    registrations remain, and the users are as before; any other answer
    changes nothing. *)
Theorem deleteEvent_removes_the_event :
  forall (st : Storage) (i : string) (user : AuthUser) (db : Database),
    (reply_code (fst (deleteEvent i user db)) = 200 ->
     (exists event,
         find (has_id i) (db_events db) = Some event
         /\ (createdById event = au_id user \/ au_role user = ADMIN))
     /\ db_events (snd (deleteEvent i user db))
        = filter (fun e => negb (has_id i e)) (db_events db)
     /\ (forall e, In e (db_events (snd (deleteEvent i user db))) ->
                   id e <> i)
     /\ (forall r, In r (registrations (snd (deleteEvent i user db)))
                   <-> In r (registrations db) /\ eventId r <> i)
     /\ db_users (snd (deleteEvent i user db)) = db_users db)
    /\ (reply_code (fst (deleteEvent i user db)) <> 200 ->
        snd (deleteEvent i user db) = db).
Proof.
  intros st i user db.
  destruct (deleteEvent_outcome i user db)
    as [[C E]|(event & F & Who & R & Ev & U & Rg & _)].
  - split; [intros C'; contradiction|auto].
  - split; [|intros C; rewrite R in C; now contradiction C].
    intros _. split; [exists event; auto|]. split; [exact Ev|].
    split; [|split; [|exact U]].
    + intros e I. rewrite Ev in I. apply filter_In in I.
      destruct I as [_ I]. apply negb_true_iff in I.
      intros X. apply has_id_eq in X. congruence.
    + intros r. rewrite Rg, filter_In, negb_true_iff, String.eqb_neq.
      tauto.
Qed.

Lemma deleteEvent_removes_the_event_witness :
  reply_code (fst (deleteEvent (st := demo_storage Cascade) "event-1"
                     {| au_id := "user-1"; au_role := ORGANIZER |} demo_db))
  = 200
  /\ map id (db_events (snd (deleteEvent (st := demo_storage Cascade)
                               "event-1"
                               {| au_id := "user-1"; au_role := ORGANIZER |}
                               demo_db))) = ["event-2"; "event-3"]
  /\ (forall r,
        In r (registrations (snd (deleteEvent (st := demo_storage Cascade)
                                    "event-1"
                                    {| au_id := "user-1";
                                       au_role := ORGANIZER |} demo_db)))
        <-> In r (registrations demo_db) /\ eventId r <> "event-1")
  /\ snd (deleteEvent (st := demo_storage Restrict) "event-1"
            {| au_id := "user-1"; au_role := ORGANIZER |} demo_db) = demo_db.
Proof.
  split; [reflexivity|]. split; [reflexivity|]. split.
  - exact (proj1 (proj2 (proj2 (proj2
             (proj1 (deleteEvent_removes_the_event (demo_storage Cascade)
                       "event-1" {| au_id := "user-1"; au_role := ORGANIZER |}
                       demo_db) eq_refl))))).
  - apply (proj2 (deleteEvent_removes_the_event (demo_storage Restrict)
                    "event-1" {| au_id := "user-1"; au_role := ORGANIZER |}
                    demo_db)).
    discriminate.
Defined.

(* ================================================================== *)
(** ** Listing events *)

Section ListRuns.
Context {st : Storage}.

Lemma getEvents_run now user q db :
  getEvents now user q db
  = match where_status (events_where now user q) with
    | Some s =>
        match EventStatus_of_string s with
        | None => (fail 500 "Failed to fetch events", db)
        | Some _ =>
            ({| reply_code := 200;
                payload := reply_events
                             (listed (events_where now user q) db) |}, db)
        end
    | None =>
        ({| reply_code := 200;
            payload := reply_events (listed (events_where now user q) db) |},
         db)
    end.
Proof.
  unfold getEvents, op_catch, op_bind, event_findMany_counting, listed.
  destruct (where_status (events_where now user q)) as [s|]; [|reflexivity].
  destruct (EventStatus_of_string s); reflexivity.
Qed.

Lemma in_listed wh db e n :
  In (e, n) (listed wh db) ->
  In e (db_events db) /\ selects wh e = true
  /\ n = count (fun r => String.eqb (eventId r) (id e)) (registrations db).
Proof.
  unfold listed. intros I. apply in_map_iff in I.
  destruct I as [x [[= <- <-] I]].
  apply (Permutation_in _ (Permutation_sym (EventSort.Permuted_sort _))) in I.
  apply filter_In in I. tauto.
Qed.

Lemma listed_sorted wh db :
  StronglySorted Z.le (map (fun p => startDate (fst p)) (listed wh db)).
Proof.
  unfold listed. rewrite map_map. cbn [fst]. apply sorted_by_startDate.
Qed.

End ListRuns.

Lemma EventStatus_eqb_eq (a b : EventStatus) :
  EventStatus_eqb a b = true <-> a = b.
Proof. destruct a, b; split; intros H; (reflexivity || discriminate). Qed.

(** X25. What [GET /events] lists.  The route runs [getEvents] with no
    authentication before it, so the handler never finds a user on the
    request, signed in or not.  The events of every answer are stored
    events in ascending order of start date, each with the number of its
    registrations.  A status given in the query is applied as given;
    without a status, and with no other filter, every stored event is
    listed, whatever its status and whoever asks.  With [upcoming=true]
    no listed event starts before now.  A status that is no status is
    answered 500.  Nothing is ever changed. *)
Theorem getEvents_order_and_visibility :
  forall (st : Storage) (now : Z) (q : EventsQuery) (db : Database),
    (forall evs,
        payload (fst (getEvents now None q db)) = reply_events evs ->
        StronglySorted Z.le (map (fun p => startDate (fst p)) evs)
        /\ (forall e n, In (e, n) evs ->
              In e (db_events db)
              /\ n = count (fun r => String.eqb (eventId r) (id e))
                           (registrations db))
        /\ (forall x, eq_status q <> EmptyString ->
              EventStatus_of_string (eq_status q) = Some x ->
              forall e n, In (e, n) evs -> status e = x)
        /\ (eq_status q = EmptyString ->
            eq_category q = EmptyString -> eq_search q = EmptyString ->
            eq_upcoming q <> "true" ->
            Permutation (map fst evs) (db_events db))
        /\ (eq_upcoming q = "true" ->
            forall e n, In (e, n) evs -> now <= startDate e))
    /\ (eq_status q = EmptyString ->
        exists evs,
          fst (getEvents now None q db)
          = {| reply_code := 200; payload := reply_events evs |})
    /\ (eq_status q <> EmptyString ->
        EventStatus_of_string (eq_status q) = None ->
        fst (getEvents now None q db) = fail 500 "Failed to fetch events")
    /\ snd (getEvents now None q db) = db.
Proof.
  intros st now q db.
  split; [|split; [|split]].
  - intros evs. rewrite getEvents_run.
    assert (K : evs = listed (events_where now None q) db ->
      StronglySorted Z.le (map (fun p => startDate (fst p)) evs)
      /\ (forall e n, In (e, n) evs ->
            In e (db_events db)
            /\ n = count (fun r => String.eqb (eventId r) (id e))
                         (registrations db))
      /\ (forall x, eq_status q <> EmptyString ->
            EventStatus_of_string (eq_status q) = Some x ->
            forall e n, In (e, n) evs -> status e = x)
      /\ (eq_status q = EmptyString ->
          eq_category q = EmptyString -> eq_search q = EmptyString ->
          eq_upcoming q <> "true" ->
          Permutation (map fst evs) (db_events db))
      /\ (eq_upcoming q = "true" ->
          forall e n, In (e, n) evs -> now <= startDate e)).
    { intros ->. split; [apply listed_sorted|].
      split; [intros e n I; apply in_listed in I; tauto|].
      split; [|split].
      - intros x Ns Hx e n I. apply in_listed in I.
        destruct I as (_ & S & _). unfold selects in S.
        apply truthy_true in Ns.
        cbn [events_where where_status] in S. rewrite Ns, Hx in S.
        repeat (apply andb_true_iff in S; destruct S as [S _]).
        now apply EventStatus_eqb_eq.
      - intros Es Ec Eq Eu. unfold listed. rewrite map_map. cbn [fst].
        rewrite map_id.
        apply Permutation_sym.
        eapply Permutation_trans; [|apply EventSort.Permuted_sort].
        assert (All : filter (selects (events_where now None q))
                             (db_events db) = db_events db).
        { apply forallb_filter_id. apply forallb_forall. intros e _.
          unfold selects. cbn [events_where where_status where_category
                               where_search where_startDate_gte].
          apply truthy_false in Es, Ec, Eq. rewrite Es, Ec, Eq.
          apply String.eqb_neq in Eu. rewrite Eu. reflexivity. }
        rewrite All. apply Permutation_refl.
      - intros Eu e n I. apply in_listed in I.
        destruct I as (_ & S & _). unfold selects in S.
        cbn [events_where where_startDate_gte] in S.
        apply String.eqb_eq in Eu. rewrite Eu in S.
        apply andb_true_iff in S. destruct S as [_ S].
        now apply Z.leb_le. }
    destruct (where_status (events_where now None q)) as [s|].
    + destruct (EventStatus_of_string s); [|discriminate].
      cbn [fst payload]. intros [= <-]. now apply K.
    + cbn [fst payload]. intros [= <-]. now apply K.
  - intros Es. rewrite getEvents_run.
    cbn [events_where where_status]. apply truthy_false in Es.
    rewrite Es. eexists. reflexivity.
  - intros Ns Hn. rewrite getEvents_run.
    cbn [events_where where_status]. apply truthy_true in Ns.
    now rewrite Ns, Hn.
  - rewrite getEvents_run.
    destruct (where_status (events_where now None q)) as [s|]; [|reflexivity].
    destruct (EventStatus_of_string s); reflexivity.
Qed.

Lemma getEvents_order_and_visibility_witness :
  exists evs,
    payload (fst (getEvents (st := demo_storage Restrict) demo_now None
                    {| eq_status := EmptyString;
                       eq_category := EmptyString;
                       eq_search := EmptyString;
                       eq_upcoming := EmptyString |} demo_db))
    = reply_events evs
    /\ Permutation (map fst evs) (db_events demo_db)
    /\ StronglySorted Z.le (map (fun p => startDate (fst p)) evs).
Proof.
  eexists. split; [reflexivity|].
  destruct (proj1 (getEvents_order_and_visibility (demo_storage Restrict)
                     demo_now
                     {| eq_status := EmptyString; eq_category := EmptyString;
                        eq_search := EmptyString;
                        eq_upcoming := EmptyString |} demo_db) _ eq_refl)
    as (S & _ & _ & P & _).
  split; [|exact S].
  apply P; try reflexivity. discriminate.
Defined.
